(** * Stencil build core: orchestration, per-file transpilation, state markers

    A shallow embedding of [src/compiler/build.ts], [src/compiler/transpile.ts]
    and the state-decorator transformer, followed by the properties checked
    against the specification.

    Conventions.
    - A JavaScript string is a [string] whose characters are read as code
      units below 256 (Latin-1); [<] on strings is the code-unit order.
    - [undefined]/[null] fields are [option]s; JavaScript truthiness is written
      out ([truthy_str], [is_Some]).
    - A thrown value or a rejected promise is a [JsThrown]; code that can throw
      lives in the monad [M] (state + exception + event trace).
    - Objects used as dictionaries ([FilesToWrite], [jsFiles]) are [gmap]s. *)

From Stdlib Require Import ZArith Lia Permutation Sorted Ascii String.
From stdpp Require Import base option list strings gmap sorting.

Open Scope string_scope.
Open Scope list_scope.

#[local] Set Warnings "-register-all".

(** ** JavaScript primitives *)

(** [!!s] for a string value: only the empty string is falsy. *)
Definition truthy_str (s : string) : bool :=
  match s with EmptyString => false | String _ _ => true end.

(** Truthiness of a possibly-undefined string. *)
Definition truthy_ostr (o : option string) : bool :=
  match o with Some s => truthy_str s | None => false end.

(** White space and line terminators of ECMAScript that fit in one Latin-1
    code unit: TAB, LF, VT, FF, CR, SP and NBSP. *)
Definition is_js_whitespace (c : ascii) : bool :=
  let n := N_of_ascii c in
  ((9 <=? n) && (n <=? 13) || (n =? 32) || (n =? 160))%N.

Fixpoint trimStart (s : string) : string :=
  match s with
  | EmptyString => EmptyString
  | String c s' => if is_js_whitespace c then trimStart s' else s
  end.

Fixpoint trimEnd (s : string) : string :=
  match s with
  | EmptyString => EmptyString
  | String c s' =>
      match trimEnd s' with
      | EmptyString => if is_js_whitespace c then EmptyString else String c EmptyString
      | t => String c t
      end
  end.

(** [String.prototype.trim]. *)
Definition trim (s : string) : string := trimEnd (trimStart s).

(** [String.prototype.toLowerCase] on Latin-1 code units: A-Z and the
    accented capitals U+00C0..U+00DE (but not the multiplication sign U+00D7)
    move up by 32. *)
Definition lower_char (c : ascii) : ascii :=
  let n := N_of_ascii c in
  if ((65 <=? n) && (n <=? 90) || (192 <=? n) && (n <=? 222) && negb (n =? 215))%N
  then ascii_of_N (n + 32) else c.

Fixpoint toLowerCase (s : string) : string :=
  match s with
  | EmptyString => EmptyString
  | String c s' => String (lower_char c) (toLowerCase s')
  end.

(** ** Thrown values and results *)

(** What a [throw] or a rejection can carry: a string primitive (as
    [validateBuildConfig] throws), an [Error]-like object with its
    [toString()] text and [stack], or [undefined]/[null]. *)
Inductive JsThrown :=
| ThrownString (s : string)
| ThrownError (text : string) (stack : option string)
| ThrownNullish.

Inductive JsResult (A : Type) :=
| Returned (a : A)
| Threw (e : JsThrown).
Arguments Returned {A} a.
Arguments Threw {A} e.

(** [err.toString()]; calling it on [undefined]/[null] is itself a TypeError. *)
Definition thrown_toString (e : JsThrown) : option string :=
  match e with
  | ThrownString s => Some s
  | ThrownError t _ => Some t
  | ThrownNullish => None
  end.

(** [err.stack]: only error objects carry one. *)
Definition thrown_stack (e : JsThrown) : option string :=
  match e with
  | ThrownError _ st => st
  | _ => None
  end.

Definition TypeError (what : string) : JsThrown :=
  ThrownError ("TypeError: " +:+ what) (Some ("TypeError: " +:+ what)).

(** ** Shared interfaces *)

(** [Diagnostic]: the fields written by build.ts ([msg], [type], [stack]) and
    by transpile.ts ([msg], [level], [filePath], [start], [length],
    [category], [code]). *)
Record Diagnostic := {
  d_msg : string;
  d_type : option string;
  d_level : option string;
  d_filePath : option string;
  d_start : option Z;
  d_length : option Z;
  d_category : option Z;
  d_code : option Z;
  d_stack : option string
}.

(** [Logger]: its [level] and the names of its function-valued properties
    beyond [error], [debug] and [createTimeSpan], which the sources call by
    name. *)
Record Logger := {
  level : string;
  methods : list string
}.

Definition logger_has (lg : Logger) (k : string) : bool :=
  existsb (String.eqb k) ("error" :: "debug" :: "createTimeSpan" :: methods lg).

(** The property key JavaScript uses for [logger[d.type]]. *)
Definition property_key (o : option string) : string :=
  match o with Some k => k | None => "undefined" end.

(** ** build.ts: data *)

(** [sys.path]: the two functions transpile.ts calls. *)
Record PathApi := {
  basename : string -> string;
  join : string -> string -> string
}.

Record SassConfig := {
  file : string;
  outFile : string
}.

(** What [sys.sass.render] hands to its callback: [err], or a result whose
    [stats.includedFiles] is the list given. *)
Inductive SassOutcome :=
| SassError (err : string)
| SassResult (includedFiles : list string).

Record SassApi := {
  render : SassConfig -> SassOutcome
}.

(** Hooks build.ts and transpile.ts never call into. *)
Inductive Capability := CapabilityHandle.

Record StencilSystem := {
  fs : option Capability;
  path : option PathApi;
  sass : option SassApi;
  rollup : option Capability;
  typescript : option Capability
}.

(** Opaque payloads handed from one collaborator to the next. *)
Record Manifest := { components : list string }.
Record Bundle := { bundle_components : list string }.
Record Collection := { collection_name : string }.

Record BuildConfig := {
  srcDir : option string;
  destDir : option string;
  rootDir : option string;
  sys : option StencilSystem;
  logger : Logger;
  isDevMode : bool;
  isWatch : bool;
  numWorkers : option Z;
  writeCompiledToDisk : option bool;
  bundles : option (list Bundle);
  collections : option (list Collection);
  namespace : option string
}.

Record CompilerOptions := {
  outDir : option string;
  module : string;
  target : string;
  co_rootDir : option string
}.

Record CompilerConfig := {
  compilerOptions : CompilerOptions;
  include : list (option string);
  exclude : list string;
  cc_isDevMode : bool;
  cc_bundles : option (list Bundle);
  cc_isWatch : bool;
  cc_writeCompiledToDisk : option bool
}.

Record BundlerConfig := {
  bc_namespace : option string;
  bc_srcDir : option string;
  bc_destDir : option string;
  bc_manifest : Manifest;
  bc_isDevMode : bool;
  bc_isWatch : bool
}.

(** [CompileResults]: every field the two source files touch. *)
Record CompileResults := {
  diagnostics : option (list Diagnostic);
  filesToWrite : option (gmap string string);
  manifest : option Manifest;
  jsFiles : gmap string string;
  includedSassFiles : option (list string)
}.

Record BundleResults := {
  br_diagnostics : option (list Diagnostic);
  br_filesToWrite : option (gmap string string);
  componentRegistry : list string
}.

Record BuildResults := {
  res_diagnostics : list Diagnostic;
  res_manifest : Manifest;
  res_componentRegistry : list string
}.

(** Everything build.ts does to the outside world, in order. *)
Inductive Event :=
| EvLogger (method msg : string)
| EvTimeSpanFinish (msg : string)
| EvConnect (count : option Z)
| EvDisconnect
| EvGenerateDependentManifests (cols : option (list Collection)) (root dest : option string)
| EvCompile (c : CompilerConfig)
| EvUpdateManifestUrls (m : Manifest)
| EvMergeManifests (ms : list Manifest)
| EvBundle (c : BundlerConfig)
| EvGenerateProjectFiles (registry : list string)
| EvWriteFiles (files : gmap string string) (dest : option string)
| EvUpdateDirectories (files : gmap string string) (dest : option string).

(** The imported functions of build.ts. Each either returns (its promise
    resolves) or throws (its promise rejects). [generateProjectFiles] is
    handed the mutable [filesToWrite] object and returns it as it left it. *)
Record Collaborators := {
  generateDependentManifests :
    option (list Collection) -> option string -> option string -> JsResult (list Manifest);
  compile : CompilerConfig -> JsResult CompileResults;
  updateManifestUrls : Manifest -> option string -> option string -> JsResult (option Manifest);
  mergeManifests : list Manifest -> JsResult Manifest;
  bundle : BundlerConfig -> JsResult BundleResults;
  generateProjectFiles :
    BuildConfig -> list string -> gmap string string -> JsResult (gmap string string);
  writeFiles : gmap string string -> option string -> JsResult unit;
  updateDirectories : gmap string string -> option string -> JsResult unit
}.

(** ** build.ts: validateBuildConfig *)

Definition validateBuildConfig (buildConfig : BuildConfig) : JsResult BuildConfig :=
  if negb (truthy_ostr (srcDir buildConfig)) then Threw (ThrownString "config.srcDir required")
  else match sys buildConfig with
  | None => Threw (ThrownString "config.sys required")
  | Some s =>
    if negb (bool_decide (is_Some (fs s))) then Threw (ThrownString "config.sys.fs required")
    else if negb (bool_decide (is_Some (path s))) then Threw (ThrownString "config.sys.path required")
    else if negb (bool_decide (is_Some (sass s))) then Threw (ThrownString "config.sys.sass required")
    else if negb (bool_decide (is_Some (rollup s))) then Threw (ThrownString "config.sys.rollup required")
    else if negb (bool_decide (is_Some (typescript s))) then
      Threw (ThrownString "config.sys.typescript required")
    else
      (* buildConfig.bundles = buildConfig.bundles || [] *)
      let bundles' := Some (default [] (bundles buildConfig)) in
      let collections' := Some (default [] (collections buildConfig)) in
      (* (buildConfig.namespace || 'App').trim() *)
      let ns1 := trim (if truthy_ostr (namespace buildConfig)
                       then default "" (namespace buildConfig) else "App") in
      (* (buildConfig.namespace || 'bundles').trim() *)
      let ns2 := trim (if truthy_str ns1 then ns1 else "bundles") in
      Returned {| srcDir := srcDir buildConfig; destDir := destDir buildConfig;
                  rootDir := rootDir buildConfig; sys := sys buildConfig;
                  logger := logger buildConfig; isDevMode := isDevMode buildConfig;
                  isWatch := isWatch buildConfig; numWorkers := numWorkers buildConfig;
                  writeCompiledToDisk := writeCompiledToDisk buildConfig;
                  bundles := bundles'; collections := collections'; namespace := Some ns2 |}
  end.

(** ** build.ts: the orchestrator *)

(** What a build mutates while it runs: the config object, the diagnostics of
    [buildResults], the [filesToWrite] buffer, and the trace of outside calls. *)
Record BuildState := {
  st_config : BuildConfig;
  st_diagnostics : list Diagnostic;
  st_filesToWrite : gmap string string;
  st_trace : list Event
}.

(** State, exceptions and trace. A throw keeps the state reached so far:
    JavaScript does not roll mutations back. *)
Definition M (A : Type) : Type := BuildState -> JsResult A * BuildState.

#[export] Instance M_ret : MRet M := fun A a st => (Returned a, st).
#[export] Instance M_bind : MBind M := fun A B f m st =>
  match m st with
  | (Returned a, st') => f a st'
  | (Threw e, st') => (Threw e, st')
  end.

Definition throw {A} (e : JsThrown) : M A := fun st => (Threw e, st).

Definition lift {A} (r : JsResult A) : M A := fun st => (r, st).

(** [p.catch(h)]. *)
Definition catch {A} (m : M A) (h : JsThrown -> M A) : M A := fun st =>
  match m st with
  | (Returned a, st') => (Returned a, st')
  | (Threw e, st') => h e st'
  end.

Definition get_config : M BuildConfig := fun st => (Returned (st_config st), st).
Definition get_diagnostics : M (list Diagnostic) := fun st => (Returned (st_diagnostics st), st).
Definition get_filesToWrite : M (gmap string string) :=
  fun st => (Returned (st_filesToWrite st), st).

Definition set_config (c : BuildConfig) : M unit := fun st =>
  (Returned tt, {| st_config := c; st_diagnostics := st_diagnostics st;
                   st_filesToWrite := st_filesToWrite st; st_trace := st_trace st |}).

Definition set_diagnostics (ds : list Diagnostic) : M unit := fun st =>
  (Returned tt, {| st_config := st_config st; st_diagnostics := ds;
                   st_filesToWrite := st_filesToWrite st; st_trace := st_trace st |}).

Definition set_filesToWrite (f : gmap string string) : M unit := fun st =>
  (Returned tt, {| st_config := st_config st; st_diagnostics := st_diagnostics st;
                   st_filesToWrite := f; st_trace := st_trace st |}).

Definition emit (ev : Event) : M unit := fun st =>
  (Returned tt, {| st_config := st_config st; st_diagnostics := st_diagnostics st;
                   st_filesToWrite := st_filesToWrite st; st_trace := st_trace st ++ [ev] |}).

(** A call to an imported function: recorded, then its outcome. *)
Definition call {A} (ev : Event) (r : JsResult A) : M A := emit ev;; lift r.

(** [buildResults.diagnostics = buildResults.diagnostics.concat(ds)] when
    [ds] is defined. *)
Definition concat_diagnostics (ods : option (list Diagnostic)) : M unit :=
  match ods with
  | Some ds => cur ← get_diagnostics; set_diagnostics (cur ++ ds)
  | None => mret tt
  end.

(** [Object.assign(filesToWrite, f)] when [f] is defined: entries of [f] win. *)
Definition assign_filesToWrite (ofs : option (gmap string string)) : M unit :=
  match ofs with
  | Some f => cur ← get_filesToWrite; set_filesToWrite (f ∪ cur)
  | None => mret tt
  end.

Definition set_writeCompiledToDisk (v : bool) (c : BuildConfig) : BuildConfig :=
  {| srcDir := srcDir c; destDir := destDir c; rootDir := rootDir c; sys := sys c;
     logger := logger c; isDevMode := isDevMode c; isWatch := isWatch c;
     numWorkers := numWorkers c; writeCompiledToDisk := Some v;
     bundles := bundles c; collections := collections c; namespace := namespace c |}.

Definition error_diagnostic (msg : string) (stack : option string) : Diagnostic :=
  {| d_msg := msg; d_type := Some "error"; d_level := None; d_filePath := None;
     d_start := None; d_length := None; d_category := None; d_code := None;
     d_stack := stack |}.

(** The body of the [forEach] in the last [then]. *)
Definition log_diagnostic (lg : Logger) (d : Diagnostic) : M unit :=
  if bool_decide (d_type d = Some "error") && String.eqb (level lg) "debug"
     && truthy_ostr (d_stack d)
  then emit (EvLogger "error" (default "" (d_stack d)))
  else
    let k := property_key (d_type d) in
    if logger_has lg k then emit (EvLogger k (d_msg d))
    else throw (TypeError "logger[d.type] is not a function").

Fixpoint log_diagnostics (lg : Logger) (ds : list Diagnostic) : M unit :=
  match ds with
  | [] => mret tt
  | d :: ds' => log_diagnostic lg d;; log_diagnostics lg ds'
  end.

Section Build.
Context (ext : Collaborators).

Definition compileProject : M CompileResults :=
  buildConfig ← get_config;
  let config :=
    {| compilerOptions := {| outDir := destDir buildConfig; module := "commonjs";
                             target := "es5"; co_rootDir := srcDir buildConfig |};
       include := [srcDir buildConfig];
       exclude := ["node_modules"; "test"];
       cc_isDevMode := isDevMode buildConfig;
       cc_bundles := bundles buildConfig;
       cc_isWatch := isWatch buildConfig;
       cc_writeCompiledToDisk := writeCompiledToDisk buildConfig |} in
  call (EvCompile config) (compile ext config).

Definition bundleProject (m : Manifest) : M BundleResults :=
  buildConfig ← get_config;
  let bundlerConfig :=
    {| bc_namespace := namespace buildConfig; bc_srcDir := srcDir buildConfig;
       bc_destDir := destDir buildConfig; bc_manifest := m;
       bc_isDevMode := isDevMode buildConfig; bc_isWatch := isWatch buildConfig |} in
  call (EvBundle bundlerConfig) (bundle ext bundlerConfig).

(** First [then]: validate, then discover the dependent manifests. *)
Definition stage_validate : M (list Manifest) :=
  buildConfig ← get_config;
  validated ← lift (validateBuildConfig buildConfig);
  set_config validated;;
  call (EvGenerateDependentManifests (collections validated) (rootDir validated)
                                     (destDir validated))
       (generateDependentManifests ext (collections validated) (rootDir validated)
                                   (destDir validated)).

(** Second [then]: compile and merge the manifests. *)
Definition stage_compile (dependentManifests : list Manifest) : M Manifest :=
  compileResults ← compileProject;
  concat_diagnostics (diagnostics compileResults);;
  assign_filesToWrite (filesToWrite compileResults);;
  let resultsManifest := default {| components := [] |} (manifest compileResults) in
  buildConfig ← get_config;
  localManifest ← call (EvUpdateManifestUrls resultsManifest)
    (updateManifestUrls ext resultsManifest (destDir buildConfig) (destDir buildConfig));
  let all := option_list localManifest ++ dependentManifests in
  call (EvMergeManifests all) (mergeManifests ext all).

(** Third [then]: bundle and generate the project files. *)
Definition stage_bundle (m : Manifest) : M unit :=
  bundleResults ← bundleProject m;
  concat_diagnostics (br_diagnostics bundleResults);;
  assign_filesToWrite (br_filesToWrite bundleResults);;
  buildConfig ← get_config;
  files ← get_filesToWrite;
  files' ← call (EvGenerateProjectFiles (componentRegistry bundleResults))
    (generateProjectFiles ext buildConfig (componentRegistry bundleResults) files);
  set_filesToWrite files'.

(** Fourth [then]: write all the files in one go. *)
Definition stage_write : M unit :=
  buildConfig ← get_config;
  files ← get_filesToWrite;
  if isDevMode buildConfig
  then call (EvWriteFiles files (destDir buildConfig))
            (writeFiles ext files (destDir buildConfig))
  else call (EvUpdateDirectories files (destDir buildConfig))
            (updateDirectories ext files (destDir buildConfig)).

Definition stages : M unit :=
  dependentManifests ← stage_validate;
  m ← stage_compile dependentManifests;
  stage_bundle m;;
  stage_write.

(** The [catch] handler. [err.toString()] on [undefined] throws. *)
Definition on_error (err : JsThrown) : M unit :=
  match thrown_toString err with
  | Some msg =>
      cur ← get_diagnostics;
      set_diagnostics (cur ++ [error_diagnostic msg (thrown_stack err)])
  | None => throw (TypeError "Cannot read property 'toString' of undefined")
  end.

(** The last [then]. *)
Definition finalize (lg : Logger) : M BuildResults :=
  ds ← get_diagnostics;
  log_diagnostics lg ds;;
  buildConfig ← get_config;
  (if isWatch buildConfig
   then emit (EvTimeSpanFinish "build ready, watching files...")
   else emit EvDisconnect;; emit (EvTimeSpanFinish "build finished"));;
  ds' ← get_diagnostics;
  mret {| res_diagnostics := ds'; res_manifest := {| components := [] |};
          res_componentRegistry := [] |}.

Definition build_m (lg : Logger) : M BuildResults :=
  buildConfig ← get_config;
  emit (EvLogger "createTimeSpan"
          ("build, " +:+ (if isDevMode buildConfig then "dev" else "prod") +:+ " mode, started"));;
  set_config (set_writeCompiledToDisk false buildConfig);;
  emit (EvConnect (numWorkers buildConfig));;
  catch stages on_error;;
  finalize lg.

(** [build(buildConfig)]: what the returned promise settles to, and the
    state the build leaves behind. *)
Definition build (buildConfig : BuildConfig) : JsResult BuildResults * BuildState :=
  build_m (logger buildConfig)
    {| st_config := buildConfig; st_diagnostics := []; st_filesToWrite := ∅;
       st_trace := [] |}.
End Build.

(** ** transpile.ts: data *)

Record StyleMeta := {
  styleUrls : option (list string)
}.

(** [cmpMeta]: the style modes in [Object.keys] order, and the state names. *)
Record ComponentMeta := {
  styleMeta : option (list (string * StyleMeta));
  statesMeta : list string
}.

Record ModuleFileMeta := {
  mf_filePath : string;
  mf_srcDir : string;
  mf_srcText : string;
  mf_jsFilePath : option string;
  mf_jsText : option string;
  mf_isTsSourceFile : bool;
  mf_cmpMeta : option ComponentMeta;
  mf_recompileOnChange : bool
}.

(** A diagnostic as the TypeScript compiler reports it. *)
Record TsDiagnostic := {
  messageText : string;
  ts_file : option string;
  ts_start : option Z;
  ts_length : option Z;
  ts_category : Z;
  ts_code : Z
}.

(** One call of [tsHost.writeFile] made by [program.emit]. *)
Record WriteFileCall := {
  w_jsFilePath : string;
  w_jsText : string;
  w_sourceFiles : list string
}.

(** What [program.emit] does: the [writeFile] calls it makes, then the
    diagnostics it returns. *)
Record EmitOutput := {
  emit_writes : list WriteFileCall;
  emit_diagnostics : list TsDiagnostic
}.

Inductive Transformer :=
| componentClass
| removeImports
| updateLifecycleMethods
| jsxToVNode.

#[export] Instance Transformer_eq_dec : EqDecision Transformer.
Proof. solve_decision. Defined.

Record CustomTransformers := {
  before : list Transformer;
  after : list Transformer
}.

(** The hooks transpile.ts calls; they are present once [validateBuildConfig]
    has passed. *)
Record TranspileSystem := {
  t_path : PathApi;
  t_sass : SassApi
}.

(** The objects a [transpileFile] call mutates: [ctx.moduleFiles], its
    [compileResults], the log, the [sys.sass.render] calls made so far (the
    n-th call belongs to the n-th promise of [getIncludedSassFiles]) and the
    promises already resolved. *)
Record TranspileState := {
  moduleFiles : gmap string ModuleFileMeta;
  results : CompileResults;
  log : list (string * string);
  renders : list SassConfig;
  resolved : list nat
}.

(** ** transpile.ts: style processing *)

(** [if (xs.indexOf(x) === -1) xs.push(x)]. *)
Definition push_unique (xs : list string) (x : string) : list string :=
  if existsb (String.eqb x) xs then xs else xs ++ [x].

Definition set_includedSassFiles (v : option (list string)) (r : CompileResults)
  : CompileResults :=
  {| diagnostics := diagnostics r; filesToWrite := filesToWrite r; manifest := manifest r;
     jsFiles := jsFiles r; includedSassFiles := v |}.

Definition set_jsFile (p t : string) (r : CompileResults) : CompileResults :=
  {| diagnostics := diagnostics r; filesToWrite := filesToWrite r; manifest := manifest r;
     jsFiles := <[p := t]> (jsFiles r); includedSassFiles := includedSassFiles r |}.

Definition set_diagnostics_of (ds : list Diagnostic) (r : CompileResults) : CompileResults :=
  {| diagnostics := Some ds; filesToWrite := filesToWrite r; manifest := manifest r;
     jsFiles := jsFiles r; includedSassFiles := includedSassFiles r |}.

Definition with_results (r : CompileResults) (st : TranspileState) : TranspileState :=
  {| moduleFiles := moduleFiles st; results := r; log := log st; renders := renders st;
     resolved := resolved st |}.

Definition with_moduleFiles (m : gmap string ModuleFileMeta) (st : TranspileState)
  : TranspileState :=
  {| moduleFiles := m; results := results st; log := log st; renders := renders st;
     resolved := resolved st |}.

Definition add_log (method msg : string) (st : TranspileState) : TranspileState :=
  {| moduleFiles := moduleFiles st; results := results st; log := log st ++ [(method, msg)];
     renders := renders st; resolved := resolved st |}.

Definition add_render (c : SassConfig) (st : TranspileState) : TranspileState :=
  {| moduleFiles := moduleFiles st; results := results st; log := log st;
     renders := renders st ++ [c]; resolved := resolved st |}.

Definition add_resolved (id : nat) (st : TranspileState) : TranspileState :=
  {| moduleFiles := moduleFiles st; results := results st; log := log st;
     renders := renders st; resolved := resolved st ++ [id] |}.

(** The synchronous part of [getIncludedSassFiles]: the promise executor up
    to and including the call of [sys.sass.render]. Returns the promise. *)
Definition getIncludedSassFiles (scssFilePath : string) (st : TranspileState)
  : nat * TranspileState :=
  let sassConfig := {| file := scssFilePath; outFile := scssFilePath +:+ ".tmp" |} in
  let included := push_unique (default [] (includedSassFiles (results st))) scssFilePath in
  let st := with_results (set_includedSassFiles (Some included) (results st)) st in
  let st := add_log "debug" ("compile, getIncludedSassFiles: " +:+ scssFilePath) st in
  (length (renders st), add_render sassConfig st).

(** The callback handed to [sys.sass.render], run for promise [id]. *)
Definition render_callback (id : nat) (outcome : SassOutcome) (st : TranspileState)
  : TranspileState :=
  let st :=
    match outcome with
    | SassError err => add_log "error" ("sass.render, getIncludedSassFiles, " +:+ err) st
    | SassResult includedFiles =>
        let included :=
          fold_left push_unique includedFiles (default [] (includedSassFiles (results st))) in
        with_results (set_includedSassFiles (Some included) (results st)) st
    end in
  (* always resolve *)
  add_resolved id st.

(** The style URLs of every mode, in the order the nested [forEach] visits
    them. *)
Definition all_styleUrls (modes : list (string * StyleMeta)) : list string :=
  flat_map (fun m => default [] (styleUrls (snd m))) modes.

(** [processIncludedStyles]; the result is the list of promises given to
    [Promise.all] (empty for [Promise.resolve(null)]). *)
Definition processIncludedStyles (sys : TranspileSystem) (compilerConfig : CompilerConfig)
    (moduleFile : ModuleFileMeta) (st : TranspileState) : list nat * TranspileState :=
  match (if mf_isTsSourceFile moduleFile then mf_cmpMeta moduleFile else None) ≫= styleMeta with
  | None => ([], st)
  | Some modes =>
      let destDir := outDir (compilerOptions compilerConfig) in
      let st := add_log "debug"
                  ("compile, processStyles, destDir " +:+ default "undefined" destDir) st in
      let st := with_results
                  (set_includedSassFiles
                     (Some (default [] (includedSassFiles (results st)))) (results st)) st in
      fold_left
        (fun acc styleUrl =>
           let scssFileName := basename (t_path sys) styleUrl in
           let scssFilePath := join (t_path sys) (mf_srcDir moduleFile) scssFileName in
           let '(id, st') := getIncludedSassFiles scssFilePath (snd acc) in
           (fst acc ++ [id], st'))
        (all_styleUrls modes) ([], st)
  end.

(** ** transpile.ts: transpileFile *)

Definition touch_moduleFile (jsFilePath jsText : string) (m : ModuleFileMeta)
  : ModuleFileMeta :=
  {| mf_filePath := mf_filePath m; mf_srcDir := mf_srcDir m; mf_srcText := mf_srcText m;
     mf_jsFilePath := Some jsFilePath; mf_jsText := Some jsText;
     mf_isTsSourceFile := mf_isTsSourceFile m; mf_cmpMeta := mf_cmpMeta m;
     mf_recompileOnChange := true |}.

(** [tsHost.writeFile]. The promise of [processIncludedStyles] is dropped. *)
Definition writeFile (sys : TranspileSystem) (compilerConfig : CompilerConfig)
    (w : WriteFileCall) (st : TranspileState) : TranspileState :=
  let st :=
    fold_left
      (fun st fileName =>
         match moduleFiles st !! fileName with
         | Some moduleFile =>
             let moduleFile := touch_moduleFile (w_jsFilePath w) (w_jsText w) moduleFile in
             let st := with_moduleFiles (<[fileName := moduleFile]> (moduleFiles st)) st in
             snd (processIncludedStyles sys compilerConfig moduleFile st)
         | None => st
         end)
      (w_sourceFiles w) st in
  with_results (set_jsFile (w_jsFilePath w) (w_jsText w) (results st)) st.

Definition to_diagnostic (d : TsDiagnostic) : Diagnostic :=
  {| d_msg := messageText d; d_type := None; d_level := Some "error";
     d_filePath := ts_file d; d_start := ts_start d; d_length := ts_length d;
     d_category := Some (ts_category d); d_code := Some (ts_code d); d_stack := None |}.

(** The [customTransformers] argument of [program.emit]. *)
Definition customTransformers : CustomTransformers :=
  {| before := [componentClass; removeImports; updateLifecycleMethods];
     after := [jsxToVNode] |}.

(** The objects a fresh [transpileFile] call starts from:
    [compileResults = { jsFiles: {} }]. *)
Definition new_transpile_state (ctx : gmap string ModuleFileMeta) : TranspileState :=
  {| moduleFiles := ctx;
     results := {| diagnostics := None; filesToWrite := None; manifest := None;
                   jsFiles := ∅; includedSassFiles := None |};
     log := []; renders := []; resolved := [] |}.

(** [transpileFile] up to its [return]: [program_emit] stands for
    [ts.createProgram(...).emit(...)], which gets the transformers and calls
    back into [writeFile]. The render callbacks have not run yet. *)
Definition transpileFile (sys : TranspileSystem) (program_emit : CustomTransformers -> EmitOutput)
    (ctx : gmap string ModuleFileMeta) (compilerConfig : CompilerConfig)
    : TranspileState :=
  let st := new_transpile_state ctx in
  let result := program_emit customTransformers in
  let st := fold_left (fun st w => writeFile sys compilerConfig w st) (emit_writes result) st in
  with_results (set_diagnostics_of (map to_diagnostic (emit_diagnostics result)) (results st)) st.

(** The render callback of promise [id] fires, unless the promise is
    unknown or already resolved. *)
Definition fire_callback (sys : TranspileSystem) (st : TranspileState) (id : nat)
  : TranspileState :=
  match renders st !! id with
  | Some c =>
      if bool_decide (id ∈ resolved st) then st
      else render_callback id (render (t_sass sys) c) st
  | None => st
  end.

(** The render callbacks that fire later, in the order [sched] names their
    promises. *)
Definition run_callbacks (sys : TranspileSystem) (sched : list nat) (st : TranspileState)
  : TranspileState :=
  fold_left (fire_callback sys) sched st.

(** ** What [program.emit] does with its transformers *)

Section Emit.
Context {Tree : Type}.
Context (run : Transformer -> Tree -> Tree) (lowering : Tree -> Tree).

(** Modelled from the spec: how the TypeScript compiler runs one group of
    transformers is not under src. Spec 4.2 and 5: the passes are applied to
    the file's syntax tree in a fixed sequence, each on the tree the previous
    one left. *)
Definition apply_transformers (ts : list Transformer) (t : Tree) : Tree :=
  fold_left (fun t f => run f t) ts t.

(** Modelled from the spec: [program.emit] belongs to the TypeScript
    compiler, whose code is not under src. Spec 4.2: the passes of the first
    group run before type-checked emission, the template rewriting runs after
    emission, on the already-lowered tree. So a tree goes through the
    [before] list, the compiler's own lowering, then the [after] list. *)
Definition emit_pipeline (ct : CustomTransformers) (t : Tree) : Tree :=
  apply_transformers (after ct) (lowering (apply_transformers (before ct) t)).
End Emit.

(** ** Node's POSIX [path], the usual [sys.path] *)

Definition is_slash (c : ascii) : bool := (N_of_ascii c =? 47)%N.

(** [s.split('/')]. *)
Fixpoint split_slash (s : string) : list string :=
  match s with
  | EmptyString => [EmptyString]
  | String c s' =>
      if is_slash c then EmptyString :: split_slash s'
      else match split_slash s' with
           | [] => [String c EmptyString]
           | seg :: rest => String c seg :: rest
           end
  end.

Fixpoint join_slash (segs : list string) : string :=
  match segs with
  | [] => ""
  | [seg] => seg
  | seg :: rest => seg +:+ "/" +:+ join_slash rest
  end.

(** One step of [normalizeString]: [res] is the stack of kept segments, last
    one first. *)
Definition normalize_step (allowAboveRoot : bool) (res : list string) (seg : string)
  : list string :=
  if String.eqb seg "" || String.eqb seg "." then res
  else if String.eqb seg ".." then
    match res with
    | top :: res' =>
        if String.eqb top ".." then (if allowAboveRoot then ".." :: res else res) else res'
    | [] => if allowAboveRoot then [".."] else []
    end
  else seg :: res.

Definition ends_with_slash (s : string) : bool :=
  match last (list_ascii_of_string s) with
  | Some c => is_slash c
  | None => false
  end.

(** [path.posix.normalize]. *)
Definition posix_normalize (p : string) : string :=
  match p with
  | EmptyString => "."
  | String c _ =>
      let isAbsolute := is_slash c in
      let trailingSeparator := ends_with_slash p in
      let body :=
        join_slash (rev (fold_left (normalize_step (negb isAbsolute)) (split_slash p) [])) in
      let body := if negb (truthy_str body) && negb isAbsolute then "." else body in
      let body := if truthy_str body && trailingSeparator then body +:+ "/" else body in
      if isAbsolute then "/" +:+ body else body
  end.

(** [path.posix.join(a, b)]. *)
Definition posix_join (a b : string) : string :=
  match truthy_str a, truthy_str b with
  | true, true => posix_normalize (a +:+ "/" +:+ b)
  | true, false => posix_normalize a
  | false, true => posix_normalize b
  | false, false => "."
  end.

(** [path.posix.basename(p)]: the last non-empty segment. *)
Definition posix_basename (p : string) : string :=
  default "" (last (filter (fun seg => truthy_str seg = true) (split_slash p))).

Definition posix_path : PathApi := {| basename := posix_basename; join := posix_join |}.

(** ** state-decorator.ts: the syntax tree *)

Inductive SyntaxKind :=
| AtToken | OpenParenToken | CloseParenToken | DotToken | Keyword
| Identifier | StringLiteral | NumericLiteral
| Decorator | CallExpression | PropertyAccessExpression | ComputedPropertyName
| TypeReference | SyntaxList | OtherNode.

#[export] Instance SyntaxKind_eq_dec : EqDecision SyntaxKind.
Proof. solve_decision. Defined.

(** [kind < SyntaxKind.FirstNode]: punctuation, keywords, identifiers and
    literals are tokens. *)
Definition is_token (k : SyntaxKind) : bool :=
  match k with
  | AtToken | OpenParenToken | CloseParenToken | DotToken | Keyword
  | Identifier | StringLiteral | NumericLiteral => true
  | _ => false
  end.

(** A node with its [kind], its source text ([getText()]) and its children
    as [getChildren()] lists them. *)
Inductive Node := MkNode (kind : SyntaxKind) (text : string) (children : list Node).

Definition kind (n : Node) : SyntaxKind := let 'MkNode k _ _ := n in k.
Definition getText (n : Node) : string := let 'MkNode _ t _ := n in t.
Definition getChildren (n : Node) : list Node := let 'MkNode _ _ c := n in c.
Definition getChildCount (n : Node) : nat := length (getChildren n).
Definition getChildAt (n : Node) (i : nat) : option Node := getChildren n !! i.

(** [getFirstToken()]: [undefined] for a node without children, else the
    first child if it is a token, else that child's first token. *)
Fixpoint getFirstToken (n : Node) : option Node :=
  match n with
  | MkNode _ _ [] => None
  | MkNode _ _ (child :: _) =>
      if is_token (kind child) then Some child else getFirstToken child
  end.

(** A class member: its [decorators] property and the other child nodes
    (modifiers, name, type, initializer, ...) in source order. *)
Record ClassElement := {
  decorators : option (list Node);
  others : list Node
}.

(** [memberNode.forEachChild(cb)] with a callback that never returns a truthy
    value: the decorators, then the rest. *)
Definition forEachChild (m : ClassElement) : list Node :=
  default [] (decorators m) ++ others m.

(** ** state-decorator.ts: getStateDecoratorMeta *)

(** The test applied to [n.getChildAt(1)] of a decorator. *)
Definition is_State_expression (child : Node) : bool :=
  match getFirstToken child with
  | Some firstToken => String.eqb (getText firstToken) "State"
  | None => String.eqb (getText child) "State"
  end.

(** The callback of [forEachChild], threading [isState] and [propName]. *)
Definition visit_child (acc : bool * option string) (n : Node) : bool * option string :=
  let '(isState, propName) := acc in
  if bool_decide (kind n = Decorator) && (1 <? getChildCount n)%nat then
    match getChildAt n 1 with
    | Some child => if is_State_expression child then (true, propName) else acc
    | None => acc
    end
  else if isState then
    if bool_decide (kind n = Identifier) && negb (truthy_ostr propName)
    then (isState, Some (getText n))
    else acc
  else acc.

Definition scan_member (m : ClassElement) : bool * option string :=
  fold_left visit_child (forEachChild m) (false, None).

(** [n.decorators && n.decorators.length]. *)
Definition has_decorators (m : ClassElement) : bool :=
  match decorators m with
  | Some (_ :: _) => true
  | _ => false
  end.

(** The name a member contributes to [statesMeta], if any. *)
Definition state_name (m : ClassElement) : option string :=
  if has_decorators m then
    match scan_member m with
    | (true, Some propName) => if truthy_str propName then Some propName else None
    | _ => None
    end
  else None.

(** [memberNode.decorators = undefined] for a member that was recorded. *)
Definition strip_member (m : ClassElement) : ClassElement :=
  match state_name m with
  | Some _ => {| decorators := None; others := others m |}
  | None => m
  end.

(** The comparator given to [sort]. *)
Definition compareFn (a b : string) : Z :=
  if String.ltb (toLowerCase a) (toLowerCase b) then (-1)%Z
  else if String.ltb (toLowerCase b) (toLowerCase a) then 1%Z
  else 0%Z.

(** [Array.prototype.sort(cmp)] as ECMAScript 2019 defines it: stable. *)
Fixpoint sort_insert (cmp : string -> string -> Z) (x : string) (l : list string)
  : list string :=
  match l with
  | [] => [x]
  | y :: l' => if (cmp x y <=? 0)%Z then x :: y :: l' else y :: sort_insert cmp x l'
  end.

Definition sort (cmp : string -> string -> Z) (l : list string) : list string :=
  fold_right (sort_insert cmp) [] l.

(** [getStateDecoratorMeta(fileMeta, classNode)]: the new
    [fileMeta.cmpMeta.statesMeta] and the members of [classNode] as the call
    leaves them. [statesMeta] is reset first, so its old value plays no part. *)
Definition getStateDecoratorMeta (members : list ClassElement)
  : list string * list ClassElement :=
  (sort compareFn (omap state_name members), map strip_member members).


(** * Vocabulary of the properties *)

(** ** Configuration *)

(** The fields [validateBuildConfig] requires, in the order it tests them. *)
Inductive RequiredField :=
| F_srcDir | F_sys | F_sys_fs | F_sys_path | F_sys_sass | F_sys_rollup | F_sys_typescript.

Definition field_name (f : RequiredField) : string :=
  match f with
  | F_srcDir => "srcDir"
  | F_sys => "sys"
  | F_sys_fs => "sys.fs"
  | F_sys_path => "sys.path"
  | F_sys_sass => "sys.sass"
  | F_sys_rollup => "sys.rollup"
  | F_sys_typescript => "sys.typescript"
  end.

Definition field_rank (f : RequiredField) : nat :=
  match f with
  | F_srcDir => 0
  | F_sys => 1
  | F_sys_fs => 2
  | F_sys_path => 3
  | F_sys_sass => 4
  | F_sys_rollup => 5
  | F_sys_typescript => 6
  end.

Definition absent {A} (o : option A) : bool :=
  match o with Some _ => false | None => true end.

(** A required field is missing when it is absent; [srcDir] also when it is
    the empty string, and a hook of [sys] also when [sys] itself is absent. *)
Definition field_missing (f : RequiredField) (c : BuildConfig) : bool :=
  match f with
  | F_srcDir => negb (truthy_ostr (srcDir c))
  | F_sys => absent (sys c)
  | F_sys_fs => absent (sys c ≫= fs)
  | F_sys_path => absent (sys c ≫= path)
  | F_sys_sass => absent (sys c ≫= sass)
  | F_sys_rollup => absent (sys c ≫= rollup)
  | F_sys_typescript => absent (sys c ≫= typescript)
  end.

Definition required_message (f : RequiredField) : string :=
  "config." +:+ field_name f +:+ " required".

(** Calls that belong to a stage after validation. *)
Definition is_stage_event (ev : Event) : bool :=
  match ev with
  | EvGenerateDependentManifests _ _ _ | EvCompile _ | EvUpdateManifestUrls _
  | EvMergeManifests _ | EvBundle _ | EvGenerateProjectFiles _
  | EvWriteFiles _ _ | EvUpdateDirectories _ _ => true
  | _ => false
  end.

(** Calls that put files on disk. *)
Definition is_write_event (ev : Event) : bool :=
  match ev with
  | EvWriteFiles _ _ | EvUpdateDirectories _ _ => true
  | _ => false
  end.

Definition is_disconnect (ev : Event) : bool :=
  match ev with EvDisconnect => true | _ => false end.

Definition is_logger_event (ev : Event) : bool :=
  match ev with EvLogger _ _ => true | _ => false end.

Definition started_message (c : BuildConfig) : string :=
  "build, " +:+ (if isDevMode c then "dev" else "prod") +:+ " mode, started".

(** What the last [then] does after the diagnostics are logged. *)
Definition closing_events (c : BuildConfig) : list Event :=
  if isWatch c then [EvTimeSpanFinish "build ready, watching files..."]
  else [EvDisconnect; EvTimeSpanFinish "build finished"].

Definition empty_results (ds : list Diagnostic) : BuildResults :=
  {| res_diagnostics := ds; res_manifest := {| components := [] |};
     res_componentRegistry := [] |}.

Fixpoint all_whitespace (s : string) : bool :=
  match s with
  | EmptyString => true
  | String c s' => is_js_whitespace c && all_whitespace s'
  end.

(** The state after some more outside calls. *)
Definition add_events (evs : list Event) (st : BuildState) : BuildState :=
  {| st_config := st_config st; st_diagnostics := st_diagnostics st;
     st_filesToWrite := st_filesToWrite st; st_trace := st_trace st ++ evs |}.

(** The state a build is in when its first [then] starts: the config has
    been mutated and the pool connected. *)
Definition state_before_validation (c : BuildConfig) : BuildState :=
  {| st_config := set_writeCompiledToDisk false c; st_diagnostics := [];
     st_filesToWrite := ∅;
     st_trace := [EvLogger "createTimeSpan" (started_message c); EvConnect (numWorkers c)] |}.

(** A later state of the same build: the trace has only grown and
    [writeCompiledToDisk] is what it was. *)
Definition evolves (st st' : BuildState) : Prop :=
  st_trace st `prefix_of` st_trace st' /\
  writeCompiledToDisk (st_config st') = writeCompiledToDisk (st_config st).

Definition steady {A} (m : M A) : Prop := forall st, evolves st (m st).2.

(** A diagnostic the last [then] can log without throwing. *)
Definition loggable (lg : Logger) (d : Diagnostic) : bool :=
  bool_decide (d_type d = Some "error") && String.eqb (level lg) "debug"
    && truthy_ostr (d_stack d)
  || logger_has lg (property_key (d_type d)).

(** The log entry of a loggable diagnostic. *)
Definition log_event (lg : Logger) (d : Diagnostic) : Event :=
  if bool_decide (d_type d = Some "error") && String.eqb (level lg) "debug"
     && truthy_ostr (d_stack d)
  then EvLogger "error" (default "" (d_stack d))
  else EvLogger (property_key (d_type d)) (d_msg d).

(** ** Styles *)

(** The paths [processIncludedStyles] hands to the style compiler for one
    module file: for each style URL, its base name under the file's
    directory. *)
Definition style_paths (sys : TranspileSystem) (moduleFile : ModuleFileMeta) : list string :=
  match (if mf_isTsSourceFile moduleFile then mf_cmpMeta moduleFile else None) ≫= styleMeta with
  | None => []
  | Some modes =>
      map (fun styleUrl => join (t_path sys) (mf_srcDir moduleFile)
                             (basename (t_path sys) styleUrl))
          (all_styleUrls modes)
  end.

(** The style references met during one [transpileFile]: for every
    [writeFile] call and every source file of it known to [ctx]. *)
Definition referenced_paths (sys : TranspileSystem) (ctx : gmap string ModuleFileMeta)
    (out : EmitOutput) : list string :=
  flat_map
    (fun w => flat_map
                (fun fileName => match ctx !! fileName with
                                 | Some moduleFile => style_paths sys moduleFile
                                 | None => []
                                 end)
                (w_sourceFiles w))
    (emit_writes out).

(** The style URL resolved against the owning file's directory, as the
    specification words it. *)
Definition resolved_relative (sys : TranspileSystem) (moduleFile : ModuleFileMeta)
    (styleUrl : string) : string :=
  join (t_path sys) (mf_srcDir moduleFile) styleUrl.

(** [ctx.moduleFiles] still describes the styles of every file as [ctx] did
    when the call started. *)
Definition same_styles (sys : TranspileSystem) (ctx : gmap string ModuleFileMeta)
    (st : TranspileState) : Prop :=
  forall fileName,
    style_paths sys <$> (moduleFiles st !! fileName) = style_paths sys <$> (ctx !! fileName).

Definition included (st : TranspileState) : list string :=
  default [] (includedSassFiles (results st)).

Definition style_error_entry (err : string) : string * string :=
  ("error", "sass.render, getIncludedSassFiles, " +:+ err).

Definition written_files (out : EmitOutput) : gmap string string :=
  fold_left (fun m w => <[w_jsFilePath w := w_jsText w]> m) (emit_writes out) ∅.

(** ** State markers *)

(** A decorator node whose expression passes the marker test. *)
Definition is_State_decorator (n : Node) : bool :=
  bool_decide (kind n = Decorator) && (1 <? getChildCount n)%nat
  && match getChildAt n 1 with
     | Some child => is_State_expression child
     | None => false
     end.

(** The children that follow the first [State] decorator. *)
Fixpoint after_State_decorator (l : list Node) : option (list Node) :=
  match l with
  | [] => None
  | n :: l' => if is_State_decorator n then Some l' else after_State_decorator l'
  end.

(** The text of the first identifier child with a non-empty text. *)
Fixpoint next_identifier (l : list Node) : option string :=
  match l with
  | [] => None
  | n :: l' =>
      if bool_decide (kind n = Identifier) && truthy_str (getText n)
      then Some (getText n) else next_identifier l'
  end.

(** Case-insensitive order on names. *)
Definition ci_le (a b : string) : Prop :=
  String.leb (toLowerCase a) (toLowerCase b) = true.

(** The names of the members recorded as state, in declaration order. *)
Definition state_names (members : list ClassElement) : list string :=
  omap state_name members.


(** * Further code of the same files *)

(** ** transpile.ts: createTsCompilerConfigs *)

Inductive ScriptTarget := ScriptTarget_ES5 | ScriptTarget_ES2015.
Inductive ModuleKind := ModuleKind_CommonJS | ModuleKind_ES2015.
Inductive ModuleResolutionKind := ModuleResolution_Classic | ModuleResolution_NodeJs.
Inductive JsxEmit := JsxEmit_Preserve | JsxEmit_React.

(** [ts.CompilerOptions] as [createTsCompilerConfigs] leaves it. *)
Record TsCompilerOptions := {
  tsc_outDir : option string;
  tsc_rootDir : option string;
  tsc_module : ModuleKind;
  tsc_target : ScriptTarget;
  tsc_noImplicitUseStrict : bool;
  tsc_moduleResolution : ModuleResolutionKind;
  tsc_isolatedModules : bool;
  tsc_allowSyntheticDefaultImports : bool;
  tsc_allowJs : bool;
  tsc_jsx : JsxEmit;
  tsc_jsxFactory : string;
  tsc_lib : list string
}.

Definition getTsScriptTarget (str : string) : ScriptTarget :=
  if String.eqb str "es2015" then ScriptTarget_ES2015 else ScriptTarget_ES5.

(** [xs.indexOf(x)]: the first index of [x], or -1. *)
Fixpoint indexOf (x : string) (xs : list string) : Z :=
  match xs with
  | [] => (-1)%Z
  | y :: xs' =>
      if String.eqb y x then 0%Z
      else let i := indexOf x xs' in if (i <? 0)%Z then (-1)%Z else (i + 1)%Z
  end.

(** [if (!lib.indexOf(name)) lib.push(name)]: [!n] holds for the number 0
    only. *)
Definition push_if_not_indexOf (name : string) (lib : list string) : list string :=
  if (indexOf name lib =? 0)%Z then lib ++ [name] else lib.

(** [createTsCompilerConfigs(compilerConfig)]. [lib] is the [lib] property
    of [compilerConfig.compilerOptions], which the source reaches through a
    cast to [any]; the configs that build.ts makes have none. *)
Definition createTsCompilerConfigs (compilerConfig : CompilerConfig)
    (lib : option (list string)) : TsCompilerOptions :=
  let lib0 := default [] lib in
  let lib1 := push_if_not_indexOf "lib.dom.d.ts" lib0 in
  let lib2 := push_if_not_indexOf "lib.es2015.d.ts" lib1 in
  let lib3 := push_if_not_indexOf "lib.es5.d.ts" lib2 in
  {| tsc_outDir := outDir (compilerOptions compilerConfig);
     tsc_rootDir := co_rootDir (compilerOptions compilerConfig);
     tsc_module := ModuleKind_ES2015;
     tsc_target := getTsScriptTarget (target (compilerOptions compilerConfig));
     tsc_noImplicitUseStrict := true;
     tsc_moduleResolution := ModuleResolution_NodeJs;
     tsc_isolatedModules := true;
     tsc_allowSyntheticDefaultImports := true;
     tsc_allowJs := true;
     tsc_jsx := JsxEmit_React;
     tsc_jsxFactory := "h";
     tsc_lib := lib3 |}.

(** The three library names the function looks for. *)
Definition default_libs : list string :=
  ["lib.dom.d.ts"; "lib.es2015.d.ts"; "lib.es5.d.ts"].

(** ** Vocabulary for runs of build *)

Definition with_config (c : BuildConfig) (st : BuildState) : BuildState :=
  {| st_config := c; st_diagnostics := st_diagnostics st;
     st_filesToWrite := st_filesToWrite st; st_trace := st_trace st |}.

Definition with_diagnostics (ds : list Diagnostic) (st : BuildState) : BuildState :=
  {| st_config := st_config st; st_diagnostics := ds;
     st_filesToWrite := st_filesToWrite st; st_trace := st_trace st |}.

Definition with_filesToWrite (f : gmap string string) (st : BuildState) : BuildState :=
  {| st_config := st_config st; st_diagnostics := st_diagnostics st;
     st_filesToWrite := f; st_trace := st_trace st |}.

(** The config [compileProject] builds from a build config. *)
Definition compiler_config_of (buildConfig : BuildConfig) : CompilerConfig :=
  {| compilerOptions := {| outDir := destDir buildConfig; module := "commonjs";
                           target := "es5"; co_rootDir := srcDir buildConfig |};
     include := [srcDir buildConfig];
     exclude := ["node_modules"; "test"];
     cc_isDevMode := isDevMode buildConfig;
     cc_bundles := bundles buildConfig;
     cc_isWatch := isWatch buildConfig;
     cc_writeCompiledToDisk := writeCompiledToDisk buildConfig |}.

(** The config [bundleProject] builds. *)
Definition bundler_config_of (buildConfig : BuildConfig) (m : Manifest) : BundlerConfig :=
  {| bc_namespace := namespace buildConfig; bc_srcDir := srcDir buildConfig;
     bc_destDir := destDir buildConfig; bc_manifest := m;
     bc_isDevMode := isDevMode buildConfig; bc_isWatch := isWatch buildConfig |}.

Inductive StageKind :=
| KDependentManifests | KCompile | KUpdateManifestUrls | KMergeManifests
| KBundle | KProjectFiles | KWriteFiles | KUpdateDirectories.

#[export] Instance StageKind_eq_dec : EqDecision StageKind.
Proof. solve_decision. Defined.

Definition stage_kind (ev : Event) : option StageKind :=
  match ev with
  | EvGenerateDependentManifests _ _ _ => Some KDependentManifests
  | EvCompile _ => Some KCompile
  | EvUpdateManifestUrls _ => Some KUpdateManifestUrls
  | EvMergeManifests _ => Some KMergeManifests
  | EvBundle _ => Some KBundle
  | EvGenerateProjectFiles _ => Some KProjectFiles
  | EvWriteFiles _ _ => Some KWriteFiles
  | EvUpdateDirectories _ _ => Some KUpdateDirectories
  | _ => None
  end.

(** The calls of a build that goes through, in order. *)
Definition stage_sequence (devMode : bool) : list StageKind :=
  [KDependentManifests; KCompile; KUpdateManifestUrls; KMergeManifests; KBundle;
   KProjectFiles; if devMode then KWriteFiles else KUpdateDirectories].

(** The diagnostics the logging loop gets through before it throws. *)
Fixpoint loggable_prefix (lg : Logger) (ds : list Diagnostic) : list Diagnostic :=
  match ds with
  | [] => []
  | d :: ds' => if loggable lg d then d :: loggable_prefix lg ds' else []
  end.

Definition is_returned {A} (r : JsResult A) : bool :=
  match r with Returned _ => true | Threw _ => false end.

(** The files handed to [generateProjectFiles]: the bundle's files laid
    over the compile's files. *)
Definition merged_files (cr : CompileResults) (br : BundleResults) : gmap string string :=
  default ∅ (br_filesToWrite br) ∪ (default ∅ (filesToWrite cr) ∪ ∅).

(** The text of the last [writeFile] call for path [p]. *)
Definition last_written (p : string) (ws : list WriteFileCall) : option string :=
  w_jsText <$> last (List.filter (fun w => String.eqb (w_jsFilePath w) p) ws).

Definition compile_calls (t : list Event) : list CompilerConfig :=
  omap (fun ev => match ev with EvCompile c => Some c | _ => None end) t.

Definition bundle_calls (t : list Event) : list BundlerConfig :=
  omap (fun ev => match ev with EvBundle c => Some c | _ => None end) t.

(** The files and destination of every [writeFiles]/[updateDirectories]
    call. *)
Definition write_calls (t : list Event) : list (gmap string string * option string) :=
  omap (fun ev => match ev with
                  | EvWriteFiles f d | EvUpdateDirectories f d => Some (f, d)
                  | _ => None
                  end) t.

(** The promise chain of [build] up to and including its [catch]. *)
Definition chain (ext : Collaborators) : M unit := catch (stages ext) on_error.

(** Every path handed to the style compiler is in [includedSassFiles]. *)
Definition renders_recorded (st : TranspileState) : Prop :=
  forall p, p ∈ map file (renders st) -> p ∈ included st.

(** The test at the top of [processIncludedStyles] sends the file away. *)
Definition without_styles (moduleFile : ModuleFileMeta) : Prop :=
  (if mf_isTsSourceFile moduleFile then mf_cmpMeta moduleFile else None) ≫= styleMeta = None.

(** ** Vocabulary for trimmed strings *)

Definition starts_with_whitespace (s : string) : bool :=
  match s with
  | EmptyString => false
  | String c _ => is_js_whitespace c
  end.

Fixpoint ends_with_whitespace (s : string) : bool :=
  match s with
  | EmptyString => false
  | String c s' =>
      match s' with
      | EmptyString => is_js_whitespace c
      | String _ _ => ends_with_whitespace s'
      end
  end.

(** [ns] is [s] without the white space around it: [s] is [ns] between two
    runs of white space, and [ns] neither starts nor ends with white space. *)
Definition stripped (s ns : string) : Prop :=
  exists l r, s = l +:+ ns +:+ r /\
              all_whitespace l = true /\ all_whitespace r = true /\
              starts_with_whitespace ns = false /\ ends_with_whitespace ns = false.

(** The namespace a build works with, given the one the caller supplied:
    "App" when there is none (or the empty string), "bundles" when it is made
    of white space only, and otherwise the caller's without the white space
    around it. *)
Definition namespace_outcome (given : option string) (ns : string) : Prop :=
  match given with
  | None => ns = "App"
  | Some s =>
      if bool_decide (s = "") then ns = "App"
      else if all_whitespace s then ns = "bundles"
      else ns <> "" /\ stripped s ns
  end.

(** ** Vocabulary for the stage calls of a build *)

(** How many stage calls of a build return, counted in the order of
    [stage_sequence] up to the first one that throws, each called with the
    arguments [build] gives it; [None] when validation throws. *)
Definition stages_returned (ext : Collaborators) (c : BuildConfig) : option nat :=
  match validateBuildConfig (set_writeCompiledToDisk false c) with
  | Threw _ => None
  | Returned c1 =>
    Some
      match generateDependentManifests ext (collections c1) (rootDir c1) (destDir c1) with
      | Threw _ => 0
      | Returned dms =>
      match compile ext (compiler_config_of c1) with
      | Threw _ => 1
      | Returned cr =>
      match updateManifestUrls ext (default {| components := [] |} (manifest cr))
                               (destDir c1) (destDir c1) with
      | Threw _ => 2
      | Returned lm =>
      match mergeManifests ext (option_list lm ++ dms) with
      | Threw _ => 3
      | Returned m =>
      match bundle ext (bundler_config_of c1 m) with
      | Threw _ => 4
      | Returned br =>
      match generateProjectFiles ext c1 (componentRegistry br) (merged_files cr br) with
      | Threw _ => 5
      | Returned files' =>
      match (if isDevMode c1 then writeFiles ext files' (destDir c1)
             else updateDirectories ext files' (destDir c1)) with
      | Threw _ => 6
      | Returned _ => 7
      end end end end end end end
  end%nat.

(** ** Vocabulary for a compile stage *)

(** One [transpileFile] call of a compile stage, with the render callbacks
    that fire after it. *)
Record TranspileRun := {
  run_emit : CustomTransformers -> EmitOutput;
  run_ctx : gmap string ModuleFileMeta;
  run_sched : list nat
}.

(** What the call and its callbacks leave. *)
Definition run_state (sys : TranspileSystem) (compilerConfig : CompilerConfig)
    (r : TranspileRun) : TranspileState :=
  run_callbacks sys (run_sched r) (transpileFile sys (run_emit r) (run_ctx r) compilerConfig).

(** Modelled from the spec: compile.ts, which gathers the results of the
    [transpileFile] calls of one compile stage, is not under src. Spec 4.3:
    the included style files are deduplicated by path across the whole
    compile stage. Each call's [includedSassFiles] is merged into the list of
    the stage path by path, and a path that is already there is skipped. *)
Definition stage_includedSassFiles (sys : TranspileSystem) (compilerConfig : CompilerConfig)
    (runs : list TranspileRun) : list string :=
  fold_left (fun acc r => fold_left push_unique (included (run_state sys compilerConfig r)) acc)
            runs [].

(** The paths the style compiler was called for during the stage, call by
    call. *)
Definition stage_renders (sys : TranspileSystem) (compilerConfig : CompilerConfig)
    (runs : list TranspileRun) : list string :=
  flat_map (fun r => map file (renders (run_state sys compilerConfig r))) runs.


(** * Sample inputs *)

Definition sample_logger : Logger := {| level := "info"; methods := ["info"; "warn"] |}.

Definition sample_sass : SassApi :=
  {| render := fun c =>
       if String.eqb (file c) "/src/cmp/missing.scss"
       then SassError "Error: File to read not found or unreadable"
       else SassResult [file c; "/src/global/vars.scss"] |}.

Definition sample_sys : StencilSystem :=
  {| fs := Some CapabilityHandle; path := Some posix_path; sass := Some sample_sass;
     rollup := Some CapabilityHandle; typescript := Some CapabilityHandle |}.

Definition sample_config : BuildConfig :=
  {| srcDir := Some "/src"; destDir := Some "/dist"; rootDir := Some "/";
     sys := Some sample_sys; logger := sample_logger; isDevMode := false; isWatch := false;
     numWorkers := Some 2%Z; writeCompiledToDisk := None; bundles := None;
     collections := None; namespace := Some "   " |}.

(** [sample_config] as [validateBuildConfig] leaves it. *)
Definition validated_sample_config : BuildConfig :=
  {| srcDir := Some "/src"; destDir := Some "/dist"; rootDir := Some "/";
     sys := Some sample_sys; logger := sample_logger; isDevMode := false; isWatch := false;
     numWorkers := Some 2%Z; writeCompiledToDisk := None; bundles := Some [];
     collections := Some []; namespace := Some "bundles" |}.

(** The same config without [srcDir]. *)
Definition config_without_srcDir : BuildConfig :=
  {| srcDir := None; destDir := Some "/dist"; rootDir := Some "/";
     sys := Some sample_sys; logger := sample_logger; isDevMode := false; isWatch := false;
     numWorkers := Some 2%Z; writeCompiledToDisk := None; bundles := None;
     collections := None; namespace := None |}.

(** A type error as the TypeScript compiler reports it. *)
Definition sample_ts_diagnostic : TsDiagnostic :=
  {| messageText := "Type 'string' is not assignable to type 'number'.";
     ts_file := Some "/src/cmp/cmp.tsx"; ts_start := Some 10%Z; ts_length := Some 3%Z;
     ts_category := 1%Z; ts_code := 2322%Z |}.

(** Collaborators that all succeed; [compile] hands back one diagnostic
    built by [transpileFile]. *)
Definition sample_collaborators : Collaborators :=
  {| generateDependentManifests := fun _ _ _ => Returned [];
     compile := fun _ =>
       Returned {| diagnostics := Some [to_diagnostic sample_ts_diagnostic];
                   filesToWrite := Some {["/dist/cmp.js" := "var x = 1;"]};
                   manifest := None; jsFiles := ∅; includedSassFiles := None |};
     updateManifestUrls := fun m _ _ => Returned (Some m);
     mergeManifests := fun ms => Returned {| components := [] |};
     bundle := fun _ =>
       Returned {| br_diagnostics := None; br_filesToWrite := None; componentRegistry := [] |};
     generateProjectFiles := fun _ _ files => Returned files;
     writeFiles := fun _ _ => Returned tt;
     updateDirectories := fun _ _ => Returned tt |}.

Definition sample_transpile_sys : TranspileSystem :=
  {| t_path := posix_path; t_sass := sample_sass |}.

Definition sample_compiler_config : CompilerConfig :=
  {| compilerOptions := {| outDir := Some "/dist"; module := "commonjs"; target := "es5";
                           co_rootDir := Some "/src" |};
     include := [Some "/src"]; exclude := ["node_modules"; "test"]; cc_isDevMode := false;
     cc_bundles := Some []; cc_isWatch := false; cc_writeCompiledToDisk := Some false |}.

Definition component_file (filePath : string) (modes : list (string * StyleMeta))
  : ModuleFileMeta :=
  {| mf_filePath := filePath; mf_srcDir := "/src/cmp"; mf_srcText := "";
     mf_jsFilePath := None; mf_jsText := None; mf_isTsSourceFile := true;
     mf_cmpMeta := Some {| styleMeta := Some modes; statesMeta := [] |};
     mf_recompileOnChange := false |}.

Definition one_mode (url : string) : list (string * StyleMeta) :=
  [("$", {| styleUrls := Some [url] |})].

(** One emitted file per source file. *)
Definition emit_each (files : list string) (_ : CustomTransformers) : EmitOutput :=
  {| emit_writes :=
       map (fun f => {| w_jsFilePath := f +:+ ".js"; w_jsText := "/* js */";
                        w_sourceFiles := [f] |}) files;
     emit_diagnostics := [] |}.

(** Two components that reference the same style file. *)
Definition shared_style_ctx : gmap string ModuleFileMeta :=
  {[ "/src/cmp/a.tsx" := component_file "/src/cmp/a.tsx" (one_mode "shared.scss");
     "/src/cmp/b.tsx" := component_file "/src/cmp/b.tsx" (one_mode "shared.scss") ]}.

(** A component whose style URL names a subdirectory. *)
Definition nested_style_file : ModuleFileMeta :=
  component_file "/src/cmp/a.tsx" (one_mode "styles/a.scss").

(** A component whose style file does not exist. *)
Definition missing_style_ctx : gmap string ModuleFileMeta :=
  {[ "/src/cmp/a.tsx" := component_file "/src/cmp/a.tsx" (one_mode "missing.scss") ]}.

Definition token (k : SyntaxKind) (t : string) : Node := MkNode k t [].

(** [@State()]. *)
Definition call_style_State : Node :=
  MkNode Decorator "@State()"
    [token AtToken "@";
     MkNode CallExpression "State()"
       [token Identifier "State"; token OpenParenToken "("; MkNode SyntaxList "" [];
        token CloseParenToken ")"]].

(** [@State]. *)
Definition bare_State : Node :=
  MkNode Decorator "@State" [token AtToken "@"; token Identifier "State"].

(** [@State() name;]. *)
Definition state_member (name : string) : ClassElement :=
  {| decorators := Some [call_style_State]; others := [token Identifier name] |}.

(** [@State() 'quoted' = 1;]: the name is a string literal. *)
Definition quoted_state_member : ClassElement :=
  {| decorators := Some [call_style_State];
     others := [token StringLiteral "'quoted'"; token NumericLiteral "1"] |}.

(** A warning as a collaborator reports it. *)
Definition sample_warning (msg : string) : Diagnostic :=
  {| d_msg := msg; d_type := Some "warn"; d_level := None; d_filePath := None;
     d_start := None; d_length := None; d_category := None; d_code := None;
     d_stack := None |}.

Definition sample_compile_results : CompileResults :=
  {| diagnostics := Some [sample_warning "unused import"];
     filesToWrite := Some {["/dist/cmp.js" := "compiled"; "/dist/util.js" := "util"]};
     manifest := None; jsFiles := ∅; includedSassFiles := None |}.

Definition sample_bundle_results : BundleResults :=
  {| br_diagnostics := Some [sample_warning "large bundle"];
     br_filesToWrite := Some {["/dist/cmp.js" := "bundled"]};
     componentRegistry := ["my-cmp"] |}.

(** Collaborators that all succeed and report only warnings. *)
Definition quiet_collaborators : Collaborators :=
  {| generateDependentManifests := fun _ _ _ => Returned [];
     compile := fun _ => Returned sample_compile_results;
     updateManifestUrls := fun m _ _ => Returned (Some m);
     mergeManifests := fun ms => Returned {| components := ["my-cmp"] |};
     bundle := fun _ => Returned sample_bundle_results;
     generateProjectFiles := fun _ _ files => Returned (<["/dist/loader.js" := "loader"]> files);
     writeFiles := fun _ _ => Returned tt;
     updateDirectories := fun _ _ => Returned tt |}.

Definition sample_error : JsThrown :=
  ThrownError "Error: EACCES: permission denied" (Some "Error: EACCES at write").

(** The same, but [compile] rejects. *)
Definition failing_compile_collaborators : Collaborators :=
  {| generateDependentManifests := fun _ _ _ => Returned [];
     compile := fun _ => Threw sample_error;
     updateManifestUrls := fun m _ _ => Returned (Some m);
     mergeManifests := fun ms => Returned {| components := ["my-cmp"] |};
     bundle := fun _ => Returned sample_bundle_results;
     generateProjectFiles := fun _ _ files => Returned files;
     writeFiles := fun _ _ => Returned tt;
     updateDirectories := fun _ _ => Returned tt |}.


(** [sample_config] after the prelude of build and validation. *)
Definition running_sample_config : BuildConfig :=
  set_writeCompiledToDisk false validated_sample_config.

Definition sample_written_files : gmap string string :=
  <["/dist/loader.js" := "loader"]> (merged_files sample_compile_results sample_bundle_results).

(** A component whose style file exists. *)
Definition plain_style_ctx : gmap string ModuleFileMeta :=
  {[ "/src/cmp/a.tsx" := component_file "/src/cmp/a.tsx" (one_mode "a.scss") ]}.

(** [@Prop()]. *)
Definition call_style_Prop : Node :=
  MkNode Decorator "@Prop()"
    [token AtToken "@";
     MkNode CallExpression "Prop()"
       [token Identifier "Prop"; token OpenParenToken "("; MkNode SyntaxList "" [];
        token CloseParenToken ")"]].

(** [@Prop() @State() private count;]. *)
Definition doubly_decorated_member : ClassElement :=
  {| decorators := Some [call_style_Prop; call_style_State];
     others := [token Keyword "private"; token Identifier "count"] |}.

(** A plain module: TypeScript source, but no component in it. *)
Definition plain_module_ctx : gmap string ModuleFileMeta :=
  {[ "/src/util.ts" :=
       {| mf_filePath := "/src/util.ts"; mf_srcDir := "/src"; mf_srcText := "";
          mf_jsFilePath := None; mf_jsText := None; mf_isTsSourceFile := true;
          mf_cmpMeta := None; mf_recompileOnChange := false |} ]}.

Definition plain_module_write : WriteFileCall :=
  {| w_jsFilePath := "/dist/util.js"; w_jsText := "/* js */";
     w_sourceFiles := ["/src/util.ts"] |}.

(** A config whose namespace has white space around it. *)
Definition spaced_config : BuildConfig :=
  {| srcDir := Some "/src"; destDir := Some "/dist"; rootDir := Some "/";
     sys := Some sample_sys; logger := sample_logger; isDevMode := true; isWatch := true;
     numWorkers := None; writeCompiledToDisk := Some true; bundles := None;
     collections := None; namespace := Some (" my ns" +:+ String (ascii_of_nat 9) " ") |}.

(** [spaced_config] as [validateBuildConfig] leaves it. *)
Definition validated_spaced_config : BuildConfig :=
  {| srcDir := Some "/src"; destDir := Some "/dist"; rootDir := Some "/";
     sys := Some sample_sys; logger := sample_logger; isDevMode := true; isWatch := true;
     numWorkers := None; writeCompiledToDisk := Some true; bundles := Some [];
     collections := Some []; namespace := Some "my ns" |}.

(** A logger at debug level. *)
Definition debug_logger : Logger := {| level := "debug"; methods := ["info"; "warn"] |}.

(** [sample_config] with the debug logger and without [sys.sass]. *)
Definition config_without_sass : BuildConfig :=
  {| srcDir := Some "/src"; destDir := Some "/dist"; rootDir := Some "/";
     sys := Some {| fs := Some CapabilityHandle; path := Some posix_path; sass := None;
                    rollup := None; typescript := Some CapabilityHandle |};
     logger := debug_logger; isDevMode := false; isWatch := false;
     numWorkers := Some 2%Z; writeCompiledToDisk := None; bundles := None;
     collections := None; namespace := None |}.

(** [sample_config] with the debug logger. *)
Definition debug_config : BuildConfig :=
  {| srcDir := Some "/src"; destDir := Some "/dist"; rootDir := Some "/";
     sys := Some sample_sys; logger := debug_logger; isDevMode := false; isWatch := false;
     numWorkers := Some 2%Z; writeCompiledToDisk := None; bundles := None;
     collections := None; namespace := Some "   " |}.

(** Two [transpileFile] calls of one stage, whose components share a style
    file. *)
Definition sample_runs : list TranspileRun :=
  [ {| run_emit := emit_each ["/src/cmp/a.tsx"]; run_ctx := shared_style_ctx;
       run_sched := [0] |};
    {| run_emit := emit_each ["/src/cmp/b.tsx"]; run_ctx := shared_style_ctx;
       run_sched := [] |} ].

(** [debug_config] after the prelude of build and validation. *)
Definition running_debug_config : BuildConfig :=
  {| srcDir := Some "/src"; destDir := Some "/dist"; rootDir := Some "/";
     sys := Some sample_sys; logger := debug_logger; isDevMode := false; isWatch := false;
     numWorkers := Some 2%Z; writeCompiledToDisk := Some false; bundles := Some [];
     collections := Some []; namespace := Some "bundles" |}.


(** * Properties *)

(** ** Strings *)

Lemma trimStart_head s :
  trimStart s = "" \/ exists c t, trimStart s = String c t /\ is_js_whitespace c = false.
Proof.
  induction s as [|c s IH]; simpl; [by left|].
  destruct (is_js_whitespace c) eqn:Hc; [done|]. right. by exists c, s.
Qed.

Lemma trimEnd_idemp s : trimEnd (trimEnd s) = trimEnd s.
Proof.
  induction s as [|c s IH]; simpl; [done|].
  destruct (trimEnd s) as [|c' t] eqn:Hs.
  - destruct (is_js_whitespace c) eqn:Hc; simpl; [done|]. by rewrite Hc.
  - simpl in *. by rewrite IH.
Qed.

Lemma trimEnd_keeps_head c s :
  is_js_whitespace c = false -> exists t, trimEnd (String c s) = String c t.
Proof.
  intros Hc. simpl. destruct (trimEnd s); rewrite ?Hc; eauto.
Qed.

Lemma trim_idemp s : trim (trim s) = trim s.
Proof.
  unfold trim. destruct (trimStart_head s) as [->|(c & t & -> & Hc)]; [done|].
  destruct (trimEnd_keeps_head c t Hc) as [u Hu].
  rewrite Hu. simpl trimStart. rewrite Hc, <- Hu. apply trimEnd_idemp.
Qed.

Lemma trimStart_all_whitespace s : all_whitespace s = true -> trimStart s = "".
Proof.
  induction s as [|c s IH]; simpl; [done|].
  intros [-> Hs]%andb_prop. auto.
Qed.

Lemma trim_all_whitespace s : all_whitespace s = true -> trim s = "".
Proof. intros H. unfold trim. by rewrite trimStart_all_whitespace. Qed.

Lemma append_cons c (l r : string) : String c l +:+ r = String c (l +:+ r).
Proof. reflexivity. Qed.

Lemma append_empty (r : string) : "" +:+ r = r.
Proof. reflexivity. Qed.

Lemma trimStart_split s :
  exists l, s = l +:+ trimStart s /\ all_whitespace l = true.
Proof.
  induction s as [|c s (l & Hl & Hws)]; simpl; [by exists ""|].
  destruct (is_js_whitespace c) eqn:Hc.
  - exists (String c l). rewrite append_cons, <- Hl. simpl. by rewrite Hc, Hws.
  - by exists "".
Qed.

Lemma trimEnd_split s :
  exists r, s = trimEnd s +:+ r /\ all_whitespace r = true.
Proof.
  induction s as [|c s (r & Hr & Hws)]; simpl; [by exists ""|].
  destruct (trimEnd s) as [|c' t] eqn:Hs.
  - rewrite append_empty in Hr. subst r. destruct (is_js_whitespace c) eqn:Hc.
    + exists (String c s). rewrite append_empty. simpl. by rewrite Hc, Hws.
    + exists s. by rewrite append_cons, append_empty.
  - exists r. by rewrite append_cons, <- Hr.
Qed.

Lemma trimStart_start s : starts_with_whitespace (trimStart s) = false.
Proof.
  induction s as [|c s IH]; simpl; [done|].
  destruct (is_js_whitespace c) eqn:Hc; [done|]. simpl. exact Hc.
Qed.

Lemma trimEnd_start s :
  starts_with_whitespace s = false -> starts_with_whitespace (trimEnd s) = false.
Proof.
  destruct s as [|c s]; simpl; [done|].
  intros Hc. destruct (trimEnd s); simpl; [by rewrite Hc|done].
Qed.

Lemma trimEnd_end s : ends_with_whitespace (trimEnd s) = false.
Proof.
  induction s as [|c s IH]; simpl; [done|].
  destruct (trimEnd s) as [|c' t] eqn:Hs.
  - destruct (is_js_whitespace c) eqn:Hc; simpl; [done|exact Hc].
  - exact IH.
Qed.

Lemma all_whitespace_app l r :
  all_whitespace (l +:+ r) = all_whitespace l && all_whitespace r.
Proof.
  induction l as [|c l IH]; [done|].
  rewrite append_cons. simpl. by rewrite IH, andb_assoc.
Qed.

(** [trim] takes away the white space around a string and nothing else. *)
Lemma trim_stripped s : stripped s (trim s).
Proof.
  unfold stripped, trim.
  destruct (trimStart_split s) as (l & Hl & Hlws).
  destruct (trimEnd_split (trimStart s)) as (r & Hr & Hrws).
  exists l, r. split_and!; [congruence|done|done| |apply trimEnd_end].
  apply trimEnd_start, trimStart_start.
Qed.

Lemma trim_empty s : trim s = "" -> all_whitespace s = true.
Proof.
  intros H. destruct (trim_stripped s) as (l & r & Hs & Hl & Hr & _).
  rewrite H, append_empty in Hs. rewrite Hs, all_whitespace_app, Hl, Hr. done.
Qed.

Lemma truthy_str_false s : truthy_str s = false <-> s = "".
Proof. by destruct s. Qed.

Lemma truthy_str_true s : truthy_str s = true <-> s <> "".
Proof. by destruct s. Qed.

(** ** validateBuildConfig *)

Ltac name_field g := exists g; split_and!; [reflexivity | simpl; lia | reflexivity].
Ltac name_thrown g :=
  exists g; split_and!;
  [ reflexivity
  | match goal with H : Threw _ = Threw _ |- _ => injection H as <-; reflexivity end ].

(** A missing field makes validation throw, naming the first missing field. *)
Lemma validate_missing c f :
  field_missing f c = true ->
  exists g, field_missing g c = true /\ field_rank g <= field_rank f /\
            validateBuildConfig c = Threw (ThrownString (required_message g)).
Proof.
  intros Hf. unfold validateBuildConfig.
  destruct c as [src ? ? sy ? ? ? ? ? ? ? ?]; simpl in *.
  destruct src as [[|? ?]|]; destruct sy as [[[|] [|] [|] [|] [|]]|];
    destruct f; simpl in *; try done;
    first [ name_field F_srcDir | name_field F_sys | name_field F_sys_fs
          | name_field F_sys_path | name_field F_sys_sass | name_field F_sys_rollup
          | name_field F_sys_typescript ].
Qed.

(** Validation only ever throws one of its seven messages. *)
Lemma validate_throws c e :
  validateBuildConfig c = Threw e ->
  exists g, field_missing g c = true /\ e = ThrownString (required_message g).
Proof.
  unfold validateBuildConfig. intros H.
  destruct c as [src ? ? sy ? ? ? ? ? ? ? ?]; simpl in *.
  destruct src as [[|? ?]|]; destruct sy as [[[|] [|] [|] [|] [|]]|];
    simpl in *; try done;
    first [ name_thrown F_srcDir | name_thrown F_sys | name_thrown F_sys_fs
          | name_thrown F_sys_path | name_thrown F_sys_sass | name_thrown F_sys_rollup
          | name_thrown F_sys_typescript ].
Qed.

(** What a successful validation leaves in the config. *)
Lemma validate_returns c c' :
  validateBuildConfig c = Returned c' ->
  let ns1 := trim (if truthy_ostr (namespace c) then default "" (namespace c) else "App") in
  c' = {| srcDir := srcDir c; destDir := destDir c; rootDir := rootDir c; sys := sys c;
          logger := logger c; isDevMode := isDevMode c; isWatch := isWatch c;
          numWorkers := numWorkers c; writeCompiledToDisk := writeCompiledToDisk c;
          bundles := Some (default [] (bundles c));
          collections := Some (default [] (collections c));
          namespace := Some (trim (if truthy_str ns1 then ns1 else "bundles")) |}.
Proof.
  unfold validateBuildConfig. intros H.
  destruct (truthy_ostr (srcDir c)); simpl in H; [|done].
  destruct (sys c) as [s|]; [|done].
  destruct (fs s); simpl in H; [|done].
  destruct (path s); simpl in H; [|done].
  destruct (sass s); simpl in H; [|done].
  destruct (rollup s); simpl in H; [|done].
  destruct (typescript s); simpl in H; [|done].
  by injection H as <-.
Qed.

Lemma validate_fields c c' :
  validateBuildConfig c = Returned c' ->
  srcDir c' = srcDir c /\ destDir c' = destDir c /\ rootDir c' = rootDir c /\
  sys c' = sys c /\ logger c' = logger c /\ isDevMode c' = isDevMode c /\
  isWatch c' = isWatch c /\ numWorkers c' = numWorkers c /\
  writeCompiledToDisk c' = writeCompiledToDisk c /\
  bundles c' = Some (default [] (bundles c)) /\
  collections c' = Some (default [] (collections c)).
Proof. intros H. apply validate_returns in H. simpl in H. by subst c'. Qed.

(** The namespace validation leaves, against the one the caller gave. *)
Lemma validated_namespace_outcome c c' :
  validateBuildConfig c = Returned c' ->
  exists ns, namespace c' = Some ns /\ ns <> "" /\ trim ns = ns /\
             starts_with_whitespace ns = false /\ ends_with_whitespace ns = false /\
             namespace_outcome (namespace c) ns.
Proof.
  intros H. apply validate_returns in H. simpl in H. subst c'.
  cbn [namespace].
  destruct (namespace c) as [s|] eqn:Hn.
  2:{ exists "App". by split_and!. }
  destruct (decide (s = "")) as [->|Hs].
  { exists "App". by split_and!. }
  apply truthy_str_true in Hs as Ht. cbn [truthy_ostr default]. rewrite Ht. cbv beta iota. unfold id.
  unfold namespace_outcome. rewrite bool_decide_false by done.
  destruct (all_whitespace s) eqn:Hws.
  - rewrite (trim_all_whitespace s Hws). cbn [truthy_str].
    exists "bundles". by split_and!.
  - assert (Hne : trim s <> "").
    { intros He. apply trim_empty in He. congruence. }
    apply truthy_str_true in Hne as Ht'. rewrite Ht', trim_idemp.
    exists (trim s).
    destruct (trim_stripped s) as (l & r & Heq & Hl & Hr & Hstart & Hend).
    split_and!; [done|done|apply trim_idemp|done|done|done|]. by exists l, r.
Qed.

(** C10. On success [validateBuildConfig] leaves [bundles] and [collections]
    defined (empty when they were absent) and a trimmed, non-empty
    [namespace]: "App" when it was absent or empty, "bundles" when it was made
    of white space only, and otherwise the caller's namespace without the
    white space around it, so that it neither starts nor ends with white
    space. *)
Theorem validateBuildConfig_defaults (c c' : BuildConfig) :
  validateBuildConfig c = Returned c' ->
  bundles c' = Some (default [] (bundles c)) /\
  collections c' = Some (default [] (collections c)) /\
  (exists ns, namespace c' = Some ns /\ ns <> "" /\ trim ns = ns /\
              starts_with_whitespace ns = false /\ ends_with_whitespace ns = false) /\
  (namespace c = None -> namespace c' = Some "App") /\
  (namespace c = Some "" -> namespace c' = Some "App") /\
  (forall s, namespace c = Some s -> s <> "" -> all_whitespace s = true ->
             namespace c' = Some "bundles") /\
  (forall s, namespace c = Some s -> all_whitespace s = false ->
             exists l ns r,
               namespace c' = Some ns /\ s = l +:+ ns +:+ r /\
               all_whitespace l = true /\ all_whitespace r = true /\
               starts_with_whitespace ns = false /\ ends_with_whitespace ns = false).
Proof.
  intros H.
  destruct (validated_namespace_outcome _ _ H)
    as (ns & Hns & Hne & Htrim & Hstart & Hend & Hout).
  destruct (validate_fields _ _ H) as (_ & _ & _ & _ & _ & _ & _ & _ & _ & Hb & Hc).
  split; [exact Hb|]. split; [exact Hc|].
  split; [by exists ns|].
  unfold namespace_outcome in Hout. split_and!.
  - intros Hn. rewrite Hn in Hout. by rewrite Hns, Hout.
  - intros Hn. rewrite Hn in Hout. simpl in Hout. by rewrite Hns, Hout.
  - intros s Hn Hs Hws. rewrite Hn in Hout.
    rewrite bool_decide_false, Hws in Hout by done. by rewrite Hns, Hout.
  - intros s Hn Hws. rewrite Hn in Hout.
    assert (Hs : s <> "") by (by intros ->).
    rewrite bool_decide_false, Hws in Hout by done.
    destruct Hout as (_ & l & r & Heq & Hl & Hr & _).
    by exists l, ns, r.
Qed.

Lemma validateBuildConfig_defaults_witness :
  validateBuildConfig sample_config = Returned validated_sample_config /\
  namespace validated_sample_config = Some "bundles" /\
  validateBuildConfig spaced_config = Returned validated_spaced_config /\
  namespace validated_spaced_config = Some "my ns" /\
  exists l ns r,
    namespace validated_spaced_config = Some ns /\
    " my ns" +:+ String (ascii_of_nat 9) " " = l +:+ ns +:+ r /\
    all_whitespace l = true /\ all_whitespace r = true /\
    starts_with_whitespace ns = false /\ ends_with_whitespace ns = false.
Proof.
  assert (H : validateBuildConfig sample_config = Returned validated_sample_config)
    by reflexivity.
  assert (H' : validateBuildConfig spaced_config = Returned validated_spaced_config)
    by reflexivity.
  split; [exact H|].
  destruct (validateBuildConfig_defaults sample_config validated_sample_config H)
    as (_ & _ & _ & _ & _ & Hws & _).
  split; [apply (Hws "   "); [reflexivity|discriminate|reflexivity]|].
  split; [exact H'|]. split; [reflexivity|].
  destruct (validateBuildConfig_defaults spaced_config validated_spaced_config H')
    as (_ & _ & _ & _ & _ & _ & Hstrip).
  apply Hstrip; reflexivity.
Defined.

(** ** build: a config that fails validation *)

Lemma field_missing_set_writeCompiledToDisk f v c :
  field_missing f (set_writeCompiledToDisk v c) = field_missing f c.
Proof. by destruct f. Qed.

(** Unfolds the monad down to state-passing functions. *)
Ltac unfold_M :=
  unfold mbind, mret, M_bind, M_ret, call, lift, throw, catch, emit, get_config,
    get_diagnostics, get_filesToWrite, set_config, set_diagnostics, set_filesToWrite in *.

Lemma add_events_nil st : add_events [] st = st.
Proof. destruct st. unfold add_events. simpl. by rewrite app_nil_r. Qed.

Lemma add_events_app evs1 evs2 st :
  add_events evs2 (add_events evs1 st) = add_events (evs1 ++ evs2) st.
Proof. unfold add_events. simpl. by rewrite app_assoc. Qed.

Lemma log_diagnostic_loggable lg d st :
  loggable lg d = true ->
  log_diagnostic lg d st = (Returned tt, add_events [log_event lg d] st).
Proof.
  unfold loggable, log_diagnostic, log_event. intros H.
  destruct (bool_decide (d_type d = Some "error") && String.eqb (level lg) "debug"
            && truthy_ostr (d_stack d)); [done|].
  simpl in H. by rewrite H.
Qed.

Lemma log_diagnostic_unloggable lg d st :
  loggable lg d = false ->
  log_diagnostic lg d st = (Threw (TypeError "logger[d.type] is not a function"), st).
Proof.
  unfold loggable, log_diagnostic. intros [H1 H2]%orb_false_elim.
  by rewrite H1, H2.
Qed.

(** Logging succeeds when every diagnostic can be dispatched: each one is
    logged, in order. *)
Lemma log_diagnostics_loggable lg ds st :
  forallb (loggable lg) ds = true ->
  log_diagnostics lg ds st = (Returned tt, add_events (map (log_event lg) ds) st).
Proof.
  revert st. induction ds as [|d ds IH]; intros st H; simpl.
  - by rewrite add_events_nil.
  - simpl in H. apply andb_prop in H as [Hd Hds].
    unfold mbind, M_bind. rewrite (log_diagnostic_loggable _ _ _ Hd).
    rewrite (IH _ Hds). by rewrite add_events_app.
Qed.

(** Logging stops with a TypeError at the first diagnostic it cannot
    dispatch; the ones after it are never logged. *)
Lemma log_diagnostics_unloggable lg ds1 d ds2 st :
  forallb (loggable lg) ds1 = true ->
  loggable lg d = false ->
  log_diagnostics lg (ds1 ++ d :: ds2) st =
    (Threw (TypeError "logger[d.type] is not a function"),
     add_events (map (log_event lg) ds1) st).
Proof.
  revert st. induction ds1 as [|d1 ds1 IH]; intros st H Hd; simpl.
  - unfold mbind, M_bind. rewrite (log_diagnostic_unloggable _ _ _ Hd).
    by rewrite add_events_nil.
  - simpl in H. apply andb_prop in H as [Hd1 Hds].
    unfold mbind, M_bind. rewrite (log_diagnostic_loggable _ _ _ Hd1).
    rewrite (IH _ Hds Hd). by rewrite add_events_app.
Qed.

Lemma error_diagnostic_loggable lg msg stack :
  loggable lg (error_diagnostic msg stack) = true.
Proof. unfold loggable. apply orb_true_intro. right. reflexivity. Qed.

(** The last [then], when every diagnostic can be dispatched. *)
Lemma finalize_loggable lg st :
  forallb (loggable lg) (st_diagnostics st) = true ->
  finalize lg st =
    (Returned (empty_results (st_diagnostics st)),
     add_events (map (log_event lg) (st_diagnostics st) ++ closing_events (st_config st)) st).
Proof.
  intros H. unfold finalize. unfold mbind at 1, M_bind at 1, get_diagnostics at 1.
  unfold mbind at 1, M_bind at 1. rewrite (log_diagnostics_loggable _ _ _ H).
  unfold_M. unfold add_events, closing_events, empty_results. simpl.
  destruct (isWatch (st_config st)); simpl; rewrite <- ?app_assoc; reflexivity.
Qed.

(** The last [then], when some diagnostic cannot be dispatched: it throws,
    and neither disconnects the pool nor finishes the time span. *)
Lemma finalize_unloggable lg st ds1 d ds2 :
  st_diagnostics st = ds1 ++ d :: ds2 ->
  forallb (loggable lg) ds1 = true ->
  loggable lg d = false ->
  finalize lg st =
    (Threw (TypeError "logger[d.type] is not a function"),
     add_events (map (log_event lg) ds1) st).
Proof.
  intros Hst H Hd. unfold finalize.
  unfold mbind at 1, M_bind at 1, get_diagnostics at 1.
  unfold mbind at 1, M_bind at 1. rewrite Hst.
  by rewrite (log_diagnostics_unloggable _ _ _ _ _ H Hd).
Qed.

(** The whole run of a build whose (already mutated) config fails
    validation: the pool is connected, the error becomes the only diagnostic,
    it is logged, and the last [then] closes the build. *)
Lemma build_validation_failure ext c msg :
  validateBuildConfig (set_writeCompiledToDisk false c) = Threw (ThrownString msg) ->
  build ext c =
    (Returned (empty_results [error_diagnostic msg None]),
     {| st_config := set_writeCompiledToDisk false c;
        st_diagnostics := [error_diagnostic msg None];
        st_filesToWrite := ∅;
        st_trace := [EvLogger "createTimeSpan" (started_message c);
                     EvConnect (numWorkers c); EvLogger "error" msg] ++ closing_events c |}).
Proof.
  intros H. unfold build, build_m.
  unfold mbind at 1, M_bind at 1, get_config at 1.
  unfold mbind at 1, M_bind at 1, emit at 1.
  unfold mbind at 1, M_bind at 1, set_config at 1.
  unfold mbind at 1, M_bind at 1, emit at 1.
  unfold mbind at 1, M_bind at 1.
  unfold catch, stages, stage_validate.
  unfold mbind at 1, M_bind at 1. unfold mbind at 1, M_bind at 1, get_config at 1.
  unfold mbind at 1, M_bind at 1, lift at 1.
  cbn [st_config st_diagnostics st_filesToWrite st_trace app]. rewrite H.
  unfold on_error. cbn [thrown_toString thrown_stack].
  unfold mbind at 1, M_bind at 1, get_diagnostics at 1, set_diagnostics.
  cbn [st_config st_diagnostics st_filesToWrite st_trace app].
  rewrite finalize_loggable; cbn [st_config st_diagnostics st_filesToWrite st_trace app].
  2:{ cbn [forallb]. by rewrite error_diagnostic_loggable. }
  unfold add_events, log_event, closing_events, started_message.
  cbn -[set_writeCompiledToDisk]. rewrite andb_false_r.
  replace (isWatch (set_writeCompiledToDisk false c)) with (isWatch c) by done.
  reflexivity.
Qed.

(** C1. A config that lacks a required field fails validation: the promise
    resolves to a result whose only diagnostic is the error naming a missing
    field (the first one tested), with [msg] "config.<field> required", [type]
    "error" and no stack; that message is logged through [logger.error]; no
    later stage is entered, nothing is written and nothing is buffered for
    writing. *)
Theorem build_fails_validation (ext : Collaborators) (c : BuildConfig) (f : RequiredField) :
  field_missing f c = true ->
  exists g, field_missing g c = true /\ field_rank g <= field_rank f /\
    (build ext c).1 =
      Returned {| res_diagnostics :=
                    [{| d_msg := "config." +:+ field_name g +:+ " required";
                        d_type := Some "error"; d_level := None; d_filePath := None;
                        d_start := None; d_length := None; d_category := None;
                        d_code := None; d_stack := None |}];
                  res_manifest := {| components := [] |};
                  res_componentRegistry := [] |} /\
    List.filter is_logger_event (st_trace (build ext c).2) =
      [EvLogger "createTimeSpan" (started_message c);
       EvLogger "error" ("config." +:+ field_name g +:+ " required")] /\
    existsb is_stage_event (st_trace (build ext c).2) = false /\
    existsb is_write_event (st_trace (build ext c).2) = false /\
    st_filesToWrite (build ext c).2 = ∅.
Proof.
  intros Hf. rewrite <- (field_missing_set_writeCompiledToDisk f false c) in Hf.
  destruct (validate_missing _ _ Hf) as (g & Hg & Hrank & Hthrow).
  rewrite field_missing_set_writeCompiledToDisk in Hg.
  exists g. rewrite (build_validation_failure ext c _ Hthrow).
  split_and!; try done; unfold closing_events; simpl; by destruct (isWatch c).
Qed.

Lemma build_fails_validation_witness :
  field_missing F_sys_rollup config_without_sass = true /\
  (build sample_collaborators config_without_sass).1 =
    Returned {| res_diagnostics :=
                  [{| d_msg := "config.sys.sass required";
                      d_type := Some "error"; d_level := None; d_filePath := None;
                      d_start := None; d_length := None; d_category := None;
                      d_code := None; d_stack := None |}];
                res_manifest := {| components := [] |};
                res_componentRegistry := [] |} /\
  st_trace (build sample_collaborators config_without_sass).2 =
    [EvLogger "createTimeSpan" "build, prod mode, started"; EvConnect (Some 2%Z);
     EvLogger "error" "config.sys.sass required"; EvDisconnect;
     EvTimeSpanFinish "build finished"] /\
  exists g, field_missing g config_without_sass = true /\
    field_rank g <= field_rank F_sys_rollup /\
    (build sample_collaborators config_without_sass).1 =
      Returned {| res_diagnostics :=
                    [{| d_msg := "config." +:+ field_name g +:+ " required";
                        d_type := Some "error"; d_level := None; d_filePath := None;
                        d_start := None; d_length := None; d_category := None;
                        d_code := None; d_stack := None |}];
                  res_manifest := {| components := [] |};
                  res_componentRegistry := [] |} /\
    List.filter is_logger_event (st_trace (build sample_collaborators config_without_sass).2) =
      [EvLogger "createTimeSpan" (started_message config_without_sass);
       EvLogger "error" ("config." +:+ field_name g +:+ " required")] /\
    existsb is_stage_event (st_trace (build sample_collaborators config_without_sass).2)
      = false /\
    existsb is_write_event (st_trace (build sample_collaborators config_without_sass).2)
      = false /\
    st_filesToWrite (build sample_collaborators config_without_sass).2 = ∅.
Proof.
  split; [reflexivity|]. split; [reflexivity|]. split; [reflexivity|].
  apply (build_fails_validation sample_collaborators config_without_sass F_sys_rollup).
  reflexivity.
Defined.

(** ** build: what every run does *)

#[export] Instance evolves_refl : Reflexive evolves.
Proof. by intros st. Qed.

#[export] Instance evolves_trans : Transitive evolves.
Proof. intros st1 st2 st3 [H1 H1'] [H2 H2']. split; [by etrans|congruence]. Qed.

Lemma steady_ret {A} (a : A) : steady (mret a).
Proof. by intros st. Qed.

Lemma steady_bind {A B} (m : M A) (f : A -> M B) :
  steady m -> (forall a, steady (f a)) -> steady (m ≫= f).
Proof.
  intros Hm Hf st. unfold mbind, M_bind. specialize (Hm st).
  destruct (m st) as [[a|e] st']; simpl in *; [|done].
  etrans; [exact Hm|apply Hf].
Qed.

Lemma steady_catch {A} (m : M A) (h : JsThrown -> M A) :
  steady m -> (forall e, steady (h e)) -> steady (catch m h).
Proof.
  intros Hm Hh st. unfold catch. specialize (Hm st).
  destruct (m st) as [[a|e] st']; simpl in *; [done|].
  etrans; [exact Hm|apply Hh].
Qed.

Lemma steady_emit ev : steady (emit ev).
Proof. intros st. split; simpl; [by apply prefix_app_r|done]. Qed.

Lemma steady_lift {A} (r : JsResult A) : steady (lift r).
Proof. by intros st. Qed.

Lemma steady_throw {A} e : steady (@throw A e).
Proof. by intros st. Qed.

Lemma steady_call {A} ev (r : JsResult A) : steady (call ev r).
Proof. apply steady_bind; [apply steady_emit|intros; apply steady_lift]. Qed.

Lemma steady_get_config : steady get_config.
Proof. by intros st. Qed.

Lemma steady_get_diagnostics : steady get_diagnostics.
Proof. by intros st. Qed.

Lemma steady_get_filesToWrite : steady get_filesToWrite.
Proof. by intros st. Qed.

Lemma steady_set_diagnostics ds : steady (set_diagnostics ds).
Proof. by intros st. Qed.

Lemma steady_set_filesToWrite f : steady (set_filesToWrite f).
Proof. by intros st. Qed.

Create HintDb steady.
#[export] Hint Resolve steady_ret steady_emit steady_lift steady_throw steady_call
  steady_get_config steady_get_diagnostics steady_get_filesToWrite
  steady_set_diagnostics steady_set_filesToWrite : steady.

Ltac steady_steps :=
  repeat first
    [ progress (auto with steady)
    | apply steady_bind; [|intros]
    | apply steady_catch; [|intros]
    | match goal with |- steady (match ?x with _ => _ end) => destruct x end
    | match goal with |- steady (if ?x then _ else _) => destruct x end ].

Lemma steady_concat_diagnostics ods : steady (concat_diagnostics ods).
Proof. unfold concat_diagnostics. steady_steps. Qed.

Lemma steady_assign_filesToWrite ofs : steady (assign_filesToWrite ofs).
Proof. unfold assign_filesToWrite. steady_steps. Qed.

Lemma steady_log_diagnostics lg ds : steady (log_diagnostics lg ds).
Proof.
  induction ds as [|d ds IH]; simpl; [apply steady_ret|].
  apply steady_bind; [|intros; apply IH].
  unfold log_diagnostic. steady_steps.
Qed.

#[export] Hint Resolve steady_concat_diagnostics steady_assign_filesToWrite
  steady_log_diagnostics : steady.

(** Validation keeps [writeCompiledToDisk]. *)
Lemma steady_stage_validate ext : steady (stage_validate ext).
Proof.
  intros st. unfold stage_validate. unfold_M.
  destruct (validateBuildConfig (st_config st)) as [c'|e] eqn:Hv; simpl; [|done].
  apply validate_returns in Hv. simpl in Hv. subst c'.
  split; simpl; [by apply prefix_app_r|done].
Qed.

Lemma steady_stages ext : steady (stages ext).
Proof.
  unfold stages. apply steady_bind; [apply steady_stage_validate|intros].
  unfold stage_compile, stage_bundle, stage_write, compileProject, bundleProject.
  steady_steps.
Qed.

Lemma steady_on_error e : steady (on_error e).
Proof. unfold on_error. steady_steps. Qed.

Lemma steady_finalize lg : steady (finalize lg).
Proof. unfold finalize. steady_steps. Qed.

(** [build] is its prelude followed by the promise chain. *)
Lemma build_unfold ext c :
  build ext c =
    (catch (stages ext) on_error;; finalize (logger c)) (state_before_validation c).
Proof. reflexivity. Qed.

Lemma validate_set_writeCompiledToDisk v c :
  validateBuildConfig (set_writeCompiledToDisk v c) =
    match validateBuildConfig c with
    | Returned c' => Returned (set_writeCompiledToDisk v c')
    | Threw e => Threw e
    end.
Proof.
  unfold validateBuildConfig. cbn [set_writeCompiledToDisk srcDir sys].
  destruct (truthy_ostr (srcDir c)); [|done]. simpl.
  destruct (sys c) as [s|]; [|done].
  destruct (fs s); [|done]. destruct (path s); [|done]. destruct (sass s); [|done].
  destruct (rollup s); [|done]. destruct (typescript s); done.
Qed.

(** C9. Whatever the config, the first [then] of a build (validation) starts
    from a state in which [writeCompiledToDisk] is already false and the pool
    is already connected with the configured count; the flag stays false to
    the end. If validation throws, the run consists of exactly: time span,
    connect, the logged error, and the closing steps, which disconnect the
    pool exactly when watch mode is off. *)
Theorem build_mutates_and_connects_first (ext : Collaborators) (c : BuildConfig) :
  build ext c =
    (catch (stages ext) on_error;; finalize (logger c)) (state_before_validation c) /\
  writeCompiledToDisk (st_config (state_before_validation c)) = Some false /\
  st_trace (state_before_validation c) =
    [EvLogger "createTimeSpan" (started_message c); EvConnect (numWorkers c)] /\
  st_trace (state_before_validation c) `prefix_of` st_trace (build ext c).2 /\
  writeCompiledToDisk (st_config (build ext c).2) = Some false /\
  match validateBuildConfig c with
  | Returned _ => True
  | Threw e =>
      exists msg, e = ThrownString msg /\
        st_config (build ext c).2 = set_writeCompiledToDisk false c /\
        st_trace (build ext c).2 =
          [EvLogger "createTimeSpan" (started_message c); EvConnect (numWorkers c);
           EvLogger "error" msg] ++ closing_events c /\
        existsb is_disconnect (st_trace (build ext c).2) = negb (isWatch c)
  end.
Proof.
  assert (Hsteady : evolves (state_before_validation c) (build ext c).2).
  { rewrite build_unfold. apply steady_bind; [|intros; apply steady_finalize].
    apply steady_catch; [apply steady_stages|apply steady_on_error]. }
  destruct Hsteady as [Hpre Hflag].
  split_and!; try done.
  destruct (validateBuildConfig c) as [c'|e] eqn:Hv; [done|].
  destruct (validate_throws _ _ Hv) as (g & _ & ->).
  eexists. split; [done|].
  rewrite (build_validation_failure ext c (required_message g))
    by (by rewrite validate_set_writeCompiledToDisk, Hv).
  split_and!; try done. unfold closing_events. by destruct (isWatch c).
Qed.

(** ** build: the last [then] *)

(** When the chain up to the [catch] has settled and every accumulated
    diagnostic can be dispatched, the promise resolves to the accumulated
    diagnostics, each one is logged in order, and the closing steps run. *)
Lemma build_resolves_when_loggable ext c st1 :
  catch (stages ext) on_error (state_before_validation c) = (Returned tt, st1) ->
  forallb (loggable (logger c)) (st_diagnostics st1) = true ->
  build ext c =
    (Returned (empty_results (st_diagnostics st1)),
     add_events (map (log_event (logger c)) (st_diagnostics st1)
                 ++ closing_events (st_config st1)) st1).
Proof.
  intros Hchain Hlog. rewrite build_unfold. unfold mbind, M_bind. rewrite Hchain.
  by apply finalize_loggable.
Qed.

(** When some accumulated diagnostic cannot be dispatched, the promise
    rejects; the diagnostics after it are not logged and the closing steps
    (disconnect included) do not run. *)
Lemma build_rejects_when_unloggable ext c st1 ds1 d ds2 :
  catch (stages ext) on_error (state_before_validation c) = (Returned tt, st1) ->
  st_diagnostics st1 = ds1 ++ d :: ds2 ->
  forallb (loggable (logger c)) ds1 = true ->
  loggable (logger c) d = false ->
  build ext c =
    (Threw (TypeError "logger[d.type] is not a function"),
     add_events (map (log_event (logger c)) ds1) st1).
Proof.
  intros Hchain Hds Hlog Hd. rewrite build_unfold. unfold mbind, M_bind. rewrite Hchain.
  by apply finalize_unloggable with (d := d) (ds2 := ds2).
Qed.

(** A diagnostic built by [transpileFile] has [level] but no [type], so the
    last [then] of build cannot dispatch it unless the logger happens to
    have a method called "undefined". *)
Lemma to_diagnostic_unloggable lg d :
  logger_has lg "undefined" = false -> loggable lg (to_diagnostic d) = false.
Proof. intros H. unfold loggable. simpl. by rewrite H. Qed.

(** C3. A valid, non-watch build in which every collaborator succeeds and
    [compile] reports one diagnostic built by [transpileFile]: the promise
    rejects with a TypeError instead of resolving to a BuildResult, the
    diagnostic is not logged, and the pool is never disconnected. *)
Theorem build_rejects_on_transpile_diagnostic :
  isWatch sample_config = false /\
  (build sample_collaborators sample_config).1 =
    Threw (TypeError "logger[d.type] is not a function") /\
  st_diagnostics (build sample_collaborators sample_config).2 =
    [to_diagnostic sample_ts_diagnostic] /\
  existsb is_disconnect (st_trace (build sample_collaborators sample_config).2) = false /\
  List.filter is_logger_event
         (st_trace (build sample_collaborators sample_config).2) =
    [EvLogger "createTimeSpan" "build, prod mode, started"].
Proof. split_and!; vm_compute; reflexivity. Qed.

(** ** transpile: what is recorded and what is rendered *)

Lemma elem_of_existsb_eqb x (xs : list string) :
  existsb (String.eqb x) xs = true <-> x ∈ xs.
Proof.
  rewrite existsb_exists. split.
  - intros (y & Hy%list_elem_of_In & ->%String.eqb_eq). done.
  - intros H. exists x. split; [by apply list_elem_of_In|apply String.eqb_refl].
Qed.

Lemma push_unique_NoDup xs x : NoDup xs -> NoDup (push_unique xs x).
Proof.
  intros H. unfold push_unique.
  destruct (existsb (String.eqb x) xs) eqn:Hx; [done|].
  apply NoDup_app. split_and!; [done| |apply NoDup_singleton].
  intros y Hy ->%list_elem_of_singleton.
  apply elem_of_existsb_eqb in Hy. congruence.
Qed.

Lemma fold_push_unique_NoDup ys xs : NoDup xs -> NoDup (fold_left push_unique ys xs).
Proof.
  revert xs. induction ys as [|y ys IH]; intros xs H; simpl; [done|].
  by apply IH, push_unique_NoDup.
Qed.

Lemma getIncludedSassFiles_included p st :
  included (getIncludedSassFiles p st).2 = push_unique (included st) p.
Proof. reflexivity. Qed.

Lemma getIncludedSassFiles_renders p st :
  map file (renders (getIncludedSassFiles p st).2) = map file (renders st) ++ [p].
Proof. simpl. by rewrite map_app. Qed.

Lemma getIncludedSassFiles_frame p st :
  moduleFiles (getIncludedSassFiles p st).2 = moduleFiles st /\
  jsFiles (results (getIncludedSassFiles p st).2) = jsFiles (results st) /\
  resolved (getIncludedSassFiles p st).2 = resolved st.
Proof. done. Qed.

(** The fold inside [processIncludedStyles], one call of
    [getIncludedSassFiles] per style URL. *)
Lemma style_fold sys moduleFile urls acc :
  let step := fun (acc : list nat * TranspileState) styleUrl =>
    let scssFileName := basename (t_path sys) styleUrl in
    let scssFilePath := join (t_path sys) (mf_srcDir moduleFile) scssFileName in
    let '(id, st') := getIncludedSassFiles scssFilePath acc.2 in
    (acc.1 ++ [id], st') in
  let st' := (fold_left step urls acc).2 in
  (NoDup (included acc.2) -> NoDup (included st')) /\
  map file (renders st') =
    map file (renders acc.2)
    ++ map (fun url => join (t_path sys) (mf_srcDir moduleFile) (basename (t_path sys) url)) urls /\
  moduleFiles st' = moduleFiles acc.2 /\
  jsFiles (results st') = jsFiles (results acc.2) /\
  resolved st' = resolved acc.2.
Proof.
  revert acc. induction urls as [|url urls IH]; intros acc; simpl.
  - by rewrite app_nil_r.
  - match goal with |- context [fold_left ?f urls ?a] => specialize (IH a) end.
    simpl in IH. destruct IH as (IH1 & IH2 & IH3 & IH4 & IH5).
    split_and!.
    + intros H. apply IH1. by apply push_unique_NoDup.
    + rewrite IH2. simpl. by rewrite map_app, <- app_assoc.
    + by rewrite IH3.
    + by rewrite IH4.
    + by rewrite IH5.
Qed.

(** [processIncludedStyles] keeps the recorded list duplicate-free, calls
    the style compiler once per style URL with [style_paths], and touches
    nothing else. *)
Lemma processIncludedStyles_effect sys compilerConfig moduleFile st :
  let st' := (processIncludedStyles sys compilerConfig moduleFile st).2 in
  (NoDup (included st) -> NoDup (included st')) /\
  map file (renders st') = map file (renders st) ++ style_paths sys moduleFile /\
  moduleFiles st' = moduleFiles st /\
  jsFiles (results st') = jsFiles (results st) /\
  resolved st' = resolved st.
Proof.
  unfold processIncludedStyles, style_paths.
  destruct ((if mf_isTsSourceFile moduleFile then mf_cmpMeta moduleFile else None)
            ≫= styleMeta) as [modes|]; simpl.
  2:{ by rewrite app_nil_r. }
  match goal with |- context [fold_left ?f (all_styleUrls modes) ?a] =>
    pose proof (style_fold sys moduleFile (all_styleUrls modes) a) as H end.
  simpl in H. destruct H as (H1 & H2 & H3 & H4 & H5).
  split_and!; done.
Qed.

Lemma style_paths_touch sys p t m :
  style_paths sys (touch_moduleFile p t m) = style_paths sys m.
Proof. reflexivity. Qed.

(** The [forEach] over [sourceFiles] inside [writeFile]. *)
Lemma writeFile_sources sys compilerConfig ctx w fileNames st :
  let step := fun st fileName =>
    match moduleFiles st !! fileName with
    | Some moduleFile =>
        let moduleFile := touch_moduleFile (w_jsFilePath w) (w_jsText w) moduleFile in
        let st := with_moduleFiles (<[fileName := moduleFile]> (moduleFiles st)) st in
        (processIncludedStyles sys compilerConfig moduleFile st).2
    | None => st
    end in
  let st' := fold_left step fileNames st in
  same_styles sys ctx st ->
  same_styles sys ctx st' /\
  (NoDup (included st) -> NoDup (included st')) /\
  map file (renders st') =
    map file (renders st)
    ++ flat_map (fun fileName => match ctx !! fileName with
                                 | Some moduleFile => style_paths sys moduleFile
                                 | None => []
                                 end) fileNames /\
  jsFiles (results st') = jsFiles (results st) /\
  resolved st' = resolved st.
Proof.
  revert st. induction fileNames as [|fileName fileNames IH]; intros st; simpl.
  { intros Hs. by rewrite app_nil_r. }
  intros Hs.
  match goal with |- context [fold_left ?f fileNames ?a] => specialize (IH a) end.
  simpl in IH. pose proof (Hs fileName) as Hf.
  destruct (moduleFiles st !! fileName) as [moduleFile|] eqn:Hlook.
  - set (touched := touch_moduleFile (w_jsFilePath w) (w_jsText w) moduleFile) in *.
    set (st1 := with_moduleFiles (<[fileName:=touched]> (moduleFiles st)) st) in *.
    destruct (processIncludedStyles_effect sys compilerConfig touched st1)
      as (P1 & P2 & P3 & P4 & P5). simpl in P1, P2, P3, P4, P5.
    destruct IH as (I1 & I2 & I3 & I4 & I5).
    { intros fn. rewrite P3. simpl. destruct (decide (fileName = fn)) as [<-|Hne].
      - rewrite lookup_insert_eq. simpl. rewrite <- Hf. done.
      - rewrite lookup_insert_ne by done. apply Hs. }
    split_and!; try done.
    + intros Hnd. apply I2, P1, Hnd.
    + rewrite I3, P2. simpl. rewrite <- app_assoc. f_equal. f_equal.
      destruct (ctx !! fileName); simpl in Hf; by simplify_eq.
    + by rewrite I4, P4.
    + by rewrite I5, P5.
  - destruct IH as (I1 & I2 & I3 & I4 & I5); [done|].
    split_and!; try done.
    rewrite I3. destruct (ctx !! fileName); simpl in Hf; [done|]. done.
Qed.

Lemma writeFile_effect sys compilerConfig ctx w st :
  let st' := writeFile sys compilerConfig w st in
  same_styles sys ctx st ->
  same_styles sys ctx st' /\
  (NoDup (included st) -> NoDup (included st')) /\
  map file (renders st') =
    map file (renders st)
    ++ flat_map (fun fileName => match ctx !! fileName with
                                 | Some moduleFile => style_paths sys moduleFile
                                 | None => []
                                 end) (w_sourceFiles w) /\
  jsFiles (results st') = <[w_jsFilePath w := w_jsText w]> (jsFiles (results st)) /\
  resolved st' = resolved st.
Proof.
  intros st' Hs. unfold st', writeFile.
  destruct (writeFile_sources sys compilerConfig ctx w (w_sourceFiles w) st Hs)
    as (H1 & H2 & H3 & H4 & H5).
  split_and!; try done. simpl. f_equal. exact H4.
Qed.

(** All the [writeFile] calls of one [program.emit]. *)
Lemma writeFiles_effect sys compilerConfig ctx ws st :
  let st' := fold_left (fun st w => writeFile sys compilerConfig w st) ws st in
  same_styles sys ctx st ->
  (NoDup (included st) -> NoDup (included st')) /\
  map file (renders st') =
    map file (renders st)
    ++ flat_map (fun w => flat_map
                            (fun fileName => match ctx !! fileName with
                                             | Some moduleFile => style_paths sys moduleFile
                                             | None => []
                                             end) (w_sourceFiles w)) ws /\
  jsFiles (results st') =
    fold_left (fun m w => <[w_jsFilePath w := w_jsText w]> m) ws (jsFiles (results st)) /\
  resolved st' = resolved st.
Proof.
  revert st. induction ws as [|w ws IH]; intros st; simpl.
  { intros _. by rewrite app_nil_r. }
  intros Hs.
  destruct (writeFile_effect sys compilerConfig ctx w st Hs) as (W1 & W2 & W3 & W4 & W5).
  destruct (IH _ W1) as (I1 & I2 & I3 & I4).
  split_and!.
  - intros Hnd. apply I1, W2, Hnd.
  - rewrite I2, W3. by rewrite <- app_assoc.
  - by rewrite I3, W4.
  - by rewrite I4, W5.
Qed.

(** [transpileFile] at its [return]. *)
Lemma transpileFile_effect sys program_emit ctx compilerConfig :
  let st := transpileFile sys program_emit ctx compilerConfig in
  NoDup (included st) /\
  map file (renders st) = referenced_paths sys ctx (program_emit customTransformers) /\
  jsFiles (results st) = written_files (program_emit customTransformers) /\
  diagnostics (results st) =
    Some (map to_diagnostic (emit_diagnostics (program_emit customTransformers))) /\
  resolved st = [].
Proof.
  unfold transpileFile.
  destruct (writeFiles_effect sys compilerConfig ctx
              (emit_writes (program_emit customTransformers)) (new_transpile_state ctx))
    as (H1 & H2 & H3 & H4); [done|].
  split_and!; try done. apply H1. apply NoDup_nil_2.
Qed.

(** ** transpile: the transformer groups *)

(** C8. Every [transpileFile] calls [program.emit] once, with one set of
    transformers: component-class extraction, import removal and
    lifecycle-method normalization, in that order, in the [before] group, and
    [jsxToVNode] alone in the [after] group; the script files and the
    diagnostics of its results are what that call of [program.emit] produced.
    No pass is in both groups, so with an emitter that applies the groups
    around its own lowering the emitted files come from the tree that went
    through the three structural passes, then the lowering, then
    [jsxToVNode]. *)
Theorem transformers_run_in_two_groups {Tree : Type}
    (run : Transformer -> Tree -> Tree) (lowering : Tree -> Tree) (t : Tree)
    (print : Tree -> EmitOutput)
    (sys : TranspileSystem) (program_emit : CustomTransformers -> EmitOutput)
    (ctx : gmap string ModuleFileMeta) (compilerConfig : CompilerConfig) :
  transpileFile sys program_emit ctx compilerConfig =
    transpileFile sys (fun _ => program_emit customTransformers) ctx compilerConfig /\
  jsFiles (results (transpileFile sys program_emit ctx compilerConfig)) =
    written_files
      (program_emit {| before := [componentClass; removeImports; updateLifecycleMethods];
                       after := [jsxToVNode] |}) /\
  diagnostics (results (transpileFile sys program_emit ctx compilerConfig)) =
    Some (map to_diagnostic
            (emit_diagnostics
               (program_emit {| before := [componentClass; removeImports;
                                           updateLifecycleMethods];
                                after := [jsxToVNode] |}))) /\
  before customTransformers = [componentClass; removeImports; updateLifecycleMethods] /\
  after customTransformers = [jsxToVNode] /\
  NoDup (before customTransformers ++ after customTransformers) /\
  emit_pipeline run lowering customTransformers t =
    run jsxToVNode
      (lowering (run updateLifecycleMethods (run removeImports (run componentClass t)))) /\
  jsFiles (results (transpileFile sys (fun ct => print (emit_pipeline run lowering ct t))
                      ctx compilerConfig)) =
    written_files
      (print (run jsxToVNode
                (lowering (run updateLifecycleMethods
                             (run removeImports (run componentClass t)))))).
Proof.
  destruct (transpileFile_effect sys program_emit ctx compilerConfig)
    as (_ & _ & Hjs & Hds & _).
  destruct (transpileFile_effect sys (fun ct => print (emit_pipeline run lowering ct t))
              ctx compilerConfig) as (_ & _ & Hjs' & _).
  split_and!; [reflexivity|exact Hjs|exact Hds|reflexivity|reflexivity|compute_done|
               reflexivity|exact Hjs'].
Qed.

(** ** transpile: the render callbacks *)

Lemma render_callback_effect id outcome st :
  let st' := render_callback id outcome st in
  (NoDup (included st) -> NoDup (included st')) /\
  renders st' = renders st /\
  jsFiles (results st') = jsFiles (results st) /\
  diagnostics (results st') = diagnostics (results st) /\
  resolved st' = resolved st ++ [id] /\
  log st `prefix_of` log st' /\
  (forall err, outcome = SassError err -> style_error_entry err ∈ log st').
Proof.
  destruct outcome as [err|files]; simpl; split_and!; try done.
  - by apply prefix_app_r.
  - intros err' [= <-]. apply elem_of_app. right. by apply list_elem_of_singleton.
  - intros H. by apply fold_push_unique_NoDup.
Qed.

Lemma fire_callback_effect sys st id :
  let st' := fire_callback sys st id in
  (NoDup (included st) -> NoDup (included st')) /\
  renders st' = renders st /\
  jsFiles (results st') = jsFiles (results st) /\
  diagnostics (results st') = diagnostics (results st) /\
  resolved st `prefix_of` resolved st' /\
  log st `prefix_of` log st'.
Proof.
  unfold fire_callback. destruct (renders st !! id) as [c|]; [|done].
  case_bool_decide; [done|].
  destruct (render_callback_effect id (render (t_sass sys) c) st)
    as (H1 & H2 & H3 & H4 & H5 & H6 & _).
  split_and!; try done. rewrite H5. by apply prefix_app_r.
Qed.

Lemma run_callbacks_effect sys sched st :
  let st' := run_callbacks sys sched st in
  (NoDup (included st) -> NoDup (included st')) /\
  renders st' = renders st /\
  jsFiles (results st') = jsFiles (results st) /\
  diagnostics (results st') = diagnostics (results st) /\
  resolved st `prefix_of` resolved st' /\
  log st `prefix_of` log st'.
Proof.
  revert st. induction sched as [|id sched IH]; intros st; simpl; [done|].
  destruct (fire_callback_effect sys st id) as (F1 & F2 & F3 & F4 & F5 & F6).
  destruct (IH (fire_callback sys st id)) as (I1 & I2 & I3 & I4 & I5 & I6).
  split_and!.
  - intros H. apply I1, F1, H.
  - by rewrite I2.
  - by rewrite I3.
  - by rewrite I4.
  - by etrans.
  - by etrans.
Qed.

(** A failing render whose callback fires leaves its promise resolved and
    the error in the log. *)
Lemma fire_callback_failing sys st id c err :
  renders st !! id = Some c ->
  render (t_sass sys) c = SassError err ->
  (id ∈ resolved st -> style_error_entry err ∈ log st) ->
  id ∈ resolved (fire_callback sys st id) /\
  style_error_entry err ∈ log (fire_callback sys st id).
Proof.
  intros Hc Herr Hinv. unfold fire_callback. rewrite Hc.
  case_bool_decide as Hres; [by auto|].
  destruct (render_callback_effect id (render (t_sass sys) c) st)
    as (_ & _ & _ & _ & H5 & _ & H7).
  split; [|by apply H7].
  rewrite H5. apply elem_of_app. right. by apply list_elem_of_singleton.
Qed.

Lemma run_callbacks_failing sys sched st id c err :
  renders st !! id = Some c ->
  render (t_sass sys) c = SassError err ->
  (id ∈ resolved st -> style_error_entry err ∈ log st) ->
  id ∈ sched ->
  id ∈ resolved (run_callbacks sys sched st) /\
  style_error_entry err ∈ log (run_callbacks sys sched st).
Proof.
  intros Hc Herr. revert st Hc.
  induction sched as [|id' sched IH]; intros st Hc Hinv Hin; [by inv Hin|].
  simpl. destruct (decide (id' = id)) as [->|Hne].
  - destruct (fire_callback_failing sys st id c err Hc Herr Hinv) as [R L].
    destruct (run_callbacks_effect sys sched (fire_callback sys st id))
      as (_ & _ & _ & _ & P5 & P6).
    split.
    + eapply elem_of_prefix; [exact R|exact P5].
    + eapply elem_of_prefix; [exact L|exact P6].
  - destruct (fire_callback_effect sys st id') as (_ & F2 & _ & _ & _ & F6).
    apply IH.
    + by rewrite F2.
    + intros Hres. eapply elem_of_prefix; [|exact F6]. apply Hinv.
      revert Hres. unfold fire_callback. destruct (renders st !! id') as [c'|]; [|done].
      case_bool_decide; [done|].
      destruct (render_callback_effect id' (render (t_sass sys) c') st)
        as (_ & _ & _ & _ & H5 & _).
      rewrite H5. intros [?|?%list_elem_of_singleton]%elem_of_app; [done|congruence].
    + by inv Hin.
Qed.

Lemma fold_push_unique_elem ys xs p :
  p ∈ fold_left push_unique ys xs <-> p ∈ xs \/ p ∈ ys.
Proof.
  revert xs. induction ys as [|y ys IH]; intros xs; simpl.
  - split; [by left|]. intros [H|H]; [done|by inv H].
  - rewrite IH, elem_of_cons. unfold push_unique.
    destruct (existsb (String.eqb y) xs) eqn:Hy.
    + apply elem_of_existsb_eqb in Hy. split; [tauto|].
      intros [H|[->|H]]; tauto.
    + rewrite elem_of_app, list_elem_of_singleton. tauto.
Qed.

(** The list of the stage, built up call by call from [acc]. *)
Lemma stage_merge_effect sys compilerConfig runs acc :
  let merged :=
    fold_left (fun acc r => fold_left push_unique (included (run_state sys compilerConfig r)) acc)
              runs acc in
  (NoDup acc -> NoDup merged) /\
  (forall p, p ∈ merged <->
             p ∈ acc \/ exists r, r ∈ runs /\ p ∈ included (run_state sys compilerConfig r)).
Proof.
  revert acc. induction runs as [|r runs IH]; intros acc; simpl.
  - split; [done|]. intros p. split; [by left|].
    intros [H|(r & Hr & _)]; [done|by inv Hr].
  - destruct (IH (fold_left push_unique (included (run_state sys compilerConfig r)) acc))
      as [IH1 IH2].
    split.
    + intros H. by apply IH1, fold_push_unique_NoDup.
    + intros p. rewrite IH2, fold_push_unique_elem. split.
      * intros [[H|H]|(r' & Hr' & H)]; [by left| |].
        -- right. exists r. split; [apply list_elem_of_here|done].
        -- right. exists r'. split; [by apply list_elem_of_further|done].
      * intros [H|(r' & Hr' & H)]; [by left; left|].
        apply elem_of_cons in Hr' as [->|Hr']; [by left; right|].
        right. by exists r'.
Qed.

(** C4. Across a compile stage, that is any number of [transpileFile] calls
    with the render callbacks that fire after each: no path occurs twice in
    the [includedSassFiles] of a call, nor in the list of the stage, which
    holds exactly the paths the calls recorded; the style compiler has been
    called once for every style URL reference met, in order, whether or not
    the path had been seen before. *)
Theorem included_once_rendered_per_reference (sys : TranspileSystem)
    (compilerConfig : CompilerConfig) (runs : list TranspileRun) :
  NoDup (stage_includedSassFiles sys compilerConfig runs) /\
  (forall p, p ∈ stage_includedSassFiles sys compilerConfig runs <->
             exists r, r ∈ runs /\ p ∈ included (run_state sys compilerConfig r)) /\
  Forall (fun r => NoDup (included (run_state sys compilerConfig r))) runs /\
  Forall (fun r => map file (renders (run_state sys compilerConfig r)) =
                   referenced_paths sys (run_ctx r) (run_emit r customTransformers)) runs /\
  stage_renders sys compilerConfig runs =
    flat_map (fun r => referenced_paths sys (run_ctx r) (run_emit r customTransformers)) runs.
Proof.
  assert (Hrun : forall r,
            NoDup (included (run_state sys compilerConfig r)) /\
            map file (renders (run_state sys compilerConfig r)) =
              referenced_paths sys (run_ctx r) (run_emit r customTransformers)).
  { intros r. unfold run_state.
    destruct (transpileFile_effect sys (run_emit r) (run_ctx r) compilerConfig)
      as (T1 & T2 & _).
    destruct (run_callbacks_effect sys (run_sched r)
                (transpileFile sys (run_emit r) (run_ctx r) compilerConfig))
      as (R1 & R2 & _).
    split; [by apply R1|]. by rewrite R2. }
  destruct (stage_merge_effect sys compilerConfig runs []) as [M1 M2].
  split_and!.
  - apply M1, NoDup_nil_2.
  - intros p. unfold stage_includedSassFiles. rewrite M2. split; [|by right].
    intros [H|H]; [by inv H|done].
  - apply Forall_forall. intros r _. apply Hrun.
  - apply Forall_forall. intros r _. apply Hrun.
  - clear M1 M2. unfold stage_renders.
    induction runs as [|r runs IH]; simpl; [done|].
    destruct (Hrun r) as [_ ->]. by rewrite IH.
Qed.

(** Two components that reference the same style file: the path is recorded
    once but the style compiler is called for it twice. *)
Lemma shared_style_rendered_twice :
  included (run_callbacks sample_transpile_sys [0; 1]
              (transpileFile sample_transpile_sys
                 (emit_each ["/src/cmp/a.tsx"; "/src/cmp/b.tsx"])
                 shared_style_ctx sample_compiler_config)) =
    ["/src/cmp/shared.scss"; "/src/global/vars.scss"] /\
  map file (renders (run_callbacks sample_transpile_sys [0; 1]
                       (transpileFile sample_transpile_sys
                          (emit_each ["/src/cmp/a.tsx"; "/src/cmp/b.tsx"])
                          shared_style_ctx sample_compiler_config))) =
    ["/src/cmp/shared.scss"; "/src/cmp/shared.scss"].
Proof. split; vm_compute; reflexivity. Qed.

(** The same across two calls of one stage: the list of the stage holds the
    shared path once, and the style compiler was called for it in each call. *)
Lemma shared_style_across_two_calls :
  stage_includedSassFiles sample_transpile_sys sample_compiler_config sample_runs =
    ["/src/cmp/shared.scss"; "/src/global/vars.scss"] /\
  stage_renders sample_transpile_sys sample_compiler_config sample_runs =
    ["/src/cmp/shared.scss"; "/src/cmp/shared.scss"].
Proof. split; vm_compute; reflexivity. Qed.

(** C5. For a component file with style modes, the paths handed to the
    style compiler are, for each style URL in order, the base name of the URL
    resolved against the directory of the owning file. *)
Theorem style_path_is_base_name_in_owner_dir (sys : TranspileSystem)
    (compilerConfig : CompilerConfig) (moduleFile : ModuleFileMeta) (st : TranspileState)
    (modes : list (string * StyleMeta)) :
  mf_isTsSourceFile moduleFile = true ->
  mf_cmpMeta moduleFile ≫= styleMeta = Some modes ->
  map file (renders (processIncludedStyles sys compilerConfig moduleFile st).2) =
    map file (renders st)
    ++ map (fun styleUrl => resolved_relative sys moduleFile (basename (t_path sys) styleUrl))
           (all_styleUrls modes).
Proof.
  intros Hts Hmodes.
  destruct (processIncludedStyles_effect sys compilerConfig moduleFile st) as (_ & H & _).
  simpl in H. rewrite H. unfold style_paths. by rewrite Hts, Hmodes.
Qed.

Lemma style_path_is_base_name_in_owner_dir_witness :
  mf_isTsSourceFile nested_style_file = true /\
  mf_cmpMeta nested_style_file ≫= styleMeta = Some (one_mode "styles/a.scss") /\
  map file (renders (processIncludedStyles sample_transpile_sys sample_compiler_config
                       nested_style_file (new_transpile_state ∅)).2) =
    map file (renders (new_transpile_state ∅))
    ++ map (fun styleUrl => resolved_relative sample_transpile_sys nested_style_file
                              (basename (t_path sample_transpile_sys) styleUrl))
           (all_styleUrls (one_mode "styles/a.scss")).
Proof.
  split; [reflexivity|]. split; [reflexivity|].
  apply (style_path_is_base_name_in_owner_dir sample_transpile_sys sample_compiler_config
           nested_style_file (new_transpile_state ∅) (one_mode "styles/a.scss"));
    reflexivity.
Defined.

(** A style URL with a subdirectory: the style compiler gets the file name
    directly under the owning directory, not the path under the
    subdirectory. *)
Lemma nested_style_url_loses_directory :
  map file (renders (processIncludedStyles sample_transpile_sys sample_compiler_config
                       nested_style_file (new_transpile_state ∅)).2) =
    ["/src/cmp/a.scss"] /\
  resolved_relative sample_transpile_sys nested_style_file "styles/a.scss" =
    "/src/cmp/styles/a.scss" /\
  map file (renders (processIncludedStyles sample_transpile_sys sample_compiler_config
                       nested_style_file (new_transpile_state ∅)).2) <>
    [resolved_relative sample_transpile_sys nested_style_file "styles/a.scss"].
Proof. split_and!; [vm_compute; reflexivity..|vm_compute; discriminate]. Qed.

Lemma elem_of_written ws w (m : gmap string string) :
  (w ∈ ws \/ is_Some (m !! w_jsFilePath w)) ->
  is_Some (fold_left (fun m w => <[w_jsFilePath w := w_jsText w]> m) ws m !! w_jsFilePath w).
Proof.
  revert m. induction ws as [|w' ws IH]; intros m [Hin|Hm]; simpl; try done.
  - by inv Hin.
  - apply IH. inv Hin.
    + right. rewrite lookup_insert_eq. eauto.
    + by left.
  - apply IH. right. destruct (decide (w_jsFilePath w' = w_jsFilePath w)) as [->|Hne].
    + rewrite lookup_insert_eq. eauto.
    + by rewrite lookup_insert_ne.
Qed.

(** C6. The diagnostics of the compile results are exactly the TypeScript
    ones, whatever the style compiler did, and every emitted script is in
    [jsFiles]. When the render of a style file fails and its callback fires,
    the error is written to the log with [logger.error] and the promise of
    that style is resolved. *)
Theorem style_error_logged_script_kept (sys : TranspileSystem)
    (program_emit : CustomTransformers -> EmitOutput) (ctx : gmap string ModuleFileMeta)
    (compilerConfig : CompilerConfig) (sched : list nat) :
  diagnostics (results (run_callbacks sys sched
                          (transpileFile sys program_emit ctx compilerConfig))) =
    Some (map to_diagnostic (emit_diagnostics (program_emit customTransformers))) /\
  jsFiles (results (run_callbacks sys sched
                      (transpileFile sys program_emit ctx compilerConfig))) =
    written_files (program_emit customTransformers) /\
  Forall (fun w => is_Some (jsFiles (results (run_callbacks sys sched
                     (transpileFile sys program_emit ctx compilerConfig)))
                            !! w_jsFilePath w))
         (emit_writes (program_emit customTransformers)) /\
  (forall (id : nat) (c : SassConfig) (err : string),
     renders (transpileFile sys program_emit ctx compilerConfig) !! id = Some c ->
     render (t_sass sys) c = SassError err ->
     id ∈ sched ->
     style_error_entry err ∈
       log (run_callbacks sys sched (transpileFile sys program_emit ctx compilerConfig)) /\
     id ∈ resolved (run_callbacks sys sched
                      (transpileFile sys program_emit ctx compilerConfig))).
Proof.
  destruct (transpileFile_effect sys program_emit ctx compilerConfig)
    as (_ & _ & T3 & T4 & T5).
  destruct (run_callbacks_effect sys sched
              (transpileFile sys program_emit ctx compilerConfig))
    as (_ & _ & R3 & R4 & _).
  split; [by rewrite R4|]. split; [by rewrite R3|]. split.
  - rewrite R3, T3. apply Forall_forall. intros w Hw.
    apply elem_of_written. by left.
  - intros id c err Hc Herr Hin.
    destruct (run_callbacks_failing sys sched _ id c err Hc Herr) as [Hres Hlog];
      [rewrite T5; by intros ?%elem_of_nil|done|].
    by split.
Qed.

Lemma style_error_logged_script_kept_witness :
  renders (transpileFile sample_transpile_sys (emit_each ["/src/cmp/a.tsx"])
             missing_style_ctx sample_compiler_config) !! 0 =
    Some {| file := "/src/cmp/missing.scss"; outFile := "/src/cmp/missing.scss.tmp" |} /\
  render (t_sass sample_transpile_sys)
         {| file := "/src/cmp/missing.scss"; outFile := "/src/cmp/missing.scss.tmp" |} =
    SassError "Error: File to read not found or unreadable" /\
  0 ∈ [0] /\
  style_error_entry "Error: File to read not found or unreadable" ∈
    log (run_callbacks sample_transpile_sys [0]
           (transpileFile sample_transpile_sys (emit_each ["/src/cmp/a.tsx"])
              missing_style_ctx sample_compiler_config)) /\
  jsFiles (results (run_callbacks sample_transpile_sys [0]
                      (transpileFile sample_transpile_sys (emit_each ["/src/cmp/a.tsx"])
                         missing_style_ctx sample_compiler_config)))
    !! "/src/cmp/a.tsx.js" = Some "/* js */".
Proof.
  split; [reflexivity|]. split; [reflexivity|]. split; [apply list_elem_of_here|].
  destruct (style_error_logged_script_kept sample_transpile_sys
              (emit_each ["/src/cmp/a.tsx"]) missing_style_ctx sample_compiler_config [0])
    as (_ & Hjs & _ & Hfail).
  split.
  - apply (Hfail 0 {| file := "/src/cmp/missing.scss";
                      outFile := "/src/cmp/missing.scss.tmp" |}
                 "Error: File to read not found or unreadable");
      [reflexivity|reflexivity|apply list_elem_of_here].
  - rewrite Hjs. reflexivity.
Defined.

(** A component whose style file is missing: the render fails, yet the
    diagnostics of the compile results stay empty. *)
Lemma missing_style_yields_no_diagnostic :
  render sample_sass {| file := "/src/cmp/missing.scss";
                        outFile := "/src/cmp/missing.scss.tmp" |} =
    SassError "Error: File to read not found or unreadable" /\
  map file (renders (transpileFile sample_transpile_sys (emit_each ["/src/cmp/a.tsx"])
                       missing_style_ctx sample_compiler_config)) =
    ["/src/cmp/missing.scss"] /\
  diagnostics (results (run_callbacks sample_transpile_sys [0]
                          (transpileFile sample_transpile_sys (emit_each ["/src/cmp/a.tsx"])
                             missing_style_ctx sample_compiler_config))) = Some [].
Proof. split_and!; vm_compute; reflexivity. Qed.

(** ** State markers: which members are recorded *)

(** Before a [State] decorator has been met, the scan carries nothing. *)
Lemma scan_before l :
  fold_left visit_child l (false, None) =
    match after_State_decorator l with
    | Some rest => fold_left visit_child rest (true, None)
    | None => (false, None)
    end.
Proof.
  induction l as [|n l IH]; simpl; [done|].
  unfold is_State_decorator, getChildAt, getChildCount.
  destruct (bool_decide (kind n = Decorator) && (1 <? length (getChildren n))%nat) eqn:Hd;
    simpl; [|apply IH].
  destruct (getChildren n !! 1) as [child|]; [|apply IH].
  destruct (is_State_expression child); [done|apply IH].
Qed.

(** Once a [State] decorator has been met, [propName] ends up truthy exactly
    when a non-empty identifier follows, and then it is the first one. *)
Lemma scan_after l propName :
  exists propName',
    fold_left visit_child l (true, propName) = (true, propName') /\
    (if truthy_ostr propName then propName' = propName
     else match next_identifier l with
          | Some name => propName' = Some name
          | None => truthy_ostr propName' = false
          end).
Proof.
  revert propName. induction l as [|n l IH]; intros propName; simpl.
  { exists propName. split; [done|]. by destruct (truthy_ostr propName) eqn:H. }
  unfold getChildAt, getChildCount.
  destruct (bool_decide (kind n = Decorator)) eqn:Hk; simpl.
  - assert (Hid : bool_decide (kind n = Identifier) = false).
    { apply bool_decide_eq_true in Hk. apply bool_decide_eq_false. congruence. }
    rewrite Hid. simpl.
    assert (Hstep : (if (1 <? length (getChildren n))%nat
                     then match getChildren n !! 1 with
                          | Some child =>
                              if is_State_expression child then (true, propName)
                              else (true, propName)
                          | None => (true, propName)
                          end
                     else (true, propName)) = (true, propName)).
    { destruct (1 <? length (getChildren n))%nat; [|done].
      destruct (getChildren n !! 1) as [child|]; [|done].
      by destruct (is_State_expression child). }
    rewrite Hstep. apply IH.
  - destruct (bool_decide (kind n = Identifier)) eqn:Hid; simpl; [|apply IH].
    destruct (truthy_ostr propName) eqn:Hp; simpl.
    + destruct (IH propName) as (p' & Hf & Hp'). rewrite Hp in Hp'.
      by exists p'.
    + destruct (IH (Some (getText n))) as (p' & Hf & Hp'). simpl in Hp'.
      exists p'. split; [done|].
      by destruct (truthy_str (getText n)).
Qed.

(** What [scan_member] finds, in the words of the specification. *)
Lemma state_name_spec m :
  state_name m =
    if has_decorators m
    then after_State_decorator (forEachChild m) ≫= next_identifier
    else None.
Proof.
  unfold state_name, scan_member. destruct (has_decorators m); [|done].
  rewrite scan_before.
  destruct (after_State_decorator (forEachChild m)) as [rest|]; simpl; [|done].
  destruct (scan_after rest None) as (p' & -> & Hp'). simpl in Hp'.
  destruct (next_identifier rest) as [name|] eqn:Hn.
  - subst p'. assert (truthy_str name = true) as ->; [|done].
    clear -Hn. induction rest as [|n rest IH]; simpl in Hn; [done|].
    destruct (bool_decide (kind n = Identifier) && truthy_str (getText n)) eqn:H.
    + apply andb_prop in H as [_ H]. congruence.
    + by apply IH.
  - destruct p' as [p'|]; [|done]. simpl in Hp'. by rewrite Hp'.
Qed.

Lemma call_style_is_State text callText args :
  is_State_decorator
    (MkNode Decorator text
       [token AtToken "@";
        MkNode CallExpression callText (token Identifier "State" :: args)]) = true.
Proof. reflexivity. Qed.

Lemma bare_is_State text :
  is_State_decorator
    (MkNode Decorator text [token AtToken "@"; token Identifier "State"]) = true.
Proof. reflexivity. Qed.

(** C7. A member is recorded as a state property exactly when it has
    decorators, one of the children visited is a decorator whose expression
    passes the marker test, and a non-empty identifier child follows the
    first such decorator; the recorded name is the first such identifier.
    The call form [@State()] and the bare form [@State] both pass the test. *)
Theorem state_member_recognition (m : ClassElement) (text callText : string)
    (args : list Node) :
  state_name m =
    (if has_decorators m
     then after_State_decorator (forEachChild m) ≫= next_identifier
     else None) /\
  (is_Some (state_name m) <->
   has_decorators m = true /\
   exists rest, after_State_decorator (forEachChild m) = Some rest /\
                is_Some (next_identifier rest)) /\
  is_State_decorator
    (MkNode Decorator text
       [token AtToken "@";
        MkNode CallExpression callText (token Identifier "State" :: args)]) = true /\
  is_State_decorator
    (MkNode Decorator text [token AtToken "@"; token Identifier "State"]) = true /\
  (is_State_expression (token Identifier "State") = true /\
   getFirstToken (token Identifier "State") = None).
Proof.
  split; [apply state_name_spec|]. split; [|done].
  rewrite state_name_spec. destruct (has_decorators m).
  - destruct (after_State_decorator (forEachChild m)) as [rest|]; simpl.
    + split; [by eauto|]. by intros (_ & rest' & [= <-] & H).
    + split; [by intros []|]. by intros (_ & rest' & ? & _).
  - split; [by intros []|]. by intros [? _].
Qed.

(** A member marked [@State()] whose name is a string literal: a decorator
    passes the marker test, yet the member is not recorded. *)
Lemma quoted_member_not_recorded :
  decorators quoted_state_member = Some [call_style_State] /\
  is_State_decorator call_style_State = true /\
  state_name quoted_state_member = None /\
  (getStateDecoratorMeta [quoted_state_member]).1 = [].
Proof. split_and!; reflexivity. Qed.

(** ** State markers: the sorted list *)

Lemma ascii_compare_refl c : Ascii.compare c c = Eq.
Proof. unfold Ascii.compare. apply N.compare_refl. Qed.

Lemma ascii_compare_lt_trans a b c :
  Ascii.compare a b = Lt -> Ascii.compare b c = Lt -> Ascii.compare a c = Lt.
Proof.
  unfold Ascii.compare. rewrite !N.compare_lt_iff. apply N.lt_trans.
Qed.

Lemma string_leb_trans a b c :
  String.leb a b = true -> String.leb b c = true -> String.leb a c = true.
Proof.
  unfold String.leb. revert b c.
  induction a as [|x a IH]; intros [|y b] [|z c]; simpl; try done.
  destruct (Ascii.compare x y) eqn:Hxy; destruct (Ascii.compare y z) eqn:Hyz; try done.
  - apply Ascii.compare_eq_iff in Hxy as ->. apply Ascii.compare_eq_iff in Hyz as ->.
    rewrite ascii_compare_refl. apply IH.
  - apply Ascii.compare_eq_iff in Hxy as ->. by rewrite Hyz.
  - apply Ascii.compare_eq_iff in Hyz as <-. by rewrite Hxy.
  - by rewrite (ascii_compare_lt_trans _ _ _ Hxy Hyz).
Qed.

#[export] Instance ci_le_trans : Transitive ci_le.
Proof. intros a b c. apply string_leb_trans. Qed.

Lemma ci_le_total a b : ci_le a b \/ ci_le b a.
Proof. apply String.leb_total. Qed.

(** The comparator says "not after" exactly when the lower-cased names are
    in order. *)
Lemma compareFn_le a b :
  (compareFn a b <=? 0)%Z = String.leb (toLowerCase a) (toLowerCase b).
Proof.
  unfold compareFn, String.ltb, String.leb.
  rewrite (String.compare_antisym (toLowerCase a) (toLowerCase b)).
  by destruct (String.compare (toLowerCase b) (toLowerCase a)).
Qed.

Lemma sort_insert_perm cmp x l : sort_insert cmp x l ≡ₚ x :: l.
Proof.
  induction l as [|y l IH]; simpl; [done|].
  destruct (cmp x y <=? 0)%Z; [done|].
  rewrite IH. apply perm_swap.
Qed.

Lemma sort_perm cmp l : sort cmp l ≡ₚ l.
Proof.
  induction l as [|x l IH]; simpl; [done|].
  by rewrite sort_insert_perm, IH.
Qed.

Lemma sort_insert_sorted x l :
  StronglySorted ci_le l -> StronglySorted ci_le (sort_insert compareFn x l).
Proof.
  induction 1 as [|y l Hl IH Hy]; simpl.
  { repeat constructor. }
  rewrite compareFn_le. destruct (String.leb (toLowerCase x) (toLowerCase y)) eqn:Hxy.
  - constructor; [by constructor|].
    constructor; [done|]. eapply Forall_impl; [exact Hy|].
    intros z Hz. by etrans.
  - constructor; [done|].
    rewrite sort_insert_perm. constructor; [|done].
    destruct (ci_le_total x y) as [H|H]; [|done]. unfold ci_le in H. congruence.
Qed.

Lemma sort_sorted l : StronglySorted ci_le (sort compareFn l).
Proof.
  induction l as [|x l IH]; simpl; [constructor|]. by apply sort_insert_sorted.
Qed.

Lemma NoDup_fmap_eq {A B} (f : A -> B) (l : list A) x y :
  NoDup (map f l) -> x ∈ l -> y ∈ l -> f x = f y -> x = y.
Proof.
  induction l as [|z l IH]; simpl; intros Hnd Hx Hy Hf; [by inv Hx|].
  apply NoDup_cons in Hnd as [Hz Hnd].
  inv Hx; inv Hy; try done.
  - exfalso. apply Hz. rewrite Hf. by apply (list_elem_of_fmap_2 f).
  - exfalso. apply Hz. rewrite <- Hf. by apply (list_elem_of_fmap_2 f).
  - by apply IH.
Qed.

(** A member that has been processed carries no marker any more. *)
Lemma state_name_strip m : state_name (strip_member m) = None.
Proof.
  unfold strip_member. destruct (state_name m) eqn:H; [done|exact H].
Qed.

Lemma strip_member_idemp m : strip_member (strip_member m) = strip_member m.
Proof. unfold strip_member at 1. by rewrite state_name_strip. Qed.

Lemma state_names_strip members : state_names (map strip_member members) = [].
Proof.
  induction members as [|m members IH]; simpl; [done|].
  unfold state_names in *. simpl. by rewrite state_name_strip.
Qed.

(** C2. The extracted list is the names of the recorded members sorted in
    case-insensitive order (every occurrence is kept). Running the extraction
    again on the class it has processed finds no marker left: it yields the
    empty list and changes nothing more. When the recorded names are pairwise
    different, the list has no duplicates; when they are pairwise different
    ignoring case, the list is the same for every declaration order. *)
Theorem state_names_sorted (members : list ClassElement) :
  StronglySorted ci_le (getStateDecoratorMeta members).1 /\
  (getStateDecoratorMeta members).1 ≡ₚ state_names members /\
  getStateDecoratorMeta (getStateDecoratorMeta members).2 =
    ([], (getStateDecoratorMeta members).2) /\
  (NoDup (state_names members) -> NoDup (getStateDecoratorMeta members).1) /\
  (NoDup (map toLowerCase (state_names members)) ->
   forall members', members ≡ₚ members' ->
     (getStateDecoratorMeta members').1 = (getStateDecoratorMeta members).1).
Proof.
  simpl. fold (state_names members).
  split_and!.
  - apply sort_sorted.
  - apply sort_perm.
  - unfold getStateDecoratorMeta. fold (state_names (map strip_member members)).
    rewrite state_names_strip. f_equal.
    rewrite <- list_fmap_compose. apply list_fmap_ext. intros _ m _. simpl.
    apply strip_member_idemp.
  - intros Hnd. by rewrite sort_perm.
  - intros Hnd members' Hperm. fold (state_names members').
    assert (Hnames : state_names members' ≡ₚ state_names members).
    { unfold state_names. by rewrite Hperm. }
    apply (StronglySorted_unique_strong ci_le); [|apply sort_sorted..|].
    + intros x y Hx Hy Hxy Hyx.
      rewrite sort_perm, Hnames in Hx. rewrite sort_perm in Hy.
      apply (NoDup_fmap_eq toLowerCase (state_names members)); try done.
      by apply String.leb_antisym.
    + by rewrite !sort_perm.
Qed.

Lemma state_names_sorted_witness :
  NoDup (map toLowerCase (state_names [state_member "B"; state_member "a"])) /\
  [state_member "B"; state_member "a"] ≡ₚ [state_member "a"; state_member "B"] /\
  (getStateDecoratorMeta [state_member "a"; state_member "B"]).1 =
    (getStateDecoratorMeta [state_member "B"; state_member "a"]).1.
Proof.
  assert (Hperm : [state_member "B"; state_member "a"]
                    ≡ₚ [state_member "a"; state_member "B"]) by apply perm_swap.
  assert (Hnd : NoDup (map toLowerCase (state_names [state_member "B"; state_member "a"]))).
  { apply NoDup_cons. split; [|apply NoDup_singleton].
    intros H%list_elem_of_singleton. discriminate H. }
  split; [exact Hnd|]. split; [exact Hperm|].
  exact (proj2 (proj2 (proj2 (proj2
    (state_names_sorted [state_member "B"; state_member "a"])))) Hnd
    [state_member "a"; state_member "B"] Hperm).
Defined.

(** Where the extraction is not what C2 says: a name marked on two members
    is listed twice; a second run on the processed class loses the names;
    names that differ only in case come out in declaration order. *)
Lemma state_names_kept_twice_and_lost_on_rerun :
  (getStateDecoratorMeta [state_member "a"; state_member "a"]).1 = ["a"; "a"] /\
  (getStateDecoratorMeta [state_member "a"]).1 = ["a"] /\
  (getStateDecoratorMeta (getStateDecoratorMeta [state_member "a"]).2).1 = [] /\
  (getStateDecoratorMeta [state_member "a"; state_member "A"]).1 = ["a"; "A"] /\
  (getStateDecoratorMeta [state_member "A"; state_member "a"]).1 = ["A"; "a"].
Proof. split_and!; reflexivity. Qed.


(** * Further properties *)

(** ** build: how each step runs *)

Lemma bind_run {A B} (m : M A) (f : A -> M B) st :
  (m ≫= f) st =
    match m st with
    | (Returned a, st') => f a st'
    | (Threw e, st') => (Threw e, st')
    end.
Proof. reflexivity. Qed.

Lemma call_run {A} ev (r : JsResult A) st : call ev r st = (r, add_events [ev] st).
Proof. reflexivity. Qed.

Lemma stage_validate_run ext st :
  stage_validate ext st =
    match validateBuildConfig (st_config st) with
    | Threw e => (Threw e, st)
    | Returned c' =>
        (generateDependentManifests ext (collections c') (rootDir c') (destDir c'),
         add_events [EvGenerateDependentManifests (collections c') (rootDir c') (destDir c')]
                    (with_config c' st))
    end.
Proof.
  unfold stage_validate. unfold_M.
  by destruct (validateBuildConfig (st_config st)).
Qed.

Lemma concat_diagnostics_run ods st :
  concat_diagnostics ods st =
    (Returned tt, with_diagnostics (st_diagnostics st ++ default [] ods) st).
Proof.
  destruct ods as [ds|]; simpl; [done|].
  unfold with_diagnostics. rewrite app_nil_r. by destruct st.
Qed.

Lemma assign_filesToWrite_run ofs st :
  assign_filesToWrite ofs st =
    (Returned tt, with_filesToWrite (default ∅ ofs ∪ st_filesToWrite st) st).
Proof.
  destruct ofs as [f|]; simpl; [done|].
  unfold with_filesToWrite. rewrite (left_id_L ∅ (∪)). by destruct st.
Qed.

Lemma stage_compile_run ext dms st :
  let cc := compiler_config_of (st_config st) in
  let st1 := add_events [EvCompile cc] st in
  stage_compile ext dms st =
    match compile ext cc with
    | Threw e => (Threw e, st1)
    | Returned cr =>
        let st2 := with_filesToWrite (default ∅ (filesToWrite cr) ∪ st_filesToWrite st)
                     (with_diagnostics (st_diagnostics st ++ default [] (diagnostics cr)) st1) in
        let rm := default {| components := [] |} (manifest cr) in
        match updateManifestUrls ext rm (destDir (st_config st)) (destDir (st_config st)) with
        | Threw e => (Threw e, add_events [EvUpdateManifestUrls rm] st2)
        | Returned lm =>
            (mergeManifests ext (option_list lm ++ dms),
             add_events [EvUpdateManifestUrls rm; EvMergeManifests (option_list lm ++ dms)] st2)
        end
    end.
Proof.
  intros cc st1. subst cc st1. unfold stage_compile, compileProject, compiler_config_of.
  rewrite !bind_run. unfold get_config at 1. rewrite call_run.
  match goal with |- context [compile ext ?x] => destruct (compile ext x) as [cr|e] end;
    [|done].
  rewrite bind_run, concat_diagnostics_run. cbv beta iota.
  rewrite bind_run, assign_filesToWrite_run. cbv beta iota.
  rewrite bind_run. unfold get_config at 1. cbv beta iota.
  rewrite bind_run, call_run.
  cbn [st_config st_diagnostics st_filesToWrite st_trace with_diagnostics
       with_filesToWrite add_events].
  match goal with |- context [updateManifestUrls ext ?x ?y ?z] =>
    destruct (updateManifestUrls ext x y z) as [lm|e] end; [|reflexivity].
  rewrite call_run. unfold add_events. simpl. by rewrite <- !app_assoc.
Qed.

Lemma stage_bundle_run ext m st :
  let bc := bundler_config_of (st_config st) m in
  let st1 := add_events [EvBundle bc] st in
  stage_bundle ext m st =
    match bundle ext bc with
    | Threw e => (Threw e, st1)
    | Returned br =>
        let files := default ∅ (br_filesToWrite br) ∪ st_filesToWrite st in
        let st2 := add_events [EvGenerateProjectFiles (componentRegistry br)]
                     (with_filesToWrite files
                        (with_diagnostics (st_diagnostics st ++ default [] (br_diagnostics br))
                           st1)) in
        match generateProjectFiles ext (st_config st) (componentRegistry br) files with
        | Threw e => (Threw e, st2)
        | Returned files' => (Returned tt, with_filesToWrite files' st2)
        end
    end.
Proof.
  intros bc st1. subst bc st1. unfold stage_bundle, bundleProject, bundler_config_of.
  rewrite !bind_run. unfold get_config at 1. rewrite call_run.
  match goal with |- context [bundle ext ?x] => destruct (bundle ext x) as [br|e] end;
    [|done].
  rewrite bind_run, concat_diagnostics_run. cbv beta iota.
  rewrite bind_run, assign_filesToWrite_run. cbv beta iota.
  rewrite bind_run. unfold get_config at 1. cbv beta iota.
  rewrite bind_run. unfold get_filesToWrite at 1. cbv beta iota.
  rewrite bind_run, call_run.
  cbn [st_config st_diagnostics st_filesToWrite st_trace with_diagnostics
       with_filesToWrite add_events].
  match goal with |- context [generateProjectFiles ext ?x ?y ?z] =>
    destruct (generateProjectFiles ext x y z) as [files'|e] end; reflexivity.
Qed.

Lemma stage_write_run ext st :
  stage_write ext st =
    if isDevMode (st_config st)
    then (writeFiles ext (st_filesToWrite st) (destDir (st_config st)),
          add_events [EvWriteFiles (st_filesToWrite st) (destDir (st_config st))] st)
    else (updateDirectories ext (st_filesToWrite st) (destDir (st_config st)),
          add_events [EvUpdateDirectories (st_filesToWrite st) (destDir (st_config st))] st).
Proof.
  unfold stage_write. rewrite !bind_run. simpl.
  by destruct (isDevMode (st_config st)).
Qed.

Lemma on_error_run e st :
  on_error e st =
    match thrown_toString e with
    | Some msg =>
        (Returned tt,
         with_diagnostics (st_diagnostics st ++ [error_diagnostic msg (thrown_stack e)]) st)
    | None => (Threw (TypeError "Cannot read property 'toString' of undefined"), st)
    end.
Proof. unfold on_error. by destruct (thrown_toString e). Qed.

Lemma loggable_prefix_all lg ds :
  forallb (loggable lg) ds = true -> loggable_prefix lg ds = ds.
Proof.
  induction ds as [|d ds IH]; simpl; [done|].
  intros [-> H]%andb_prop. by rewrite IH.
Qed.

Lemma loggable_prefix_split lg ds :
  forallb (loggable lg) ds = false ->
  exists d ds2, ds = loggable_prefix lg ds ++ d :: ds2 /\
                forallb (loggable lg) (loggable_prefix lg ds) = true /\
                loggable lg d = false.
Proof.
  induction ds as [|d ds IH]; simpl; [done|].
  destruct (loggable lg d) eqn:Hd; simpl.
  - intros H. destruct (IH H) as (d' & ds2 & Heq & Hall & Hd').
    exists d', ds2. rewrite Hd. simpl. split_and!; [by f_equal|done|done].
  - intros _. by exists d, ds.
Qed.

(** The last [then] in one equation: it logs the diagnostics up to the
    first one it cannot dispatch; if there is none it runs the closing steps
    and returns the result, otherwise it throws. *)
Lemma finalize_run lg st :
  finalize lg st =
    if forallb (loggable lg) (st_diagnostics st)
    then (Returned (empty_results (st_diagnostics st)),
          add_events (map (log_event lg) (st_diagnostics st)
                      ++ closing_events (st_config st)) st)
    else (Threw (TypeError "logger[d.type] is not a function"),
          add_events (map (log_event lg) (loggable_prefix lg (st_diagnostics st))) st).
Proof.
  destruct (forallb (loggable lg) (st_diagnostics st)) eqn:H.
  - by apply finalize_loggable.
  - destruct (loggable_prefix_split _ _ H) as (d & ds2 & Heq & Hall & Hd).
    by apply finalize_unloggable with (d := d) (ds2 := ds2).
Qed.

Lemma build_run ext c :
  build ext c =
    match chain ext (state_before_validation c) with
    | (Returned _, st1) => finalize (logger c) st1
    | (Threw e, st1) => (Threw e, st1)
    end.
Proof. reflexivity. Qed.

Ltac split_result scrutinee :=
  match goal with
  | |- context [match scrutinee ?a with _ => _ end] => destruct (scrutinee a) eqn:?
  | |- context [match scrutinee ?a ?b with _ => _ end] => destruct (scrutinee a b) eqn:?
  | |- context [match scrutinee ?a ?b ?c with _ => _ end] => destruct (scrutinee a b c) eqn:?
  end.

Ltac normalize_state :=
  cbn [st_config st_diagnostics st_filesToWrite st_trace with_diagnostics
       with_filesToWrite with_config add_events state_before_validation fst snd].

(** Everything the chain of [then]s and its [catch] can do, whatever the
    collaborators answer. *)
Lemma chain_shape ext c :
  let c0 := set_writeCompiledToDisk false c in
  let out := chain ext (state_before_validation c) in
  (out.1 = Returned tt \/
   out.1 = Threw (TypeError "Cannot read property 'toString' of undefined")) /\
  exists t,
    st_trace out.2 = st_trace (state_before_validation c) ++ t /\
    forallb is_stage_event t = true /\
    omap stage_kind t `prefix_of` stage_sequence (isDevMode c) /\
    ((exists e, validateBuildConfig c0 = Threw e /\ t = [] /\ st_config out.2 = c0) \/
     (validateBuildConfig c0 = Returned (st_config out.2) /\
      compile_calls t `prefix_of` [compiler_config_of (st_config out.2)] /\
      (bundle_calls t = [] \/
       exists m, bundle_calls t = [bundler_config_of (st_config out.2) m]) /\
      (write_calls t = [] \/
       write_calls t = [(st_filesToWrite out.2, destDir (st_config out.2))]))).
Proof.
  intros c0 out. subst out. unfold chain, catch, stages.
  rewrite bind_run, stage_validate_run. normalize_state. fold c0.
  destruct (validateBuildConfig c0) as [c'|e] eqn:Hv.
  2:{ destruct (validate_throws _ _ Hv) as (g & _ & ->). rewrite on_error_run. simpl.
      split; [by left|]. exists []. split_and!; try done.
      - by apply prefix_nil.
      - left. by eexists. }
  assert (Hdev : isDevMode c' = isDevMode c).
  { by destruct (validate_fields _ _ Hv) as (_ & _ & _ & _ & _ & -> & _). }
  split_result (generateDependentManifests ext).
  2:{ rewrite on_error_run. destruct (thrown_toString e); normalize_state;
      (split; [by auto|]); eexists; (split; [reflexivity|]);
      (split_and!; [done|by eexists|right; split_and!; [done|by apply prefix_nil|by left..]]). }
  rewrite bind_run, stage_compile_run. normalize_state.
  split_result (compile ext).
  2:{ rewrite on_error_run. destruct (thrown_toString e); normalize_state;
      (split; [by auto|]); eexists; (split; [reflexivity|]);
      (split_and!; [done|by eexists|right; split_and!; [done|done|by left..]]). }
  split_result (updateManifestUrls ext).
  2:{ rewrite on_error_run. destruct (thrown_toString e); normalize_state;
      (split; [by auto|]); eexists; (split; [reflexivity|]);
      (split_and!; [done|by eexists|right; split_and!; [done|done|by left..]]). }
  split_result (mergeManifests ext).
  2:{ rewrite on_error_run. destruct (thrown_toString e); normalize_state;
      (split; [by auto|]); eexists; (split; [reflexivity|]);
      (split_and!; [done|by eexists|right; split_and!; [done|done|by left..]]). }
  rewrite bind_run, stage_bundle_run. normalize_state.
  split_result (bundle ext).
  2:{ rewrite on_error_run. destruct (thrown_toString e); normalize_state;
      (split; [by auto|]); eexists; (split; [reflexivity|]);
      (split_and!; [done|by eexists|
                    right; split_and!; [done|done|right; by eexists|by left]]). }
  split_result (generateProjectFiles ext).
  2:{ rewrite on_error_run. destruct (thrown_toString e); normalize_state;
      (split; [by auto|]); eexists; (split; [reflexivity|]);
      (split_and!; [done|by eexists|
                    right; split_and!; [done|done|right; by eexists|by left]]). }
  rewrite stage_write_run. normalize_state. rewrite Hdev.
  destruct (isDevMode c); normalize_state.
  - split_result (writeFiles ext).
    + repeat match goal with u : () |- _ => destruct u end; normalize_state.
      (split; [by auto|]); eexists; (split; [reflexivity|]).
      split_and!; [done|done|right; split_and!; [done|done|right; by eexists|by right]].
    + rewrite on_error_run. destruct (thrown_toString e); normalize_state;
      (split; [by auto|]); eexists; (split; [reflexivity|]);
      (split_and!; [done|done|
                    right; split_and!; [done|done|right; by eexists|by right]]).
  - split_result (updateDirectories ext).
    + repeat match goal with u : () |- _ => destruct u end; normalize_state.
      (split; [by auto|]); eexists; (split; [reflexivity|]).
      split_and!; [done|done|right; split_and!; [done|done|right; by eexists|by right]].
    + rewrite on_error_run. destruct (thrown_toString e); normalize_state;
      (split; [by auto|]); eexists; (split; [reflexivity|]);
      (split_and!; [done|done|
                    right; split_and!; [done|done|right; by eexists|by right]]).
Qed.

Lemma stage_kind_log_events lg ds : omap stage_kind (map (log_event lg) ds) = [].
Proof.
  induction ds as [|d ds IH]; simpl; [done|].
  unfold log_event at 1. by destruct (_ && _).
Qed.



Lemma stage_kind_closing c : omap stage_kind (closing_events c) = [].
Proof. unfold closing_events. by destruct (isWatch c). Qed.

Lemma disconnect_log_events lg ds : existsb is_disconnect (map (log_event lg) ds) = false.
Proof.
  induction ds as [|d ds IH]; simpl; [done|].
  unfold log_event at 1. by destruct (_ && _).
Qed.

Lemma disconnect_stage_events t :
  forallb is_stage_event t = true -> existsb is_disconnect t = false.
Proof.
  induction t as [|ev t IH]; simpl; [done|].
  intros [Hev Ht]%andb_prop. rewrite (IH Ht). by destruct ev.
Qed.

Lemma calls_of_non_stage t :
  omap stage_kind t = [] ->
  compile_calls t = [] /\ bundle_calls t = [] /\ write_calls t = [].
Proof.
  induction t as [|ev t IH]; simpl; [done|].
  destruct ev; simpl; try done; intros H; by apply IH.
Qed.

(** What the last [then] adds to the trace. *)
Lemma finalize_trace lg st :
  exists tf,
    st_trace (finalize lg st).2 = st_trace st ++ tf /\
    omap stage_kind tf = [] /\
    existsb is_disconnect tf = is_returned (finalize lg st).1 && negb (isWatch (st_config st)) /\
    st_config (finalize lg st).2 = st_config st /\
    st_diagnostics (finalize lg st).2 = st_diagnostics st /\
    st_filesToWrite (finalize lg st).2 = st_filesToWrite st.
Proof.
  rewrite finalize_run. destruct (forallb (loggable lg) (st_diagnostics st)); simpl.
  - eexists. split; [reflexivity|]. split_and!; try done.
    + by rewrite omap_app, stage_kind_log_events, stage_kind_closing.
    + rewrite existsb_app, disconnect_log_events. unfold closing_events.
      by destruct (isWatch (st_config st)).
  - eexists. split; [reflexivity|]. split_and!; try done.
    + apply stage_kind_log_events.
    + apply disconnect_log_events.
Qed.

(** A whole build: the prelude, the stage calls, then what the last [then]
    adds. *)
Lemma build_shape ext c :
  exists t tf,
    st_trace (build ext c).2 =
      [EvLogger "createTimeSpan" (started_message c); EvConnect (numWorkers c)] ++ t ++ tf /\
    forallb is_stage_event t = true /\
    omap stage_kind t `prefix_of` stage_sequence (isDevMode c) /\
    omap stage_kind tf = [] /\
    existsb is_disconnect tf = is_returned (build ext c).1 && negb (isWatch c) /\
    ((exists e, validateBuildConfig (set_writeCompiledToDisk false c) = Threw e /\ t = [] /\
                st_config (build ext c).2 = set_writeCompiledToDisk false c) \/
     (validateBuildConfig (set_writeCompiledToDisk false c) =
        Returned (st_config (build ext c).2) /\
      compile_calls t `prefix_of` [compiler_config_of (st_config (build ext c).2)] /\
      (bundle_calls t = [] \/
       exists m, bundle_calls t = [bundler_config_of (st_config (build ext c).2) m]) /\
      (write_calls t = [] \/
       write_calls t = [(st_filesToWrite (build ext c).2,
                         destDir (st_config (build ext c).2))]))).
Proof.
  destruct (chain_shape ext c) as (Hres & t & Ht & Hstage & Horder & Hcases).
  simpl in Hres, Ht, Hcases. rewrite build_run.
  destruct (chain ext (state_before_validation c)) as [r st1] eqn:Hchain.
  simpl in Hres, Ht, Hcases.
  assert (Hwatch : isWatch (st_config st1) = isWatch c).
  { destruct Hcases as [(e & _ & _ & ->)|(Hv & _)]; [done|].
    by destruct (validate_fields _ _ Hv) as (_ & _ & _ & _ & _ & _ & -> & _). }
  destruct r as [[]|e].
  - destruct (finalize_trace (logger c) st1) as (tf & Htf & Hk & Hd & Hc & _ & Hf).
    exists t, tf. rewrite Htf, Ht, Hc, Hf, Hd, Hwatch.
    by split_and!.
  - exists t, []. simpl. rewrite Ht, app_nil_r. by split_and!.
Qed.

(** The stage calls made by the chain of [then]s: none when validation
    throws, and otherwise one more than the number of stages that returned. *)
Lemma chain_stage_kinds ext c :
  omap stage_kind (st_trace (chain ext (state_before_validation c)).2) =
    match stages_returned ext c with
    | None => []
    | Some k => take (S k) (stage_sequence (isDevMode c))
    end.
Proof.
  unfold chain, catch, stages, stages_returned.
  rewrite bind_run, stage_validate_run. normalize_state.
  destruct (validateBuildConfig (set_writeCompiledToDisk false c)) as [c'|e] eqn:Hv.
  2:{ destruct (validate_throws _ _ Hv) as (g & _ & ->). by rewrite on_error_run. }
  assert (Hdev : isDevMode c' = isDevMode c).
  { by destruct (validate_fields _ _ Hv) as (_ & _ & _ & _ & _ & -> & _). }
  split_result (generateDependentManifests ext).
  2:{ rewrite on_error_run. by destruct (thrown_toString e). }
  rewrite bind_run, stage_compile_run. normalize_state.
  split_result (compile ext).
  2:{ rewrite on_error_run. by destruct (thrown_toString e). }
  split_result (updateManifestUrls ext).
  2:{ rewrite on_error_run. by destruct (thrown_toString e). }
  split_result (mergeManifests ext).
  2:{ rewrite on_error_run. by destruct (thrown_toString e). }
  rewrite bind_run, stage_bundle_run. normalize_state.
  split_result (bundle ext).
  2:{ rewrite on_error_run. by destruct (thrown_toString e). }
  unfold merged_files.
  split_result (generateProjectFiles ext).
  2:{ rewrite on_error_run. by destruct (thrown_toString e). }
  rewrite stage_write_run. normalize_state. rewrite Hdev.
  destruct (isDevMode c); normalize_state.
  - split_result (writeFiles ext); [done|].
    rewrite on_error_run. by destruct (thrown_toString e).
  - split_result (updateDirectories ext); [done|].
    rewrite on_error_run. by destruct (thrown_toString e).
Qed.

(** X1. Whatever the collaborators answer, the stage calls of a build are an
    initial part of one fixed sequence: dependent manifests, compile, manifest
    URLs, merge, bundle, project files, then [writeFiles] in dev mode or
    [updateDirectories] otherwise. No stage is called twice or out of order,
    and the write call of the other mode never occurs. No stage is called
    when validation throws; otherwise the calls made are one more than the
    stages that returned, so a stage is called only when every stage before
    it has returned. *)
Theorem build_stage_order (ext : Collaborators) (c : BuildConfig) :
  omap stage_kind (st_trace (build ext c).2) `prefix_of` stage_sequence (isDevMode c) /\
  omap stage_kind (st_trace (build ext c).2) =
    match stages_returned ext c with
    | None => []
    | Some k => take (S k) (stage_sequence (isDevMode c))
    end /\
  (forall n, n < length (omap stage_kind (st_trace (build ext c).2)) ->
             exists k, stages_returned ext c = Some k /\ n <= k).
Proof.
  assert (Heq : omap stage_kind (st_trace (build ext c).2) =
                match stages_returned ext c with
                | None => []
                | Some k => take (S k) (stage_sequence (isDevMode c))
                end).
  { rewrite <- chain_stage_kinds, build_run.
    destruct (chain ext (state_before_validation c)) as [[[]|e] st1]; [|done].
    destruct (finalize_trace (logger c) st1) as (tf & -> & Hk & _).
    cbn [snd]. by rewrite omap_app, Hk, app_nil_r. }
  rewrite Heq. destruct (stages_returned ext c) as [k|].
  - split_and!; [apply prefix_take|done|].
    intros n Hn. exists k. split; [done|]. rewrite length_take in Hn. lia.
  - split_and!; [apply prefix_nil|done|]. simpl. lia.
Qed.


(** X2. The pool is disconnected exactly when the promise resolves and
    watch mode is off: never in watch mode, and never when the promise
    rejects. *)
Theorem build_disconnects_iff_resolved (ext : Collaborators) (c : BuildConfig) :
  existsb is_disconnect (st_trace (build ext c).2) =
    is_returned (build ext c).1 && negb (isWatch c).
Proof.
  destruct (build_shape ext c) as (t & tf & Htr & Hstage & _ & _ & Hd & _).
  rewrite Htr, !existsb_app, Hd.
  by rewrite (disconnect_stage_events t Hstage).
Qed.

(** X3. A build writes at most once, and then it writes the final
    [filesToWrite] buffer to the configured [destDir]. *)
Theorem build_writes_final_buffer_once (ext : Collaborators) (c : BuildConfig) :
  write_calls (st_trace (build ext c).2) = [] \/
  write_calls (st_trace (build ext c).2) = [(st_filesToWrite (build ext c).2, destDir c)].
Proof.
  destruct (build_shape ext c) as (t & tf & Htr & _ & _ & Hk & _ & Hcases).
  rewrite Htr. unfold write_calls. rewrite !omap_app. fold (write_calls t) (write_calls tf).
  destruct (calls_of_non_stage _ Hk) as (_ & _ & ->). rewrite app_nil_r. simpl.
  destruct Hcases as [(e & _ & -> & _)|(Hv & _ & _ & Hw)]; [by left|].
  destruct (validate_fields _ _ Hv) as (_ & Hdest & _). rewrite Hdest in Hw. exact Hw.
Qed.

Lemma calls_of_build ext c t tf :
  st_trace (build ext c).2 =
    [EvLogger "createTimeSpan" (started_message c); EvConnect (numWorkers c)] ++ t ++ tf ->
  omap stage_kind tf = [] ->
  compile_calls (st_trace (build ext c).2) = compile_calls t /\
  bundle_calls (st_trace (build ext c).2) = bundle_calls t.
Proof.
  intros -> Hk. destruct (calls_of_non_stage _ Hk) as (Hc & Hb & _).
  unfold compile_calls, bundle_calls in *. rewrite !omap_app, Hc, Hb, !app_nil_r. done.
Qed.

(** A call of [compile] happens only after validation, with the config
    made from the validated build config. *)
Lemma compile_call_of_build ext c cc :
  cc ∈ compile_calls (st_trace (build ext c).2) ->
  exists c1, validateBuildConfig (set_writeCompiledToDisk false c) = Returned c1 /\
             cc = compiler_config_of c1.
Proof.
  destruct (build_shape ext c) as (t & tf & Htr & _ & _ & Hk & _ & Hcases).
  destruct (calls_of_build ext c t tf Htr Hk) as [-> _].
  destruct Hcases as [(e & _ & -> & _)|(Hv & Hcc & _)]; [by intros ?%elem_of_nil|].
  intros Hin. eapply elem_of_prefix in Hin; [|exact Hcc].
  apply list_elem_of_singleton in Hin. by eexists.
Qed.

(** X4. Every call of [compile] gets a config derived from the validated
    build config: output and root directories are [destDir] and [srcDir],
    only [srcDir] is included, [bundles] is a list (empty when the caller gave
    none), and [writeCompiledToDisk] is false whatever the caller had set. *)
Theorem compile_gets_validated_config (ext : Collaborators) (c : BuildConfig)
    (cc : CompilerConfig) :
  cc ∈ compile_calls (st_trace (build ext c).2) ->
  cc_writeCompiledToDisk cc = Some false /\
  outDir (compilerOptions cc) = destDir c /\
  co_rootDir (compilerOptions cc) = srcDir c /\
  include cc = [srcDir c] /\
  exclude cc = ["node_modules"; "test"] /\
  cc_bundles cc = Some (default [] (bundles c)) /\
  cc_isDevMode cc = isDevMode c /\
  cc_isWatch cc = isWatch c.
Proof.
  intros (c1 & Hv & ->)%compile_call_of_build.
  destruct (validate_fields _ _ Hv)
    as (Hsrc & Hdest & _ & _ & _ & Hdev & Hwatch & _ & Hw & Hb & _).
  unfold compiler_config_of. simpl. rewrite Hsrc, Hdest, Hdev, Hwatch, Hw, Hb. done.
Qed.

Lemma compile_gets_validated_config_witness :
  compiler_config_of running_sample_config
    ∈ compile_calls (st_trace (build quiet_collaborators sample_config).2) /\
  cc_writeCompiledToDisk (compiler_config_of running_sample_config) = Some false /\
  cc_bundles (compiler_config_of running_sample_config) = Some [].
Proof.
  assert (H : compiler_config_of running_sample_config
                ∈ compile_calls (st_trace (build quiet_collaborators sample_config).2)).
  { vm_compute. apply list_elem_of_here. }
  split; [exact H|].
  destruct (compile_gets_validated_config quiet_collaborators sample_config _ H)
    as (Hw & _ & _ & _ & _ & Hb & _).
  split; [exact Hw|exact Hb].
Defined.

(** X5. Every call of [bundle] gets a namespace that is not empty and
    neither starts nor ends with white space: "App" when the caller gave none,
    "bundles" when the caller's was made of white space only, and otherwise
    the caller's without the white space around it; and it gets the [srcDir],
    [destDir] and mode flags of the build config. *)
Theorem bundle_gets_nonempty_namespace (ext : Collaborators) (c : BuildConfig)
    (bc : BundlerConfig) :
  bc ∈ bundle_calls (st_trace (build ext c).2) ->
  (exists ns, bc_namespace bc = Some ns /\ ns <> "" /\ trim ns = ns /\
              starts_with_whitespace ns = false /\ ends_with_whitespace ns = false /\
              namespace_outcome (namespace c) ns) /\
  bc_srcDir bc = srcDir c /\
  bc_destDir bc = destDir c /\
  bc_isDevMode bc = isDevMode c /\
  bc_isWatch bc = isWatch c.
Proof.
  destruct (build_shape ext c) as (t & tf & Htr & _ & _ & Hk & _ & Hcases).
  destruct (calls_of_build ext c t tf Htr Hk) as [_ ->].
  destruct Hcases as [(e & _ & -> & _)|(Hv & _ & Hbc & _)]; [by intros ?%elem_of_nil|].
  destruct Hbc as [->|(m & ->)]; [by intros ?%elem_of_nil|].
  intros ->%list_elem_of_singleton.
  destruct (validate_fields _ _ Hv) as (Hsrc & Hdest & _ & _ & _ & Hdev & Hwatch & _).
  unfold bundler_config_of. simpl. rewrite Hsrc, Hdest, Hdev, Hwatch.
  split; [exact (validated_namespace_outcome _ _ Hv)|done].
Qed.

Lemma bundle_gets_nonempty_namespace_witness :
  bundler_config_of (set_writeCompiledToDisk false validated_spaced_config)
                    {| components := ["my-cmp"] |}
    ∈ bundle_calls (st_trace (build quiet_collaborators spaced_config).2) /\
  bc_namespace (bundler_config_of (set_writeCompiledToDisk false validated_spaced_config)
                                  {| components := ["my-cmp"] |}) = Some "my ns" /\
  exists ns, bc_namespace (bundler_config_of
                             (set_writeCompiledToDisk false validated_spaced_config)
                             {| components := ["my-cmp"] |}) = Some ns /\
             ns <> "" /\ trim ns = ns /\
             starts_with_whitespace ns = false /\ ends_with_whitespace ns = false /\
             namespace_outcome (namespace spaced_config) ns.
Proof.
  assert (H : bundler_config_of (set_writeCompiledToDisk false validated_spaced_config)
                                {| components := ["my-cmp"] |}
                ∈ bundle_calls (st_trace (build quiet_collaborators spaced_config).2)).
  { vm_compute. apply list_elem_of_here. }
  split; [exact H|]. split; [reflexivity|].
  exact (proj1 (bundle_gets_nonempty_namespace quiet_collaborators spaced_config _ H)).
Defined.

Lemma closing_events_validated c c1 :
  validateBuildConfig (set_writeCompiledToDisk false c) = Returned c1 ->
  closing_events c1 = closing_events c /\ isDevMode c1 = isDevMode c /\
  destDir c1 = destDir c.
Proof.
  intros Hv.
  destruct (validate_fields _ _ Hv) as (_ & Hdest & _ & _ & _ & Hdev & Hwatch & _).
  unfold closing_events. by rewrite Hwatch, Hdev, Hdest.
Qed.

(** The log entry of the diagnostic that the [catch] handler builds. *)
Lemma log_event_error lg msg stack :
  log_event lg (error_diagnostic msg stack) =
    EvLogger "error" (if String.eqb (level lg) "debug" && truthy_ostr stack
                      then default "" stack else msg).
Proof.
  unfold log_event, error_diagnostic. cbn [d_type d_stack d_msg property_key].
  rewrite bool_decide_true by done. cbn [andb]. by destruct (_ && _).
Qed.

(** X6. When [compile] rejects, nothing is bundled or written. If the
    rejection value has a [toString], the promise still resolves, with one
    diagnostic whose [msg] is [err.toString()], whose [type] is "error" and
    whose [stack] is [err.stack]; it is logged through [logger.error] before
    the closing steps, as the stack when the logger is at debug level and
    there is a stack, as the message otherwise. If the rejection value is
    [undefined] or [null], the [catch] handler itself throws, the promise
    rejects and the closing steps do not run. *)
Theorem build_when_compile_rejects (ext : Collaborators) (c c1 : BuildConfig)
    (dms : list Manifest) (e : JsThrown) :
  validateBuildConfig (set_writeCompiledToDisk false c) = Returned c1 ->
  generateDependentManifests ext (collections c1) (rootDir c1) (destDir c1) = Returned dms ->
  compile ext (compiler_config_of c1) = Threw e ->
  st_filesToWrite (build ext c).2 = ∅ /\
  bundle_calls (st_trace (build ext c).2) = [] /\
  write_calls (st_trace (build ext c).2) = [] /\
  match thrown_toString e with
  | Some msg =>
      (build ext c).1 =
        Returned {| res_diagnostics :=
                      [{| d_msg := msg; d_type := Some "error"; d_level := None;
                          d_filePath := None; d_start := None; d_length := None;
                          d_category := None; d_code := None;
                          d_stack := thrown_stack e |}];
                    res_manifest := {| components := [] |};
                    res_componentRegistry := [] |} /\
      st_trace (build ext c).2 =
        [EvLogger "createTimeSpan" (started_message c); EvConnect (numWorkers c);
         EvGenerateDependentManifests (collections c1) (rootDir c1) (destDir c1);
         EvCompile (compiler_config_of c1);
         EvLogger "error"
           (if String.eqb (level (logger c)) "debug" && truthy_ostr (thrown_stack e)
            then default "" (thrown_stack e) else msg)]
        ++ closing_events c
  | None =>
      (build ext c).1 =
        Threw (TypeError "Cannot read property 'toString' of undefined") /\
      st_trace (build ext c).2 =
        [EvLogger "createTimeSpan" (started_message c); EvConnect (numWorkers c);
         EvGenerateDependentManifests (collections c1) (rootDir c1) (destDir c1);
         EvCompile (compiler_config_of c1)]
  end.
Proof.
  intros Hv Hgdm Hcompile.
  destruct (closing_events_validated _ _ Hv) as (Hclose & _ & _).
  rewrite build_run. unfold chain, catch, stages.
  rewrite bind_run, stage_validate_run. normalize_state. rewrite Hv, Hgdm.
  rewrite bind_run, stage_compile_run. normalize_state. rewrite Hcompile.
  rewrite on_error_run. destruct (thrown_toString e) as [msg|]; normalize_state.
  - rewrite finalize_run. normalize_state.
    assert (Hall : forallb (loggable (logger c))
              ([] ++ [error_diagnostic msg (thrown_stack e)]) = true).
    { simpl. by rewrite error_diagnostic_loggable. }
    rewrite Hall. normalize_state. rewrite Hclose. cbn [map app].
    rewrite log_event_error.
    split_and!; try done; unfold closing_events; by destruct (isWatch c).
  - by split_and!.
Qed.

Lemma build_when_compile_rejects_witness :
  validateBuildConfig (set_writeCompiledToDisk false debug_config) =
    Returned running_debug_config /\
  (build failing_compile_collaborators debug_config).1 =
    Returned {| res_diagnostics :=
                  [{| d_msg := "Error: EACCES: permission denied";
                      d_type := Some "error"; d_level := None;
                      d_filePath := None; d_start := None; d_length := None;
                      d_category := None; d_code := None;
                      d_stack := Some "Error: EACCES at write" |}];
                res_manifest := {| components := [] |};
                res_componentRegistry := [] |} /\
  EvLogger "error" "Error: EACCES at write"
    ∈ st_trace (build failing_compile_collaborators debug_config).2 /\
  write_calls (st_trace (build failing_compile_collaborators debug_config).2) = [].
Proof.
  assert (Hv : validateBuildConfig (set_writeCompiledToDisk false debug_config) =
               Returned running_debug_config) by reflexivity.
  split; [exact Hv|].
  destruct (build_when_compile_rejects failing_compile_collaborators debug_config
              _ [] sample_error Hv eq_refl eq_refl)
    as (_ & _ & Hw & Hr & Ht).
  split; [exact Hr|]. split; [|exact Hw].
  rewrite Ht. vm_compute. do 4 apply list_elem_of_further. apply list_elem_of_here.
Defined.

(** The run of a build whose stages all return, up to the write step. *)
Lemma chain_through_project_files ext c c1 dms cr lm m br files' :
  validateBuildConfig (set_writeCompiledToDisk false c) = Returned c1 ->
  generateDependentManifests ext (collections c1) (rootDir c1) (destDir c1) = Returned dms ->
  compile ext (compiler_config_of c1) = Returned cr ->
  updateManifestUrls ext (default {| components := [] |} (manifest cr))
                     (destDir c1) (destDir c1) = Returned lm ->
  mergeManifests ext (option_list lm ++ dms) = Returned m ->
  bundle ext (bundler_config_of c1 m) = Returned br ->
  generateProjectFiles ext c1 (componentRegistry br) (merged_files cr br) = Returned files' ->
  let stW :=
    {| st_config := c1;
       st_diagnostics := default [] (diagnostics cr) ++ default [] (br_diagnostics br);
       st_filesToWrite := files';
       st_trace :=
         [EvLogger "createTimeSpan" (started_message c); EvConnect (numWorkers c);
          EvGenerateDependentManifests (collections c1) (rootDir c1) (destDir c1);
          EvCompile (compiler_config_of c1);
          EvUpdateManifestUrls (default {| components := [] |} (manifest cr));
          EvMergeManifests (option_list lm ++ dms);
          EvBundle (bundler_config_of c1 m);
          EvGenerateProjectFiles (componentRegistry br)] |} in
  chain ext (state_before_validation c) =
    match stage_write ext stW with
    | (Returned a, st') => (Returned a, st')
    | (Threw e, st') => on_error e st'
    end.
Proof.
  intros Hv Hgdm Hcompile Humu Hmerge Hbundle Hgpf stW.
  unfold chain, catch, stages.
  rewrite bind_run, stage_validate_run. normalize_state. rewrite Hv, Hgdm.
  rewrite bind_run, stage_compile_run. normalize_state. rewrite Hcompile.
  normalize_state. rewrite Humu, Hmerge.
  rewrite bind_run, stage_bundle_run. normalize_state. rewrite Hbundle.
  normalize_state. unfold merged_files in Hgpf. rewrite Hgpf.
  reflexivity.
Qed.

(** X7. A build whose stages all return and whose diagnostics can all be
    logged: the promise resolves with the diagnostics of [compile] followed
    by those of [bundle]; the files handed to [generateProjectFiles] are the
    bundle's laid over the compile's (the bundle wins on a shared path); what
    [generateProjectFiles] leaves is written once, to [destDir], with
    [writeFiles] in dev mode and [updateDirectories] otherwise; then every
    diagnostic is logged and the closing steps run. *)
Theorem build_goes_through (ext : Collaborators) (c c1 : BuildConfig)
    (dms : list Manifest) (cr : CompileResults) (lm : option Manifest) (m : Manifest)
    (br : BundleResults) (files' : gmap string string) :
  validateBuildConfig (set_writeCompiledToDisk false c) = Returned c1 ->
  generateDependentManifests ext (collections c1) (rootDir c1) (destDir c1) = Returned dms ->
  compile ext (compiler_config_of c1) = Returned cr ->
  updateManifestUrls ext (default {| components := [] |} (manifest cr))
                     (destDir c1) (destDir c1) = Returned lm ->
  mergeManifests ext (option_list lm ++ dms) = Returned m ->
  bundle ext (bundler_config_of c1 m) = Returned br ->
  generateProjectFiles ext c1 (componentRegistry br) (merged_files cr br) = Returned files' ->
  (if isDevMode c then writeFiles ext files' (destDir c)
   else updateDirectories ext files' (destDir c)) = Returned tt ->
  forallb (loggable (logger c))
          (default [] (diagnostics cr) ++ default [] (br_diagnostics br)) = true ->
  (build ext c).1 =
    Returned (empty_results (default [] (diagnostics cr) ++ default [] (br_diagnostics br))) /\
  st_filesToWrite (build ext c).2 = files' /\
  st_trace (build ext c).2 =
    [EvLogger "createTimeSpan" (started_message c); EvConnect (numWorkers c);
     EvGenerateDependentManifests (collections c1) (rootDir c1) (destDir c1);
     EvCompile (compiler_config_of c1);
     EvUpdateManifestUrls (default {| components := [] |} (manifest cr));
     EvMergeManifests (option_list lm ++ dms);
     EvBundle (bundler_config_of c1 m);
     EvGenerateProjectFiles (componentRegistry br);
     if isDevMode c then EvWriteFiles files' (destDir c)
     else EvUpdateDirectories files' (destDir c)]
    ++ map (log_event (logger c))
           (default [] (diagnostics cr) ++ default [] (br_diagnostics br))
    ++ closing_events c /\
  (forall p, merged_files cr br !! p =
     match default ∅ (br_filesToWrite br) !! p with
     | Some text => Some text
     | None => default ∅ (filesToWrite cr) !! p
     end).
Proof.
  intros Hv Hgdm Hcompile Humu Hmerge Hbundle Hgpf Hwrite Hlog.
  destruct (closing_events_validated _ _ Hv) as (Hclose & Hdev & Hdest).
  rewrite build_run.
  rewrite (chain_through_project_files ext c c1 dms cr lm m br files'
             Hv Hgdm Hcompile Humu Hmerge Hbundle Hgpf).
  rewrite stage_write_run. normalize_state. rewrite Hdev, Hdest.
  assert (Hmerged : forall p, merged_files cr br !! p =
            match default ∅ (br_filesToWrite br) !! p with
            | Some text => Some text
            | None => default ∅ (filesToWrite cr) !! p
            end).
  { intros p. unfold merged_files. rewrite (right_id_L ∅ (∪)), lookup_union.
    destruct (default ∅ (br_filesToWrite br) !! p); [|by rewrite (left_id_L None _)].
    by destruct (default ∅ (filesToWrite cr) !! p). }
  destruct (isDevMode c); rewrite Hwrite; rewrite finalize_run; normalize_state;
    rewrite Hlog; normalize_state; rewrite Hclose; by split_and!.
Qed.

Lemma build_goes_through_witness :
  validateBuildConfig (set_writeCompiledToDisk false sample_config) =
    Returned running_sample_config /\
  forallb (loggable (logger sample_config))
          (default [] (diagnostics sample_compile_results)
           ++ default [] (br_diagnostics sample_bundle_results)) = true /\
  (build quiet_collaborators sample_config).1 =
    Returned (empty_results [sample_warning "unused import"; sample_warning "large bundle"]) /\
  st_filesToWrite (build quiet_collaborators sample_config).2 = sample_written_files /\
  sample_written_files !! "/dist/cmp.js" = Some "bundled".
Proof.
  assert (Hv : validateBuildConfig (set_writeCompiledToDisk false sample_config) =
               Returned running_sample_config) by reflexivity.
  assert (Hlog : forallb (loggable (logger sample_config))
                   (default [] (diagnostics sample_compile_results)
                    ++ default [] (br_diagnostics sample_bundle_results)) = true)
    by reflexivity.
  split; [exact Hv|]. split; [exact Hlog|].
  destruct (build_goes_through quiet_collaborators sample_config running_sample_config []
              sample_compile_results
              (Some {| components := [] |}) {| components := ["my-cmp"] |}
              sample_bundle_results sample_written_files
              Hv eq_refl eq_refl eq_refl eq_refl eq_refl eq_refl eq_refl Hlog)
    as (Hr & Hf & _ & _).
  split; [exact Hr|]. split; [exact Hf|]. by vm_compute.
Defined.



(** ** transpile: createTsCompilerConfigs *)

Lemma indexOf_zero x xs :
  (indexOf x xs =? 0)%Z = match xs with y :: _ => String.eqb y x | [] => false end.
Proof.
  destruct xs as [|y xs]; simpl; [done|].
  destruct (String.eqb y x); [done|].
  assert (H : (-1 <= indexOf x xs)%Z).
  { clear. induction xs as [|z xs IH]; simpl; [lia|].
    destruct (String.eqb z x); [lia|]. destruct (indexOf x xs <? 0)%Z eqn:E; lia. }
  destruct (indexOf x xs <? 0)%Z eqn:E; lia.
Qed.

Lemma push_if_not_indexOf_head name lib :
  push_if_not_indexOf name lib =
    match lib with
    | first :: _ => if String.eqb first name then lib ++ [name] else lib
    | [] => []
    end.
Proof. unfold push_if_not_indexOf. rewrite indexOf_zero. by destruct lib. Qed.

(** X9. [createTsCompilerConfigs] never adds a library that is missing from
    [lib]: an absent or empty [lib] stays empty, and otherwise the only change
    is that a first entry which is one of lib.dom.d.ts, lib.es2015.d.ts,
    lib.es5.d.ts is appended once more at the end. *)
Theorem createTsCompilerConfigs_lib (compilerConfig : CompilerConfig)
    (lib : option (list string)) :
  tsc_lib (createTsCompilerConfigs compilerConfig lib) =
    match lib with
    | Some (first :: rest) =>
        if existsb (String.eqb first) default_libs
        then first :: rest ++ [first] else first :: rest
    | _ => []
    end.
Proof.
  unfold createTsCompilerConfigs. simpl. rewrite !push_if_not_indexOf_head.
  destruct lib as [[|first rest]|]; simpl; try done.
  destruct (String.eqb_spec first "lib.dom.d.ts") as [->|H1]; simpl; [done|].
  destruct (String.eqb_spec first "lib.es2015.d.ts") as [->|H2]; simpl; [done|].
  by destruct (String.eqb_spec first "lib.es5.d.ts") as [->|H3].
Qed.

(** X10. The TypeScript options of every file that a build compiles: the
    config that [compileProject] hands to [compile] always turns into output
    and root directories [destDir] and [srcDir], target ES5, module ES2015
    (not the "commonjs" of the config), and an empty [lib]. *)
Theorem build_ts_options (ext : Collaborators) (c : BuildConfig) (cc : CompilerConfig) :
  cc ∈ compile_calls (st_trace (build ext c).2) ->
  createTsCompilerConfigs cc None =
    {| tsc_outDir := destDir c; tsc_rootDir := srcDir c;
       tsc_module := ModuleKind_ES2015; tsc_target := ScriptTarget_ES5;
       tsc_noImplicitUseStrict := true; tsc_moduleResolution := ModuleResolution_NodeJs;
       tsc_isolatedModules := true; tsc_allowSyntheticDefaultImports := true;
       tsc_allowJs := true; tsc_jsx := JsxEmit_React; tsc_jsxFactory := "h";
       tsc_lib := [] |}.
Proof.
  intros (c1 & Hv & ->)%compile_call_of_build.
  destruct (validate_fields _ _ Hv) as (Hsrc & Hdest & _).
  unfold createTsCompilerConfigs, compiler_config_of. simpl. by rewrite Hsrc, Hdest.
Qed.

Lemma build_ts_options_witness :
  compiler_config_of running_sample_config
    ∈ compile_calls (st_trace (build quiet_collaborators sample_config).2) /\
  tsc_target (createTsCompilerConfigs (compiler_config_of running_sample_config) None) =
    ScriptTarget_ES5 /\
  tsc_lib (createTsCompilerConfigs (compiler_config_of running_sample_config) None) = [].
Proof.
  assert (H : compiler_config_of running_sample_config
                ∈ compile_calls (st_trace (build quiet_collaborators sample_config).2)).
  { vm_compute. apply list_elem_of_here. }
  split; [exact H|].
  rewrite (build_ts_options quiet_collaborators sample_config _ H). by split.
Defined.

(** ** transpile: what writeFile does to the module files *)

Lemma touch_moduleFile_idemp p t m :
  touch_moduleFile p t (touch_moduleFile p t m) = touch_moduleFile p t m.
Proof. reflexivity. Qed.

Lemma writeFile_sources_moduleFiles sys compilerConfig w fileNames st fileName :
  let step := fun st fileName =>
    match moduleFiles st !! fileName with
    | Some moduleFile =>
        let moduleFile := touch_moduleFile (w_jsFilePath w) (w_jsText w) moduleFile in
        let st := with_moduleFiles (<[fileName := moduleFile]> (moduleFiles st)) st in
        (processIncludedStyles sys compilerConfig moduleFile st).2
    | None => st
    end in
  moduleFiles (fold_left step fileNames st) !! fileName =
    if bool_decide (fileName ∈ fileNames)
    then touch_moduleFile (w_jsFilePath w) (w_jsText w) <$> (moduleFiles st !! fileName)
    else moduleFiles st !! fileName.
Proof.
  intros step. revert st. induction fileNames as [|f fileNames IH]; intros st.
  { by rewrite bool_decide_false by apply not_elem_of_nil. }
  cbn [fold_left]. rewrite IH. clear IH.
  assert (Hstep : moduleFiles (step st f) !! fileName =
            if bool_decide (f = fileName)
            then touch_moduleFile (w_jsFilePath w) (w_jsText w) <$> (moduleFiles st !! fileName)
            else moduleFiles st !! fileName).
  { unfold step. destruct (moduleFiles st !! f) as [moduleFile|] eqn:Hf.
    - destruct (processIncludedStyles_effect sys compilerConfig
                  (touch_moduleFile (w_jsFilePath w) (w_jsText w) moduleFile)
                  (with_moduleFiles
                     (<[f:=touch_moduleFile (w_jsFilePath w) (w_jsText w) moduleFile]>
                        (moduleFiles st)) st)) as (_ & _ & -> & _).
      cbn [moduleFiles with_moduleFiles]. case_bool_decide as Heq.
      + subst. by rewrite lookup_insert_eq, Hf.
      + by rewrite lookup_insert_ne.
    - case_bool_decide as Heq; [|done]. subst. by rewrite Hf. }
  rewrite Hstep.
  destruct (decide (f = fileName)) as [->|Hne]; repeat case_bool_decide; try done;
    try (exfalso;
         match goal with H : ¬ _ |- _ => apply H end;
         first [apply list_elem_of_here | by apply list_elem_of_further]);
    try (match goal with H : _ ∈ _ :: _ |- _ => by inv H end).
  destruct (moduleFiles st !! fileName); simpl; [|done].
  by rewrite touch_moduleFile_idemp.
Qed.

(** X11. [writeFile] touches exactly the module files that are named among
    its source files and already known: each of them gets the emitted path
    and text and is flagged for recompilation; no entry is added for an
    unknown source file, and every other entry stays as it was. *)
Theorem writeFile_touches_known_sources (sys : TranspileSystem)
    (compilerConfig : CompilerConfig) (w : WriteFileCall) (st : TranspileState)
    (fileName : string) :
  moduleFiles (writeFile sys compilerConfig w st) !! fileName =
    (if bool_decide (fileName ∈ w_sourceFiles w)
     then touch_moduleFile (w_jsFilePath w) (w_jsText w) <$> (moduleFiles st !! fileName)
     else moduleFiles st !! fileName) /\
  (is_Some (moduleFiles (writeFile sys compilerConfig w st) !! fileName) <->
   is_Some (moduleFiles st !! fileName)) /\
  (forall moduleFile,
     fileName ∈ w_sourceFiles w ->
     moduleFiles st !! fileName = Some moduleFile ->
     exists touched,
       moduleFiles (writeFile sys compilerConfig w st) !! fileName = Some touched /\
       mf_recompileOnChange touched = true /\
       mf_jsFilePath touched = Some (w_jsFilePath w) /\
       mf_jsText touched = Some (w_jsText w) /\
       mf_srcText touched = mf_srcText moduleFile /\
       mf_cmpMeta touched = mf_cmpMeta moduleFile).
Proof.
  assert (H : moduleFiles (writeFile sys compilerConfig w st) !! fileName =
    (if bool_decide (fileName ∈ w_sourceFiles w)
     then touch_moduleFile (w_jsFilePath w) (w_jsText w) <$> (moduleFiles st !! fileName)
     else moduleFiles st !! fileName)).
  { unfold writeFile. simpl.
    apply (writeFile_sources_moduleFiles sys compilerConfig w (w_sourceFiles w) st). }
  split; [exact H|]. split.
  - rewrite H. case_bool_decide; [|done]. by rewrite fmap_is_Some.
  - intros moduleFile Hin Hlook. rewrite H, bool_decide_true, Hlook by done.
    eexists. split; [reflexivity|]. done.
Qed.

(** ** transpile: what ends up in includedSassFiles *)

Lemma elem_of_push_unique x xs y : x ∈ push_unique xs y <-> x ∈ xs \/ x = y.
Proof.
  unfold push_unique. destruct (existsb (String.eqb y) xs) eqn:Hy.
  - apply elem_of_existsb_eqb in Hy. split; [by left|]. by intros [?| ->].
  - rewrite elem_of_app, list_elem_of_singleton. done.
Qed.

Lemma elem_of_fold_push_unique x ys xs :
  x ∈ fold_left push_unique ys xs <-> x ∈ xs \/ x ∈ ys.
Proof.
  revert xs. induction ys as [|y ys IH]; intros xs; simpl.
  - split; [by left|]. intros [?|H]; [done|by inv H].
  - rewrite IH, elem_of_push_unique, elem_of_cons. tauto.
Qed.

Lemma fold_left_invariant {A B} (P : A -> Prop) (f : A -> B -> A) l a :
  P a -> (forall a b, P a -> P (f a b)) -> P (fold_left f l a).
Proof.
  intros Ha Hf. revert a Ha. induction l as [|b l IH]; intros a Ha; simpl; [done|].
  apply IH, Hf, Ha.
Qed.

Lemma getIncludedSassFiles_recorded p st :
  renders_recorded st -> renders_recorded (getIncludedSassFiles p st).2.
Proof.
  intros H q. rewrite getIncludedSassFiles_renders, getIncludedSassFiles_included.
  rewrite elem_of_app, list_elem_of_singleton, elem_of_push_unique.
  intros [Hq| ->]; [left; by apply H|by right].
Qed.

Lemma processIncludedStyles_recorded sys compilerConfig moduleFile st :
  renders_recorded st ->
  renders_recorded (processIncludedStyles sys compilerConfig moduleFile st).2.
Proof.
  intros H. unfold processIncludedStyles.
  destruct ((if mf_isTsSourceFile moduleFile then mf_cmpMeta moduleFile else None)
            ≫= styleMeta) as [modes|]; [|done].
  apply (fold_left_invariant (fun acc => renders_recorded acc.2)).
  - intros q Hq. simpl in *. specialize (H q Hq). unfold included in *. simpl.
    by destruct (includedSassFiles (results st)).
  - intros [ids st'] url Hst'. simpl in *.
    by apply getIncludedSassFiles_recorded.
Qed.

Lemma writeFile_recorded sys compilerConfig w st :
  renders_recorded st -> renders_recorded (writeFile sys compilerConfig w st).
Proof.
  intros H. unfold writeFile.
  assert (Hfold : renders_recorded
            (fold_left
               (fun st fileName =>
                  match moduleFiles st !! fileName with
                  | Some moduleFile =>
                      let moduleFile :=
                        touch_moduleFile (w_jsFilePath w) (w_jsText w) moduleFile in
                      let st :=
                        with_moduleFiles (<[fileName := moduleFile]> (moduleFiles st)) st in
                      (processIncludedStyles sys compilerConfig moduleFile st).2
                  | None => st
                  end) (w_sourceFiles w) st)).
  { apply (fold_left_invariant renders_recorded); [done|].
    intros st' fileName Hst'. destruct (moduleFiles st' !! fileName); [|done].
    by apply processIncludedStyles_recorded. }
  exact Hfold.
Qed.

Lemma transpileFile_recorded sys program_emit ctx compilerConfig :
  renders_recorded (transpileFile sys program_emit ctx compilerConfig).
Proof.
  unfold transpileFile.
  assert (H : renders_recorded
            (fold_left (fun st w => writeFile sys compilerConfig w st)
               (emit_writes (program_emit customTransformers)) (new_transpile_state ctx))).
  { apply (fold_left_invariant renders_recorded).
    - intros q Hq. by inv Hq.
    - intros st w Hst. by apply writeFile_recorded. }
  exact H.
Qed.

Lemma fire_callback_included sys st id p :
  p ∈ included st -> p ∈ included (fire_callback sys st id).
Proof.
  intros Hp. unfold fire_callback. destruct (renders st !! id) as [c|]; [|done].
  case_bool_decide; [done|]. unfold render_callback.
  destruct (render (t_sass sys) c) as [err|files]; [done|].
  unfold included. simpl. apply elem_of_fold_push_unique. by left.
Qed.

Lemma run_callbacks_included sys sched st p :
  p ∈ included st -> p ∈ included (run_callbacks sys sched st).
Proof.
  revert st. induction sched as [|id sched IH]; intros st Hp; [done|].
  simpl. by apply IH, fire_callback_included.
Qed.

(** X12. Every path the style compiler was called for is in
    [includedSassFiles], at the return of [transpileFile] and after any
    callbacks, whether its render succeeds, fails or never answers. *)
Theorem rendered_paths_are_recorded (sys : TranspileSystem)
    (program_emit : CustomTransformers -> EmitOutput) (ctx : gmap string ModuleFileMeta)
    (compilerConfig : CompilerConfig) (sched : list nat) (p : string) :
  p ∈ map file (renders (run_callbacks sys sched
                           (transpileFile sys program_emit ctx compilerConfig))) ->
  p ∈ included (transpileFile sys program_emit ctx compilerConfig) /\
  p ∈ included (run_callbacks sys sched
                  (transpileFile sys program_emit ctx compilerConfig)).
Proof.
  destruct (run_callbacks_effect sys sched
              (transpileFile sys program_emit ctx compilerConfig)) as (_ & -> & _).
  intros Hp. apply transpileFile_recorded in Hp.
  split; [done|]. by apply run_callbacks_included.
Qed.

Lemma rendered_paths_are_recorded_witness :
  "/src/cmp/missing.scss"
    ∈ map file (renders (run_callbacks sample_transpile_sys [0]
                           (transpileFile sample_transpile_sys (emit_each ["/src/cmp/a.tsx"])
                              missing_style_ctx sample_compiler_config))) /\
  "/src/cmp/missing.scss"
    ∈ included (run_callbacks sample_transpile_sys [0]
                  (transpileFile sample_transpile_sys (emit_each ["/src/cmp/a.tsx"])
                     missing_style_ctx sample_compiler_config)).
Proof.
  assert (H : "/src/cmp/missing.scss"
    ∈ map file (renders (run_callbacks sample_transpile_sys [0]
                           (transpileFile sample_transpile_sys (emit_each ["/src/cmp/a.tsx"])
                              missing_style_ctx sample_compiler_config)))).
  { vm_compute. apply list_elem_of_here. }
  split; [exact H|].
  exact (proj2 (rendered_paths_are_recorded sample_transpile_sys
                  (emit_each ["/src/cmp/a.tsx"]) missing_style_ctx sample_compiler_config
                  [0] _ H)).
Defined.

Lemma fire_callback_succeeding sys st id c files :
  renders st !! id = Some c ->
  render (t_sass sys) c = SassResult files ->
  (id ∈ resolved st -> Forall (fun f => f ∈ included st) files) ->
  id ∈ resolved (fire_callback sys st id) /\
  Forall (fun f => f ∈ included (fire_callback sys st id)) files.
Proof.
  intros Hc Hr Hinv. unfold fire_callback. rewrite Hc.
  case_bool_decide as Hres; [by auto|]. rewrite Hr. unfold render_callback.
  split.
  - simpl. apply elem_of_app. right. by apply list_elem_of_singleton.
  - apply Forall_forall. intros f Hf. unfold included. simpl.
    apply elem_of_fold_push_unique. by right.
Qed.

Lemma run_callbacks_succeeding sys sched st id c files :
  renders st !! id = Some c ->
  render (t_sass sys) c = SassResult files ->
  (id ∈ resolved st -> Forall (fun f => f ∈ included st) files) ->
  id ∈ sched ->
  id ∈ resolved (run_callbacks sys sched st) /\
  Forall (fun f => f ∈ included (run_callbacks sys sched st)) files.
Proof.
  intros Hc Hr. revert st Hc.
  induction sched as [|id' sched IH]; intros st Hc Hinv Hin; [by inv Hin|].
  simpl. destruct (decide (id' = id)) as [->|Hne].
  - destruct (fire_callback_succeeding sys st id c files Hc Hr Hinv) as [R L].
    destruct (run_callbacks_effect sys sched (fire_callback sys st id))
      as (_ & _ & _ & _ & P5 & _).
    split; [eapply elem_of_prefix; [exact R|exact P5]|].
    eapply Forall_impl; [exact L|]. intros f Hf. by apply run_callbacks_included.
  - destruct (fire_callback_effect sys st id') as (_ & F2 & _ & _ & _ & _).
    apply IH.
    + by rewrite F2.
    + intros Hres. eapply Forall_impl; [apply Hinv|].
      * revert Hres. unfold fire_callback.
        destruct (renders st !! id') as [c'|]; [|done].
        case_bool_decide; [done|].
        destruct (render_callback_effect id' (render (t_sass sys) c') st)
          as (_ & _ & _ & _ & H5 & _).
        rewrite H5. intros [?|?%list_elem_of_singleton]%elem_of_app; [done|congruence].
      * intros f Hf. by apply fire_callback_included.
    + by inv Hin.
Qed.

(** X13. When a render succeeds and its callback fires, its promise is
    resolved and every file the style compiler reports as included is in
    [includedSassFiles] from then on. *)
Theorem reported_includes_are_recorded (sys : TranspileSystem)
    (program_emit : CustomTransformers -> EmitOutput) (ctx : gmap string ModuleFileMeta)
    (compilerConfig : CompilerConfig) (sched : list nat)
    (id : nat) (c : SassConfig) (files : list string) :
  renders (transpileFile sys program_emit ctx compilerConfig) !! id = Some c ->
  render (t_sass sys) c = SassResult files ->
  id ∈ sched ->
  id ∈ resolved (run_callbacks sys sched
                   (transpileFile sys program_emit ctx compilerConfig)) /\
  Forall (fun f => f ∈ included (run_callbacks sys sched
                                   (transpileFile sys program_emit ctx compilerConfig)))
         files.
Proof.
  intros Hc Hr Hin.
  destruct (transpileFile_effect sys program_emit ctx compilerConfig)
    as (_ & _ & _ & _ & T5).
  apply (run_callbacks_succeeding sys sched _ id c files Hc Hr); [|done].
  rewrite T5. by intros ?%elem_of_nil.
Qed.

Lemma reported_includes_are_recorded_witness :
  renders (transpileFile sample_transpile_sys (emit_each ["/src/cmp/a.tsx"])
             plain_style_ctx sample_compiler_config) !! 0 =
    Some {| file := "/src/cmp/a.scss"; outFile := "/src/cmp/a.scss.tmp" |} /\
  render (t_sass sample_transpile_sys)
         {| file := "/src/cmp/a.scss"; outFile := "/src/cmp/a.scss.tmp" |} =
    SassResult ["/src/cmp/a.scss"; "/src/global/vars.scss"] /\
  0 ∈ [0] /\
  Forall (fun f => f ∈ included (run_callbacks sample_transpile_sys [0]
                                   (transpileFile sample_transpile_sys
                                      (emit_each ["/src/cmp/a.tsx"])
                                      plain_style_ctx sample_compiler_config)))
         ["/src/cmp/a.scss"; "/src/global/vars.scss"].
Proof.
  split; [reflexivity|]. split; [reflexivity|]. split; [apply list_elem_of_here|].
  apply (reported_includes_are_recorded sample_transpile_sys (emit_each ["/src/cmp/a.tsx"])
           plain_style_ctx sample_compiler_config [0] 0
           {| file := "/src/cmp/a.scss"; outFile := "/src/cmp/a.scss.tmp" |});
    [reflexivity|reflexivity|apply list_elem_of_here].
Defined.

(** ** transpile: the emitted scripts *)

Lemma written_lookup p ws (m : gmap string string) :
  fold_left (fun m w => <[w_jsFilePath w := w_jsText w]> m) ws m !! p =
    match last_written p ws with
    | Some text => Some text
    | None => m !! p
    end.
Proof.
  revert m. induction ws as [|w ws IH]; intros m; [done|].
  cbn [fold_left]. rewrite IH. unfold last_written. cbn [List.filter].
  destruct (String.eqb_spec (w_jsFilePath w) p) as [Heq|Hne].
  - rewrite last_cons.
    destruct (last (List.filter (fun w0 => String.eqb (w_jsFilePath w0) p) ws)); simpl;
      [done|].
    by rewrite <- Heq, lookup_insert_eq.
  - destruct (last (List.filter (fun w0 => String.eqb (w_jsFilePath w0) p) ws)); simpl;
      [done|].
    by rewrite lookup_insert_ne.
Qed.

(** X14. [jsFiles] holds, for every path, the text of the last [writeFile]
    call for that path, and nothing for a path that was never written; style
    processing and render callbacks never touch it. *)
Theorem jsFiles_keep_last_write (sys : TranspileSystem)
    (program_emit : CustomTransformers -> EmitOutput) (ctx : gmap string ModuleFileMeta)
    (compilerConfig : CompilerConfig) (sched : list nat) (p : string) :
  jsFiles (results (run_callbacks sys sched
                      (transpileFile sys program_emit ctx compilerConfig))) !! p =
    last_written p (emit_writes (program_emit customTransformers)).
Proof.
  destruct (transpileFile_effect sys program_emit ctx compilerConfig)
    as (_ & _ & T3 & _).
  destruct (run_callbacks_effect sys sched
              (transpileFile sys program_emit ctx compilerConfig)) as (_ & _ & R3 & _).
  rewrite R3, T3. unfold written_files. rewrite written_lookup.
  by destruct (last_written p _).
Qed.

Lemma processIncludedStyles_without_styles sys compilerConfig moduleFile st :
  without_styles moduleFile ->
  processIncludedStyles sys compilerConfig moduleFile st = ([], st).
Proof. unfold without_styles, processIncludedStyles. by intros ->. Qed.

(** X17. A [writeFile] whose known source files are not TypeScript source,
    or carry no component, or a component without styles, does no style work
    at all: the style compiler is not called, nothing is logged, and
    [includedSassFiles] is left as it was (not even created); only the
    emitted script is stored. *)
Theorem writeFile_without_styles (sys : TranspileSystem) (compilerConfig : CompilerConfig)
    (w : WriteFileCall) (st : TranspileState) :
  (forall fileName moduleFile,
     fileName ∈ w_sourceFiles w -> moduleFiles st !! fileName = Some moduleFile ->
     without_styles moduleFile) ->
  renders (writeFile sys compilerConfig w st) = renders st /\
  log (writeFile sys compilerConfig w st) = log st /\
  resolved (writeFile sys compilerConfig w st) = resolved st /\
  results (writeFile sys compilerConfig w st) =
    set_jsFile (w_jsFilePath w) (w_jsText w) (results st).
Proof.
  intros Hplain. unfold writeFile.
  set (step := fun st fileName =>
         match moduleFiles st !! fileName with
         | Some moduleFile =>
             let moduleFile := touch_moduleFile (w_jsFilePath w) (w_jsText w) moduleFile in
             let st := with_moduleFiles (<[fileName := moduleFile]> (moduleFiles st)) st in
             (processIncludedStyles sys compilerConfig moduleFile st).2
         | None => st
         end).
  assert (Hfold : forall fileNames st',
            (forall fileName moduleFile,
               fileName ∈ fileNames -> moduleFiles st' !! fileName = Some moduleFile ->
               without_styles moduleFile) ->
            renders (fold_left step fileNames st') = renders st' /\
            log (fold_left step fileNames st') = log st' /\
            resolved (fold_left step fileNames st') = resolved st' /\
            results (fold_left step fileNames st') = results st').
  { induction fileNames as [|f fileNames IH]; intros st' H; [done|].
    cbn [fold_left].
    assert (Hstep : renders (step st' f) = renders st' /\ log (step st' f) = log st' /\
                    resolved (step st' f) = resolved st' /\
                    results (step st' f) = results st' /\
                    forall fileName moduleFile,
                      fileName ∈ fileNames ->
                      moduleFiles (step st' f) !! fileName = Some moduleFile ->
                      without_styles moduleFile).
    { unfold step. destruct (moduleFiles st' !! f) as [moduleFile|] eqn:Hf.
      - assert (Hw : without_styles
                       (touch_moduleFile (w_jsFilePath w) (w_jsText w) moduleFile)).
        { apply (H f moduleFile); [apply list_elem_of_here|done]. }
        cbv zeta. rewrite (processIncludedStyles_without_styles _ _ _ _ Hw).
        split_and!; try done.
        intros fileName moduleFile' Hin. cbn [snd moduleFiles with_moduleFiles].
        destruct (decide (f = fileName)) as [->|Hne].
        + rewrite lookup_insert_eq. by intros [= <-].
        + rewrite lookup_insert_ne by done. apply H. by right.
      - split_and!; try done. intros fileName moduleFile' Hin. apply H. by right. }
    destruct Hstep as (S1 & S2 & S3 & S4 & S5).
    destruct (IH (step st' f) S5) as (I1 & I2 & I3 & I4).
    by rewrite I1, I2, I3, I4. }
  destruct (Hfold (w_sourceFiles w) st Hplain) as (F1 & F2 & F3 & F4).
  fold step. cbn [renders log resolved results with_results]. by rewrite F1, F2, F3, F4.
Qed.

Lemma writeFile_without_styles_witness :
  (forall fileName moduleFile,
     fileName ∈ w_sourceFiles plain_module_write ->
     moduleFiles (new_transpile_state plain_module_ctx) !! fileName = Some moduleFile ->
     without_styles moduleFile) /\
  renders (writeFile sample_transpile_sys sample_compiler_config plain_module_write
             (new_transpile_state plain_module_ctx)) = [] /\
  includedSassFiles
    (results (writeFile sample_transpile_sys sample_compiler_config plain_module_write
                (new_transpile_state plain_module_ctx))) = None.
Proof.
  assert (H : forall fileName moduleFile,
            fileName ∈ w_sourceFiles plain_module_write ->
            moduleFiles (new_transpile_state plain_module_ctx) !! fileName = Some moduleFile ->
            without_styles moduleFile).
  { intros fileName moduleFile Hin%list_elem_of_singleton. subst fileName.
    intros Hlook. vm_compute in Hlook. injection Hlook as <-. reflexivity. }
  split; [exact H|].
  destruct (writeFile_without_styles sample_transpile_sys sample_compiler_config
              plain_module_write (new_transpile_state plain_module_ctx) H)
    as (Hr & _ & _ & Hres).
  split; [exact Hr|]. by rewrite Hres.
Defined.

(** ** State markers: where the marker and the name may stand *)

Lemma after_State_decorator_split l rest :
  after_State_decorator l = Some rest ->
  exists pre d, l = pre ++ d :: rest /\ is_State_decorator d = true.
Proof.
  revert rest. induction l as [|n l IH]; intros rest; simpl; [done|].
  destruct (is_State_decorator n) eqn:Hn.
  - intros [= <-]. by exists [], n.
  - intros (pre & d & -> & Hd)%IH. by exists (n :: pre), d.
Qed.

Lemma after_State_decorator_none l :
  existsb is_State_decorator l = false -> after_State_decorator l = None.
Proof.
  induction l as [|n l IH]; simpl; [done|].
  intros [-> H]%orb_false_elim. by apply IH.
Qed.

Lemma after_State_decorator_app ds os :
  existsb is_State_decorator ds = true ->
  exists rest, after_State_decorator (ds ++ os) = Some (rest ++ os) /\
               forall n, n ∈ rest -> n ∈ ds.
Proof.
  induction ds as [|d ds IH]; simpl; [done|].
  destruct (is_State_decorator d) eqn:Hd; simpl.
  - intros _. exists ds. split; [done|]. intros n Hn. by right.
  - intros (rest & -> & Hrest)%IH. exists rest. split; [done|].
    intros n Hn. right. by apply Hrest.
Qed.

Lemma next_identifier_skip rest os :
  (forall n, n ∈ rest -> kind n = Decorator) ->
  next_identifier (rest ++ os) = next_identifier os.
Proof.
  induction rest as [|n rest IH]; intros H; simpl; [done|].
  rewrite (H n) by apply list_elem_of_here. simpl.
  apply IH. intros n' Hn'. apply H. by right.
Qed.

Lemma next_identifier_found l name :
  next_identifier l = Some name ->
  name <> "" /\ exists n, n ∈ l /\ kind n = Identifier /\ getText n = name.
Proof.
  induction l as [|n l IH]; simpl; [done|].
  destruct (bool_decide (kind n = Identifier) && truthy_str (getText n)) eqn:Hn.
  - intros [= <-]. apply andb_prop in Hn as [Hk Ht].
    apply bool_decide_eq_true in Hk. apply truthy_str_true in Ht.
    split; [done|]. exists n. split; [apply list_elem_of_here|done].
  - intros (Hne & n' & Hin & Hk & Ht)%IH. split; [done|].
    exists n'. split; [by right|done].
Qed.

Lemma is_State_decorator_kind n : is_State_decorator n = true -> kind n = Decorator.
Proof.
  unfold is_State_decorator. intros [[Hk _]%andb_prop _]%andb_prop.
  by apply bool_decide_eq_true in Hk.
Qed.

(** X15. For a member whose [decorators] are decorator nodes and whose other
    children are not, the position of the marker among the decorators does
    not matter: the member is recorded when any of its decorators passes the
    marker test, under the first non-empty identifier among its other
    children (modifiers and other non-identifier children are skipped), and
    it is not recorded when none passes. *)
Theorem state_name_ignores_marker_position (m : ClassElement) (ds : list Node) :
  decorators m = Some ds ->
  Forall (fun d => kind d = Decorator) ds ->
  Forall (fun n => kind n <> Decorator) (others m) ->
  state_name m =
    if existsb is_State_decorator ds then next_identifier (others m) else None.
Proof.
  intros Hds Hkinds Hothers. rewrite state_name_spec.
  unfold has_decorators, forEachChild. rewrite Hds. simpl.
  destruct (existsb is_State_decorator ds) eqn:Hex.
  - destruct ds as [|d ds']; [done|].
    destruct (after_State_decorator_app (d :: ds') (others m) Hex) as (rest & -> & Hrest).
    simpl. apply next_identifier_skip. intros n Hn.
    rewrite Forall_forall in Hkinds. by apply Hkinds, Hrest.
  - assert (Hnone : after_State_decorator (ds ++ others m) = None).
    { apply after_State_decorator_none. rewrite existsb_app, Hex. simpl.
      clear -Hothers. induction Hothers as [|n os Hn _ IH]; simpl; [done|].
      rewrite IH, orb_false_r.
      destruct (is_State_decorator n) eqn:E; [|done].
      by apply is_State_decorator_kind in E. }
    rewrite Hnone. by destruct ds.
Qed.

Lemma state_name_ignores_marker_position_witness :
  decorators doubly_decorated_member = Some [call_style_Prop; call_style_State] /\
  Forall (fun d => kind d = Decorator) [call_style_Prop; call_style_State] /\
  Forall (fun n => kind n <> Decorator) (others doubly_decorated_member) /\
  state_name doubly_decorated_member = Some "count".
Proof.
  assert (H1 : Forall (fun d => kind d = Decorator) [call_style_Prop; call_style_State]).
  { repeat constructor. }
  assert (H2 : Forall (fun n => kind n <> Decorator) (others doubly_decorated_member)).
  { repeat constructor; discriminate. }
  split; [reflexivity|]. split; [exact H1|]. split; [exact H2|].
  rewrite (state_name_ignores_marker_position doubly_decorated_member
             [call_style_Prop; call_style_State] eq_refl H1 H2).
  reflexivity.
Defined.

(** X16. The extraction never invents a name: every name in the result is
    the non-empty text of an identifier child of some member that has
    decorators and, among its children, a decorator passing the marker
    test. *)
Theorem state_names_come_from_members (members : list ClassElement) (name : string) :
  name ∈ (getStateDecoratorMeta members).1 ->
  name <> "" /\
  exists m d n,
    m ∈ members /\ state_name m = Some name /\ has_decorators m = true /\
    d ∈ forEachChild m /\ is_State_decorator d = true /\
    n ∈ forEachChild m /\ kind n = Identifier /\ getText n = name.
Proof.
  simpl. rewrite sort_perm. intros (m & Hm & Hname)%list_elem_of_omap.
  pose proof Hname as Hspec. rewrite state_name_spec in Hspec.
  destruct (has_decorators m) eqn:Hdec; [|done].
  destruct (after_State_decorator (forEachChild m)) as [rest|] eqn:Hafter; [|done].
  simpl in Hspec.
  destruct (after_State_decorator_split _ _ Hafter) as (pre & d & Hsplit & Hd).
  destruct (next_identifier_found _ _ Hspec) as (Hne & n & Hn & Hk & Ht).
  split; [done|]. exists m, d, n. rewrite Hsplit.
  split_and!; try done.
  - apply elem_of_app. right. apply list_elem_of_here.
  - apply elem_of_app. right. by right.
Qed.

Lemma state_names_come_from_members_witness :
  "count" ∈ (getStateDecoratorMeta [doubly_decorated_member]).1 /\
  "count" <> "" /\
  exists m d n,
    m ∈ [doubly_decorated_member] /\ state_name m = Some "count" /\
    has_decorators m = true /\
    d ∈ forEachChild m /\ is_State_decorator d = true /\
    n ∈ forEachChild m /\ kind n = Identifier /\ getText n = "count".
Proof.
  assert (H : "count" ∈ (getStateDecoratorMeta [doubly_decorated_member]).1).
  { vm_compute. apply list_elem_of_here. }
  split; [exact H|].
  exact (state_names_come_from_members [doubly_decorated_member] "count" H).
Defined.
